(** * ASD CLI: process supervisor, readiness prober and path resolver

    A shallow embedding of
      - [modules/core/proc/process-manager.mjs] (readiness primitives,
        [killProcessTree], [ProcessManager.startDaemon],
        [ProcessManager.stopByPidFile]), and
      - [modules/core/helpers/common.mjs] with
        [modules/core/helpers/global-config.mjs] (the path resolvers),
    together with the properties the specification states about them.

    JavaScript strings are modelled by [string]: a sequence of code units,
    of which only those below 256 are representable.  Numbers that the code
    only ever uses as integers (PIDs, HTTP status codes, milliseconds) are
    [Z]. *)

From Stdlib Require Import ZArith Lia Bool Ascii String DecimalString DecimalPos.
From stdpp Require Import base option list gmap strings.

Local Open Scope Z_scope.

(** ** JavaScript string and number primitives used by the sources *)

Module JS.

(** [s.length] *)
Definition length (s : string) : nat := String.length s.

(** [s.slice(n)] for [n >= 0]: the code units from index [n] on, the empty
    string once [n] reaches the length. *)
Fixpoint slice_from (n : nat) (s : string) : string :=
  match n, s with
  | O, _ => s
  | S _, EmptyString => EmptyString
  | S n', String _ s' => slice_from n' s'
  end.

(** [s.slice(0, n)] for [n >= 0]. *)
Fixpoint slice_to (n : nat) (s : string) : string :=
  match n, s with
  | O, _ => EmptyString
  | S _, EmptyString => EmptyString
  | S n', String c s' => String c (slice_to n' s')
  end.

(** [s.startsWith(p)] *)
Fixpoint startsWith (p s : string) : bool :=
  match p, s with
  | EmptyString, _ => true
  | String _ _, EmptyString => false
  | String a p', String b s' => if Ascii.eqb a b then startsWith p' s' else false
  end.

(** [s.includes(p)] *)
Fixpoint includes (p s : string) : bool :=
  startsWith p s ||
  match s with
  | EmptyString => false
  | String _ s' => includes p s'
  end.

(** [s.endsWith(p)] *)
Fixpoint endsWith (p s : string) : bool :=
  match s with
  | EmptyString => String.eqb p EmptyString
  | String _ s' => String.eqb p s || endsWith p s'
  end.

(** White space and line terminators, as [trim] and [parseInt] skip them:
    TAB, LF, VT, FF, CR, SP and NBSP (the ones below 256). *)
Definition isWhiteSpace (c : ascii) : bool :=
  let n := nat_of_ascii c in
  ((9 <=? n) && (n <=? 13))%nat || (n =? 32)%nat || (n =? 160)%nat.

Fixpoint trimStart (s : string) : string :=
  match s with
  | EmptyString => EmptyString
  | String c s' => if isWhiteSpace c then trimStart s' else s
  end.

(** Drops trailing white space: a character is kept when it is not white
    space or something is kept after it. *)
Fixpoint trimEnd (s : string) : string :=
  match s with
  | EmptyString => EmptyString
  | String c s' =>
      match trimEnd s' with
      | EmptyString => if isWhiteSpace c then EmptyString else String c EmptyString
      | t => String c t
      end
  end.

(** No character of [s] is white space. *)
Fixpoint noWhiteSpace (s : string) : bool :=
  match s with
  | EmptyString => true
  | String c s' => negb (isWhiteSpace c) && noWhiteSpace s'
  end.

(** [s.trim()] *)
Definition trim (s : string) : string := trimEnd (trimStart s).

(** A value is truthy when it is defined and not the empty string. *)
Definition truthy (o : option string) : bool :=
  match o with
  | Some s => negb (String.eqb s EmptyString)
  | None => false
  end.

(** [a || b] on possibly undefined strings. *)
Definition or_else (a b : option string) : option string :=
  if truthy a then a else b.

(** The numbers [Number.parseInt] can return: NaN, an integer-valued
    double, or an infinity. *)
Inductive number : Type :=
| NaN
| Fin (z : Z)
| Inf (negative : bool).

(** [Number.isFinite] *)
Definition isFinite (n : number) : bool :=
  match n with Fin _ => true | _ => false end.

(** [n > k] and [n <= k] for an integer [k]; every comparison with NaN is
    false. *)
Definition gt (n : number) (k : Z) : bool :=
  match n with
  | NaN => false
  | Fin z => k <? z
  | Inf negative => negb negative
  end.

Definition le (n : number) (k : Z) : bool :=
  match n with
  | NaN => false
  | Fin z => z <=? k
  | Inf negative => negative
  end.

(** The double nearest to a natural number [n] (ties to even on the 53-bit
    significand); [None] when it overflows to infinity. *)
Definition nearest_double (n : Z) : option Z :=
  let bits := Z.log2 n + 1 in
  if bits <=? 53 then Some n
  else
    let sh := bits - 53 in
    let q := Z.shiftr n sh in
    let r := n - Z.shiftl q sh in
    let half := Z.shiftl 1 (sh - 1) in
    let q' := if (half <? r) || ((r =? half) && Z.odd q) then q + 1 else q in
    let v := Z.shiftl q' sh in
    if 2 ^ 1024 <=? v then None else Some v.

Definition digit (c : ascii) : option Z :=
  let n := nat_of_ascii c in
  if ((48 <=? n) && (n <=? 57))%nat then Some (Z.of_nat n - 48) else None.

(** The value of the longest prefix of decimal digits, [None] when the
    string does not start with a digit. *)
Fixpoint digits_from (acc : option Z) (s : string) : option Z :=
  match s with
  | EmptyString => acc
  | String c s' =>
      match digit c with
      | Some d => digits_from (Some (10 * default 0 acc + d)) s'
      | None => acc
      end
  end.

(** [Number.parseInt(s, 10)]: skip leading white space, read an optional
    sign, then the longest run of decimal digits; NaN when there is none.
    Minus zero is not told apart from zero. *)
Definition parseInt (s : string) : number :=
  let t := trimStart s in
  let '(negative, body) :=
    match t with
    | String "-" r => (true, r)
    | String "+" r => (false, r)
    | _ => (false, t)
    end in
  match digits_from None body with
  | None => NaN
  | Some n =>
      match nearest_double n with
      | Some v => Fin (if negative then - v else v)
      | None => Inf negative
      end
  end.

(** [String(n)] / a template literal on an integer. *)
Definition ofZ (z : Z) : string := NilZero.string_of_int (Z.to_int z).

End JS.

(** ** Readiness primitives ([waitForHTTP], [waitForLogPattern]) *)

Module Readiness.

(** [okStatus]: 2xx-4xx counts as ready. *)
Definition okStatus (code : Z) : bool := (200 <=? code) && (code <? 500).

(** What becomes of one [fetch]: its promise resolves to a response with
    a status, rejects, or never settles (no timeout or abort signal is
    passed to it). *)
Inductive FetchResult : Type :=
| Response (status : Z)
| NetworkError
| NoAnswer.

(** One turn of the polling loop as the probe observes it: the clock read
    by the loop test, what the request made in that turn gives (not
    looked at when the test fails), and the clock at the moment the
    request settles, which the code never reads. *)
Record HttpPoll : Type := {
  http_clock : Z;
  http_fetch : FetchResult;
  http_settled : Z
}.

Inductive Verdict : Type :=
| Returns (ready : bool)
| Pending        (* the loop awaits a fetch that never settles *)
| Unfinished.    (* the host stopped answering before the loop left *)

(** The [while] loop of [waitForHTTP] run over the turns the host
    grants. *)
Fixpoint http_loop (t0 timeoutMs : Z) (polls : list HttpPoll) : Verdict :=
  match polls with
  | [] => Unfinished
  | p :: rest =>
      if http_clock p - t0 <? timeoutMs then
        match http_fetch p with
        | Response status =>
            if okStatus status then Returns true else http_loop t0 timeoutMs rest
        | NetworkError => http_loop t0 timeoutMs rest
        | NoAnswer => Pending
        end
      else Returns false
  end.

(** [waitForHTTP(url, { timeoutMs })]; [t0] is the clock at entry.  The URL
    and the sleep length only decide what the host shows in [polls]. *)
Definition waitForHTTP (t0 timeoutMs : Z) (polls : list HttpPoll) : Verdict :=
  http_loop t0 timeoutMs polls.

(** What reading and decoding the log file gives in one turn. *)
Inductive ReadResult : Type :=
| ReadOk (text : string)
| ReadFail.

Record LogPoll : Type := { log_clock : Z; log_read : ReadResult }.

Section LogPattern.

(** [regex.test], for a regex without the sticky or global flag. *)
Variable test : string -> bool.

Fixpoint log_loop (deadline : Z) (offset : nat) (polls : list LogPoll)
  : option bool :=
  match polls with
  | [] => None
  | p :: rest =>
      if log_clock p <? deadline then
        match log_read p with
        | ReadOk text =>
            let slice := JS.slice_from offset text in
            let offset' := JS.length text in
            if test slice then Some true else log_loop deadline offset' rest
        | ReadFail => log_loop deadline offset rest
        end
      else Some false
  end.

(** [waitForLogPattern(logFile, regex, { timeoutMs })]; [t0] is the
    clock at entry, and [offset] starts at 0. *)
Definition waitForLogPattern (t0 timeoutMs : Z) (polls : list LogPoll)
  : option bool :=
  log_loop (t0 + timeoutMs) 0 polls.

(** The offset the loop holds after the given turns: the length of the
    last text read, or the starting offset. *)
Definition observed (offset : nat) (polls : list LogPoll) : nat :=
  fold_left
    (fun o p => match log_read p with
                | ReadOk text => JS.length text
                | ReadFail => o
                end)
    polls offset.

(** The slice turn [p] tests after the turns [before], if it reads the
    file. *)
Definition tested_slice (offset : nat) (before : list LogPoll) (p : LogPoll)
  : option string :=
  match log_read p with
  | ReadOk text => Some (JS.slice_from (observed offset before) text)
  | ReadFail => None
  end.

End LogPattern.

(** A turn is within budget when its loop test passes. *)
Definition in_budget (t0 timeoutMs : Z) (p : HttpPoll) : Prop :=
  http_clock p - t0 < timeoutMs.

(** A turn is ready when its request is answered with a 2xx-4xx status. *)
Definition ready_turn (p : HttpPoll) : Prop :=
  exists status, http_fetch p = Response status /\ 200 <= status < 500.

(** A turn whose request settles without making the probe ready: a
    network error, or a status outside [200, 500). *)
Definition unready_turn (p : HttpPoll) : Prop :=
  http_fetch p = NetworkError
  \/ exists status, http_fetch p = Response status /\ ~ 200 <= status < 500.

(** The request of a turn returns a 2xx-4xx status before the deadline
    elapses. *)
Definition answered_in_time (t0 timeoutMs : Z) (p : HttpPoll) : Prop :=
  exists status,
    http_fetch p = Response status /\ 200 <= status < 500
    /\ http_settled p - t0 < timeoutMs.

(** The claim of the specification, in its "only if" direction: the
    probe reports ready only if some request returned a 2xx-4xx status
    before the deadline elapsed. *)
Definition ready_only_if_answered_in_time : Prop :=
  forall (t0 timeoutMs : Z) (polls : list HttpPoll),
    waitForHTTP t0 timeoutMs polls = Returns true ->
    exists p, p ∈ polls /\ answered_in_time t0 timeoutMs p.

(** A server that takes 750 ms to answer a request made 150 ms into a
    budget of 200 ms. *)
Definition late_answer : list HttpPoll :=
  [ {| http_clock := 150; http_fetch := Response 200; http_settled := 900 |} ].

(** A server that accepts the connection and never answers. *)
Definition silent_server : list HttpPoll :=
  [ {| http_clock := 0; http_fetch := NoAnswer; http_settled := 0 |} ].

(** The property of the specification: whatever the file held when
    the probe started ([pre]), the probe does not report ready unless the
    regex matches in what was written after ([added]). *)
Definition only_new_content_counts (test : string -> bool) : Prop :=
  forall (pre : string) (t0 timeoutMs : Z) (polls : list LogPoll),
    (forall p, p ∈ polls ->
               exists added, log_read p = ReadOk (pre +:+ added) /\ test added = false) ->
    waitForLogPattern test t0 timeoutMs polls <> Some true.

(** A log that already holds the line the regex looks for, and to which
    nothing is added while the probe runs. *)
Definition stale_log : string := "tunnel assigned: ready".
Definition stale_polls : list LogPoll :=
  [ {| log_clock := 1000; log_read := ReadOk stale_log |} ].

End Readiness.

(** ** Paths: the part of Node's [path] module the resolvers use *)

Module Path.

(** [join], [dirname] and [isAbsolute] of the running platform. *)
Record Ops : Type := {
  join : list string -> string;
  dirname : string -> string;
  isAbsolute : string -> bool
}.

(** What the resolvers rely on: joining onto, or taking the parent of, an
    absolute path gives an absolute path. *)
Record Lawful (ops : Ops) : Prop := {
  join_absolute : forall first rest,
    isAbsolute ops first = true -> isAbsolute ops (join ops (first :: rest)) = true;
  dirname_absolute : forall p,
    isAbsolute ops p = true -> isAbsolute ops (dirname ops p) = true
}.

Definition slash : ascii := "/"%char.
Definition isSlash (c : ascii) : bool := Ascii.eqb c slash.

(** *** POSIX *)

(** Splits at every slash; the pieces between two slashes may be empty. *)
Fixpoint split (cur : list ascii) (s : list ascii) : list (list ascii) :=
  match s with
  | [] => [rev cur]
  | c :: s' => if isSlash c then rev cur :: split [] s' else split (c :: cur) s'
  end.

Definition isDot (seg : list ascii) : bool :=
  match seg with ["."%char] => true | _ => false end.
Definition isDotDot (seg : list ascii) : bool :=
  match seg with ["."%char; "."%char] => true | _ => false end.

(** [normalizeString]: [stack] holds the segments kept so far, last one
    first.  Empty and [.] segments go; [..] removes the segment before it,
    unless there is none or it is a kept [..], where it stays only if the
    path may climb above its start. *)
Fixpoint normalizeSegments (allowAboveRoot : bool) (stack : list (list ascii))
    (segs : list (list ascii)) : list (list ascii) :=
  match segs with
  | [] => rev stack
  | seg :: segs' =>
      if match seg with [] => true | _ => isDot seg end
      then normalizeSegments allowAboveRoot stack segs'
      else if isDotDot seg then
        match stack with
        | top :: below =>
            if isDotDot top
            then normalizeSegments allowAboveRoot
                   (if allowAboveRoot then seg :: stack else stack) segs'
            else normalizeSegments allowAboveRoot below segs'
        | [] =>
            normalizeSegments allowAboveRoot
              (if allowAboveRoot then [seg] else []) segs'
        end
      else normalizeSegments allowAboveRoot (seg :: stack) segs'
  end.

Fixpoint joinWith (sep : list ascii) (segs : list (list ascii)) : list ascii :=
  match segs with
  | [] => []
  | [seg] => seg
  | seg :: segs' => seg ++ sep ++ joinWith sep segs'
  end.

Definition posix_isAbsolute (p : string) : bool :=
  match p with
  | String c _ => isSlash c
  | EmptyString => false
  end.

(** [path.posix.normalize] *)
Definition posix_normalize (p : string) : string :=
  match p with
  | EmptyString => "."
  | _ =>
      let chars := list_ascii_of_string p in
      let absolute := posix_isAbsolute p in
      let trailing := match rev chars with c :: _ => isSlash c | [] => false end in
      let body := joinWith [slash]
                    (normalizeSegments (negb absolute) [] (split [] chars)) in
      match body with
      | [] => if absolute then "/" else if trailing then "./" else "."
      | _ =>
          let body' := if trailing then body ++ [slash] else body in
          string_of_list_ascii (if absolute then slash :: body' else body')
      end
  end.

(** [path.posix.join]: the non-empty arguments, joined by a slash and
    normalized. *)
Definition posix_join (parts : list string) : string :=
  match filter (fun s => s <> EmptyString) parts with
  | [] => "."
  | kept => posix_normalize
              (string_of_list_ascii
                 (joinWith [slash] (map list_ascii_of_string kept)))
  end.

(** The backward scan of [path.posix.dirname] over the characters after
    the first one, last character first: trailing slashes are passed, then
    the last segment, and what lies before the slash in front of that
    segment is returned (still reversed). *)
Fixpoint dirname_scan (matchedSlash : bool) (r : list ascii) : option (list ascii) :=
  match r with
  | [] => None
  | c :: r' =>
      if isSlash c
      then if matchedSlash then dirname_scan true r' else Some r'
      else dirname_scan false r'
  end.

(** [path.posix.dirname] *)
Definition posix_dirname (p : string) : string :=
  match p with
  | EmptyString => "."
  | String c0 rest =>
      let hasRoot := isSlash c0 in
      match dirname_scan true (rev (list_ascii_of_string rest)) with
      | None => if hasRoot then "/" else "."
      | Some [] => if hasRoot then "//" else String c0 EmptyString
      | Some r' => String c0 (string_of_list_ascii (rev r'))
      end
  end.

Definition posix : Ops :=
  {| join := posix_join; dirname := posix_dirname; isAbsolute := posix_isAbsolute |}.

(** *** Windows: only [isAbsolute] is used outside [join]/[dirname] *)

Definition isWinSeparator (c : ascii) : bool :=
  isSlash c || Ascii.eqb c "\"%char.

Definition isLetter (c : ascii) : bool :=
  let n := nat_of_ascii c in
  (((65 <=? n) && (n <=? 90)) || ((97 <=? n) && (n <=? 122)))%nat.

(** [path.win32.isAbsolute]: a leading separator, or a drive letter, a
    colon and a separator. *)
Definition win32_isAbsolute (p : string) : bool :=
  match p with
  | EmptyString => false
  | String c rest =>
      isWinSeparator c ||
      (isLetter c &&
       match rest with
       | String ":" (String s _) => isWinSeparator s
       | _ => false
       end)
  end.

End Path.


(** ** The process supervisor ([process-manager.mjs]) *)

Module Proc.

Inductive Signal : Type := SIG0 | SIGTERM | SIGKILL.

(** What the supervisor does to the host, in order. *)
Inductive Event : Type :=
| Kill (target : Z) (sig : Signal)        (* process.kill(target, sig) *)
| Taskkill (args : list string)           (* spawnSync("taskkill", args) *)
| Sleep (ms : Z)
| OpenAppend (path : string)              (* open(path, "a") *)
| Spawn (binPath : string) (args : list string) (cwd : string) (pid : Z)
| Write (path content : string)           (* writeFile(path, content) *)
| Remove (path : string).                 (* rm(path, { force: true }) *)

(** A thrown value: the [code] property when it has one, and its message. *)
Record Error : Type := { err_code : option string; err_message : string }.

Inductive Outcome (A : Type) : Type :=
| Ok (a : A)
| Throw (e : Error)
| OutOfFuel.
Arguments Ok {A} a.
Arguments Throw {A} e.
Arguments OutOfFuel {A}.

(** A readiness task, one per promise [_waitReadiness] collects. *)
Inductive ProbeTask : Type :=
| HttpProbe (url : string)
| PortProbe (host : string) (port : Z)
| LogProbe (file regex : string)
| CustomProbe.

(** The host the supervisor runs on.  Its answers are indexed by an epoch
    that advances each time the supervisor waits (a sleep, or the wait for
    the readiness tasks): processes start and die, and the clock moves,
    between epochs only. *)
Record Host : Type := {
  isWin : bool;
  isCI : bool;                            (* process.env.CI === "true" *)
  isCodex : bool;                         (* CODEX_PROXY_CERT is set *)
  accepts : nat -> Z -> bool;             (* process.kill(target, _) succeeds *)
  clock : nat -> Z;                       (* Date.now() *)
  child_pid : nat -> Z;                   (* pid given to a child spawned now *)
  onDisk : string -> bool;                (* existsSync of a binary path *)
  which : string -> string;               (* first line of which/where, trimmed *)
  probe : nat -> ProbeTask -> bool        (* what a readiness task started now resolves to *)
}.

(** The files the supervisor reads and writes, the epoch, and the events
    so far (oldest first). *)
Record State : Type := {
  fs : gmap string string;
  epoch : nat;
  events : list Event
}.

Definition M (A : Type) : Type := State -> Outcome A * State.

Definition ret {A} (a : A) : M A := fun s => (Ok a, s).
Definition throw {A} (e : Error) : M A := fun s => (Throw e, s).
Definition bind {A B} (m : M A) (k : A -> M B) : M B :=
  fun s =>
    match m s with
    | (Ok a, s') => k a s'
    | (Throw e, s') => (Throw e, s')
    | (OutOfFuel, s') => (OutOfFuel, s')
    end.

(** [try { m } catch (e) { handler e }] *)
Definition try_catch {A} (m : M A) (handler : Error -> M A) : M A :=
  fun s =>
    match m s with
    | (Throw e, s') => handler e s'
    | r => r
    end.

Notation "x <- m ;; k" := (bind m (fun x => k))
  (at level 62, m at next level, right associativity).
Notation "m ;;; k" := (bind m (fun _ => k))
  (at level 62, right associativity).

Definition when (b : bool) (m : M unit) : M unit := if b then m else ret tt.

Definition emit (e : Event) : M unit :=
  fun s => (Ok tt, {| fs := fs s; epoch := epoch s; events := events s ++ [e] |}).

(** *** constant.mjs *)

Definition SLOW_ENV_FACTOR (h : Host) : Z :=
  if isCodex h then 10 else if isCI h then 2 else 1.
Definition STARTUP_HEALTHCHECK_DELAY_MS : Z := 50.
Definition KILL_GENTLE_MS_DEFAULT (h : Host) : Z := 100 * SLOW_ENV_FACTOR h.

Section Supervisor.

Variable h : Host.

(** *** Host primitives *)

Definition sleep (ms : Z) : M unit :=
  fun s => (Ok tt, {| fs := fs s; epoch := S (epoch s);
                      events := events s ++ [Sleep ms] |}).

Definition now : M Z := fun s => (Ok (clock h (epoch s)), s).

(** [process.kill(target, sig)]: throws when the host refuses the signal
    (no such process or group, or no permission). *)
Definition processKill (target : Z) (sig : Signal) : M unit :=
  emit (Kill target sig) ;;;
  fun s => if accepts h (epoch s) target
           then (Ok tt, s)
           else (Throw {| err_code := Some "ESRCH"; err_message := "kill ESRCH" |}, s).

Definition taskkill (args : list string) : M unit := emit (Taskkill args).

(** [pathExists] *)
Definition pathExists (p : string) : M bool :=
  fun s => (Ok (bool_decide (is_Some (fs s !! p))), s).

(** [readFile(p, "utf8")] *)
Definition readFile (p : string) : M string :=
  fun s =>
    match fs s !! p with
    | Some content => (Ok content, s)
    | None =>
        (Throw {| err_code := Some "ENOENT";
                  err_message := "ENOENT: no such file or directory, open '" +:+ p +:+ "'" |}, s)
    end.

(** [writeFile(p, content)] *)
Definition writeFile (p content : string) : M unit :=
  fun s => (Ok tt, {| fs := <[p := content]> (fs s); epoch := epoch s;
                      events := events s ++ [Write p content] |}).

(** [rm(p, { force: true })] *)
Definition rm (p : string) : M unit :=
  fun s => (Ok tt, {| fs := delete p (fs s); epoch := epoch s;
                      events := events s ++ [Remove p] |}).

(** [open(p, "a")]: creates the file when it is missing. *)
Definition openAppend (p : string) : M unit :=
  fun s =>
    (Ok tt,
     {| fs := match fs s !! p with
              | Some _ => fs s
              | None => <[p := ""]> (fs s)
              end;
        epoch := epoch s;
        events := events s ++ [OpenAppend p] |}).

(** [ensureFileDir]: directories are not part of the state, and making
    the parent directory is taken to succeed. *)
Definition ensureFileDir (filePath : string) : M unit := ret tt.

(** [spawn(binPath, args, { cwd, env, detached, stdio })]: the child's
    pid is the host's choice. *)
Definition spawn (binPath : string) (args : list string) (cwd : string) : M Z :=
  fun s =>
    let pid := child_pid h (epoch s) in
    (Ok pid, {| fs := fs s; epoch := epoch s;
                events := events s ++ [Spawn binPath args cwd pid] |}).

(** *** [isAlive] *)
Definition isAlive (pid : Z) : M bool :=
  try_catch (processKill pid SIG0 ;;; ret true) (fun _ => ret false).

(** *** [resolveBinary] *)
Definition resolveBinary (binaryOrPath : string) : option string :=
  if String.eqb binaryOrPath "" then None
  else if (if isWin h then Path.win32_isAbsolute binaryOrPath
           else Path.posix_isAbsolute binaryOrPath)
          && onDisk h binaryOrPath
  then Some binaryOrPath
  else
    let path := which h binaryOrPath in
    if String.eqb path "" then None else Some path.

(** *** [killProcessTree] *)
Definition killProcessTree (pid : Z) (gentleMs : Z) (killGroup : bool) : M unit :=
  if isWin h then
    try_catch
      (taskkill (if killGroup then ["/PID"; JS.ofZ pid; "/T"]
                 else ["/PID"; JS.ofZ pid]))
      (fun _ => ret tt) ;;;
    sleep gentleMs ;;;
    try_catch
      (taskkill (if killGroup then ["/PID"; JS.ofZ pid; "/T"; "/F"]
                 else ["/PID"; JS.ofZ pid; "/F"]))
      (fun _ => ret tt)
  else
    try_catch (when killGroup (processKill (- pid) SIGTERM)) (fun _ => ret tt) ;;;
    try_catch (processKill pid SIGTERM) (fun _ => ret tt) ;;;
    sleep gentleMs ;;;
    try_catch (when killGroup (processKill (- pid) SIGKILL)) (fun _ => ret tt) ;;;
    try_catch (processKill pid SIGKILL) (fun _ => ret tt).

(** *** [ProcessManager.stopByPidFile] *)

Record StopOptions : Type := {
  gentleMs : option Z;
  killGroup : option bool
}.

Record StopResult : Type := {
  stopped : bool;
  stop_pid : option Z;
  reason : option string;
  error : option string
}.

(** The integer a finite number holds. *)
Definition toZ (n : JS.number) : Z :=
  match n with JS.Fin z => z | _ => 0 end.

Definition stopByPidFile (pidFile : string) (opts : StopOptions) : M StopResult :=
  let gentle := default (KILL_GENTLE_MS_DEFAULT h) (gentleMs opts) in
  let group := default true (killGroup opts) in
  try_catch
    (raw <- readFile pidFile ;;
     let pid := JS.parseInt (JS.trim raw) in
     if negb (JS.isFinite pid) || JS.le pid 1
     then throw {| err_code := None;
                   err_message := "invalid pid in " +:+ pidFile |}
     else
       killProcessTree (toZ pid) gentle (negb (isWin h) && group) ;;;
       rm pidFile ;;;
       ret {| stopped := true; stop_pid := Some (toZ pid);
              reason := None; error := None |})
    (fun e =>
       if bool_decide (err_code e = Some "ENOENT")
       then ret {| stopped := false; stop_pid := None;
                   reason := Some "no-pidfile"; error := None |}
       else ret {| stopped := false; stop_pid := None;
                   reason := None; error := Some (err_message e) |}).

(** *** [ProcessManager._waitReadiness] *)

(** [regex]: a [RegExp] object, or the source string of one. *)
Inductive RegexSpec : Type :=
| RegexObject (source : string)
| RegexSource (source : string).

Record LogReadiness : Type := { log_file : string; log_regex : RegexSpec }.

(** [http] and [port] hold the URLs and targets, whether given alone or
    in an array; [custom] says whether a function was given. *)
Record Readiness : Type := {
  http : list string;
  port : list (string * Z);
  log : option LogReadiness;
  custom : bool
}.

Definition regexTruthy (r : RegexSpec) : bool :=
  match r with
  | RegexObject _ => true
  | RegexSource src => negb (String.eqb src "")
  end.

Definition regexSource (r : RegexSpec) : string :=
  match r with RegexObject src | RegexSource src => src end.

(** The tasks [_waitReadiness] collects, in its order. *)
Definition readinessTasks (r : Readiness) : list ProbeTask :=
  map HttpProbe (http r) ++
  map (fun t => PortProbe (fst t) (snd t)) (port r) ++
  match log r with
  | Some l =>
      if negb (String.eqb (log_file l) "") && regexTruthy (log_regex l)
      then [LogProbe (log_file l) (regexSource (log_regex l))]
      else []
  | None => []
  end ++
  (if custom r then [CustomProbe] else []).

(** With no task the answer is immediate; otherwise all tasks run at
    once from the current epoch, and the supervisor waits for them.  The
    tasks are represented by what they settle to: a task that stays
    pending or rejects is not represented, nor is what the tasks do
    while they run (their sleeps, requests and reads of the log file),
    so that what is proved of [startDaemon] past this point is proved of
    the calls that return and of what [startDaemon] itself does. *)
Definition _waitReadiness (r : Readiness) : M bool :=
  match readinessTasks r with
  | [] => ret true
  | tasks =>
      fun s =>
        (Ok (forallb (probe h (epoch s)) tasks),
         {| fs := fs s; epoch := S (epoch s); events := events s |})
  end.

(** *** [ProcessManager.startDaemon] *)

Inductive RestartPolicy : Type := Never | OnFailure.

Record StartDaemonOptions : Type := {
  name : string;
  binary : string;
  args : list string;
  env : gmap string string;
  cwd : string;
  pidFile : string;
  logFile : string;
  readiness : Readiness;
  minUptimeMs : Z;
  restartPolicy : RestartPolicy
}.

Definition withPolicy (o : StartDaemonOptions) (p : RestartPolicy)
  : StartDaemonOptions :=
  {| name := name o; binary := binary o; args := args o; env := env o;
     cwd := cwd o; pidFile := pidFile o; logFile := logFile o;
     readiness := readiness o; minUptimeMs := minUptimeMs o;
     restartPolicy := p |}.

Inductive Status : Type := Started | AlreadyRunning | Failed.

Record StartResult : Type := {
  status : Status;
  pid : Z;
  alive : bool;
  ready : option bool
}.

(** The stale-PID block: [Some pid] when the PID-file names a live
    process above 1, in which case the file is kept; otherwise the file,
    if there is one, is removed. *)
Definition reclaimPidFile (pidFile : string) : M (option Z) :=
  present <- pathExists pidFile ;;
  if present then
    content <- readFile pidFile ;;
    let oldPid := JS.parseInt (JS.trim content) in
    live <- (if JS.isFinite oldPid && JS.gt oldPid 1
             then isAlive (toZ oldPid) else ret false) ;;
    if live then ret (Some (toZ oldPid))
    else rm pidFile ;;; ret None
  else ret None.

(** [startDaemon] calls itself for the retry; [fuel] bounds the depth of
    that recursion.  What the function prints to the console, and the
    lookup of the old process's command line for that purpose, are left
    out. *)
Fixpoint startDaemon (fuel : nat) (o : StartDaemonOptions) : M StartResult :=
  match fuel with
  | O => fun s => (OutOfFuel, s)
  | S fuel' =>
      if String.eqb (pidFile o) "" || String.eqb (logFile o) ""
      then throw {| err_code := None;
                    err_message := "startDaemon requires pidFile and logFile" |}
      else
        ensureFileDir (pidFile o) ;;;
        ensureFileDir (logFile o) ;;;
        running <- reclaimPidFile (pidFile o) ;;
        match running with
        | Some oldPid =>
            ret {| status := AlreadyRunning; pid := oldPid;
                   alive := true; ready := Some true |}
        | None =>
            match resolveBinary (binary o) with
            | None =>
                throw {| err_code := None;
                         err_message := "Binary not found: " +:+ binary o |}
            | Some binPath =>
                openAppend (logFile o) ;;;
                startedAt <- now ;;
                child <- spawn binPath (args o) (cwd o) ;;
                writeFile (pidFile o) (JS.ofZ child +:+ String "010" "") ;;;
                sleep STARTUP_HEALTHCHECK_DELAY_MS ;;;
                alive0 <- isAlive child ;;
                if negb alive0 then
                  rm (pidFile o) ;;;
                  ret {| status := Failed; pid := child;
                         alive := false; ready := None |}
                else
                  ok <- _waitReadiness (readiness o) ;;
                  if negb ok then
                    stillAlive <- isAlive child ;;
                    t <- now ;;
                    let diedEarly :=
                      negb stillAlive && (t - startedAt <? minUptimeMs o) in
                    if match restartPolicy o with
                       | OnFailure => diedEarly
                       | Never => false
                       end
                    then startDaemon fuel' (withPolicy o Never)
                    else ret {| status := Started; pid := child;
                                alive := true; ready := Some false |}
                  else ret {| status := Started; pid := child;
                              alive := true; ready := Some true |}
            end
        end
  end.

End Supervisor.

(** *** Vocabulary for the properties *)

(** The state after one more event. *)
Definition logged (e : Event) (s : State) : State :=
  {| fs := fs s; epoch := epoch s; events := events s ++ [e] |}.

(** The signals [killProcessTree] sends on a Unix-like host. *)
Definition unixKillTrace (pid gentle : Z) (group : bool) : list Event :=
  (if group then [Kill (- pid) SIGTERM] else [])
  ++ [Kill pid SIGTERM; Sleep gentle]
  ++ (if group then [Kill (- pid) SIGKILL] else [])
  ++ [Kill pid SIGKILL].

(** The state after [rm(p)]. *)
Definition removed (p : string) (s : State) : State :=
  {| fs := delete p (fs s); epoch := epoch s; events := events s ++ [Remove p] |}.

(** The state after a wait during which the supervisor does nothing. *)
Definition waited (s : State) : State :=
  {| fs := fs s; epoch := S (epoch s); events := events s |}.

(** The PID a PID-file's content stands for: whatever [parseInt] makes of
    the trimmed content, if that is a finite number above 1. *)
Definition recordedPid (content : string) : option Z :=
  let n := JS.parseInt (JS.trim content) in
  if JS.isFinite n && JS.gt n 1 then Some (toZ n) else None.

(** The liveness probe the stale-PID block makes for a PID-file content. *)
Definition pidProbe (content : string) : list Event :=
  match recordedPid content with
  | Some p => [Kill p SIG0]
  | None => []
  end.

(** The state in which [startDaemon] leaves its launch sequence when it
    starts it in [s] with the binary resolved to [binPath]: log opened,
    child spawned, PID written, start-up sleep done, child probed. *)
Definition launched (h : Host) (o : StartDaemonOptions) (binPath : string)
    (s : State) : State :=
  let child := child_pid h (epoch s) in
  {| fs := <[pidFile o := JS.ofZ child +:+ String "010" ""]>
             (match fs s !! logFile o with
              | Some _ => fs s
              | None => <[logFile o := ""]> (fs s)
              end);
     epoch := S (epoch s);
     events := events s
               ++ [OpenAppend (logFile o);
                   Spawn binPath (args o) (cwd o) child;
                   Write (pidFile o) (JS.ofZ child +:+ String "010" "");
                   Sleep STARTUP_HEALTHCHECK_DELAY_MS;
                   Kill child SIG0] |}.

Definition isSpawn (e : Event) : bool :=
  match e with Spawn _ _ _ _ => true | _ => false end.

(** How many children a run of events spawns. *)
Definition spawnCount (evs : list Event) : nat :=
  length (List.filter isSpawn evs).

(** The PIDs the host hands out are integers a JavaScript number holds
    exactly (real PIDs stay far below). *)
Definition safePids (h : Host) : Prop :=
  forall e, Z.abs (child_pid h e) < 2 ^ 53.

(** What lies behind each way a [startDaemon] call started in [s] can end:
    [already-running] needs a PID-file naming a PID above 1 that answers,
    [failed] a child found dead at its start-up check, an exception a
    missing file name or an unresolved binary. *)
Definition explained (h : Host) (o : StartDaemonOptions) (s : State)
    (outcome : Outcome StartResult) : Prop :=
  match outcome with
  | Ok r =>
      match status r with
      | AlreadyRunning =>
          exists content,
            fs s !! pidFile o = Some content
            /\ recordedPid content = Some (pid r)
            /\ accepts h (epoch s) (pid r) = true
      | Failed =>
          exists e, (epoch s <= e)%nat
                    /\ accepts h (S e) (child_pid h e) = false
      | Started => True
      end
  | Throw _ =>
      pidFile o = "" \/ logFile o = "" \/ resolveBinary h (binary o) = None
  | OutOfFuel => False
  end.

End Proc.

(** ** The path resolvers ([common.mjs], [global-config.mjs]) *)

Module Resolver.

Inductive Platform : Type := Linux | Darwin | Win32.

(** The machine the CLI runs on. *)
Record Host : Type := {
  ops : Path.Ops;                         (* path.join, dirname, isAbsolute *)
  platform : Platform;                    (* os.platform(), others as Linux *)
  homedir : string;                       (* os.homedir() *)
  cwd : string;                           (* process.cwd() *)
  realpath : string -> option string;     (* realpathSync; None: it throws *)
  configBinLocation : string -> option string
    (* preferences.bin_location of the YAML file at a path, when the file
       parses and has the entry *)
}.

(** The mutable state the resolvers see: [process.env], the paths that
    exist on disk, the module-level [pathMisconfigurationWarned] flag and
    what went to stderr (oldest first). *)
Record State : Type := {
  vars : gmap string string;
  disk : gset string;
  pathMisconfigurationWarned : bool;
  stderr : list string
}.

(** The state a fresh process starts from. *)
Definition boot (vars : gmap string string) (disk : gset string) : State :=
  {| vars := vars; disk := disk;
     pathMisconfigurationWarned := false; stderr := [] |}.

(** *** The CI-layout test of [resolveWorkspaceDir] *)

Inductive Atom : Type :=
| Lit (c : ascii)       (* a literal, compared without case *)
| Letter                (* [A-Z] under the i flag *)
| Dot.                  (* . : anything but a line terminator *)

Definition lower (c : ascii) : ascii :=
  let n := nat_of_ascii c in
  if ((65 <=? n) && (n <=? 90))%nat then ascii_of_nat (n + 32) else c.

Definition isLineTerminator (c : ascii) : bool :=
  let n := nat_of_ascii c in ((n =? 10) || (n =? 13))%nat.

Definition matchAtom (a : Atom) (c : ascii) : bool :=
  match a with
  | Lit x => Ascii.eqb (lower x) (lower c)
  | Letter => Path.isLetter c
  | Dot => negb (isLineTerminator c)
  end.

Fixpoint matchHere (pat : list Atom) (s : string) : bool :=
  match pat, s with
  | [], _ => true
  | _ :: _, EmptyString => false
  | a :: pat', String c s' => matchAtom a c && matchHere pat' s'
  end.

(** [regex.test(s)] for an unanchored sequence of atoms. *)
Fixpoint search (pat : list Atom) (s : string) : bool :=
  matchHere pat s ||
  match s with
  | EmptyString => false
  | String _ s' => search pat s'
  end.

Definition bs : ascii := "\"%char.

(** [/[A-Z]:\\a\\.asd\\.asd/i]: the dots are not escaped in the source. *)
Definition windowsRunnerShape : list Atom :=
  [Letter; Lit ":"; Lit bs; Lit "a"; Lit bs; Dot; Lit "a"; Lit "s"; Lit "d";
   Lit bs; Dot; Lit "a"; Lit "s"; Lit "d"].

Definition isGitHubAsdRepo (dir : string) : bool :=
  JS.includes "/work/.asd/.asd" dir ||
  JS.includes "\work\.asd\.asd" dir ||
  search windowsRunnerShape dir.

Definition hasDoubledAsd (dir : string) : bool :=
  JS.includes ".asd/.asd" dir || JS.includes ".asd\.asd" dir.

(** The boxed warning written to stderr; of its text only the line that
    shows the path varies, and that line is what is recorded. *)
Definition misconfigurationWarning (dir : string) : string :=
  JS.slice_to 60 dir +:+ (if (60 <? JS.length dir)%nat then "..." else "").

Section OnHost.

Variable h : Host.

Definition join (parts : list string) : string := Path.join (ops h) parts.
Definition dirname (p : string) : string := Path.dirname (ops h) p.
Definition isAbsolute (p : string) : bool := Path.isAbsolute (ops h) p.

Definition getenv (st : State) (k : string) : option string := vars st !! k.

Definition existsSync (st : State) (p : string) : bool :=
  bool_decide (p ∈ disk st).

(** The directories above [p], nearest first. *)
Fixpoint parents (fuel : nat) (p : string) : list string :=
  match fuel with
  | O => []
  | S fuel' =>
      let up := dirname p in
      if String.eqb up p then [] else up :: parents fuel' up
  end.

(** [mkdirSync(p, { recursive: true })] when it returns.  A call that
    throws (a regular file in the way, a place the process may not write
    to) is not represented: what is proved of the resolvers is proved of
    the calls that return. *)
Definition mkdirSync (p : string) (st : State) : State :=
  {| vars := vars st;
     disk := disk st ∪ list_to_set (p :: parents (JS.length p) p);
     pathMisconfigurationWarned := pathMisconfigurationWarned st;
     stderr := stderr st |}.

Definition ensureExists (p : string) (st : State) : State :=
  if existsSync st p then st else mkdirSync p st.

(** *** [resolveProjectRoot] *)

Definition endsWithAsd (p : string) : bool :=
  JS.endsWith "/.asd" p || JS.endsWith "\.asd" p.

Definition looksLikeCli (st : State) (dir : string) : bool :=
  existsSync st (join [dir; "main.just"]) ||
  existsSync st (join [dir; "cli.ts"]) ||
  existsSync st (join [dir; "bin"; "asd.ts"]).

(** [isRealParent]; [None] when [realpathSync] throws. *)
Definition isRealParent (st : State) (parent self : string) : option bool :=
  let parentAsdDir := join [parent; ".asd"] in
  if existsSync st parent then
    if existsSync st (join [parent; "asd.yaml"]) then Some true
    else if existsSync st parentAsdDir then
      a ← realpath h parentAsdDir;
      b ← realpath h self;
      Some (negb (String.eqb a b))
    else Some false
  else Some false.

(** The standalone-mode block shared by both branches: [Some (Some r)]
    returns [r], [Some None] falls through, [None] throws. *)
Definition standalone (st : State) (dir : string) : option (option string) :=
  if endsWithAsd dir && looksLikeCli st dir then
    let parent := dirname dir in
    real ← isRealParent st parent dir;
    Some (Some (if real : bool then parent else dir))
  else Some None.

(** The [for] loop: at most [fuel] ancestors are tried. *)
Fixpoint walkUp (fuel : nat) (st : State) (startDir dir : string) : string :=
  match fuel with
  | O => startDir
  | S fuel' =>
      match standalone st dir with
      | Some (Some r) => r
      | _ =>
          (* fell through, or the try block threw and the catch is empty *)
          if existsSync st (join [dir; ".asd"]) then dir
          else
            let up := dirname dir in
            if String.eqb up dir then startDir
            else walkUp fuel' st startDir up
      end
  end.

Definition resolveProjectRoot (st : State) (startDir : string) : option string :=
  match getenv st "PROJECT_DIR" with
  | Some envRoot =>
      if JS.truthy (Some envRoot) && existsSync st envRoot then
        r ← standalone st envRoot;
        Some (default envRoot r)
      else Some (walkUp 50 st startDir startDir)
  | None => Some (walkUp 50 st startDir startDir)
  end.

(** *** [resolveAsdDir] *)
Definition resolveAsdDir (st : State) (startDir : string) : option string :=
  let envExplicit := JS.or_else (getenv st "ASD_DIR_PATH") (getenv st "ASD_DIR") in
  if JS.truthy envExplicit && existsSync st (default "" envExplicit)
  then Some (default "" envExplicit)
  else
    let projectDir := getenv st "PROJECT_DIR" in
    let fromProjectDir :=
      if JS.truthy projectDir then
        let pd := default "" projectDir in
        if existsSync st (join [pd; "modules"]) then Some pd
        else if existsSync st (join [pd; ".asd"]) then Some (join [pd; ".asd"])
        else None
      else None in
    match fromProjectDir with
    | Some d => Some d
    | None =>
        root ← resolveProjectRoot st startDir;
        Some (if existsSync st (join [root; "modules"]) then root
              else join [root; ".asd"])
    end.

(** *** [resolveWorkspaceDir] *)

(** A call either returns a value in a new state or throws. *)
Definition R (A : Type) : Type := State -> option (A * State).

Definition warn (msg : string) (st : State) : State :=
  {| vars := vars st; disk := disk st;
     pathMisconfigurationWarned := true;
     stderr := stderr st ++ [msg] |}.

(** The doubled-path safeguard. *)
Definition safeguard (dir : string) (st : State) : State :=
  if negb (isGitHubAsdRepo dir)
     && negb (pathMisconfigurationWarned st)
     && hasDoubledAsd dir
  then warn (misconfigurationWarning dir) st
  else st.

(** The workspace with its standard sub-directories, made only when the
    workspace itself is missing. *)
Definition createWorkspace (dir : string) (st : State) : State :=
  if existsSync st dir then st
  else
    fold_left (fun st' subdir => ensureExists (join [dir; subdir]) st')
      ["logs"; "network"; "tunnels"] (mkdirSync dir st).

Definition resolveWorkspaceDir (startDir : string) : R string :=
  fun st =>
    let sb := JS.or_else (getenv st "SANDBOX_DIR") (getenv st "EXECUTION_DIR") in
    if JS.truthy sb && JS.truthy (Some (JS.trim (default "" sb))) then
      let dir := join [JS.trim (default "" sb); ".asd"; "workspace"] in
      Some (dir, ensureExists dir st)
    else
      let env := JS.or_else (getenv st "ASD_WORKSPACE_DIR") (getenv st "WORKSPACE_DIR") in
      projectRoot ← resolveProjectRoot st startDir;
      asdDir ← resolveAsdDir st startDir;
      let dir :=
        if JS.truthy env && JS.truthy (Some (JS.trim (default "" env))) then
          let trimmed := JS.trim (default "" env) in
          if negb (isAbsolute trimmed) then join [projectRoot; trimmed]
          else trimmed
        else
          let projectAsdDir := join [projectRoot; ".asd"] in
          let hasLocalAsd :=
            existsSync st projectAsdDir
            && existsSync st (join [projectAsdDir; "modules"]) in
          if hasLocalAsd then join [projectAsdDir; "workspace"]
          else if negb (String.eqb asdDir projectRoot)
                  && negb (String.eqb asdDir projectAsdDir)
          then join [projectRoot; "workspace"]
          else join [asdDir; "workspace"] in
      Some (dir, createWorkspace dir (safeguard dir st)).

(** *** [getAsdHome], [getBinLocation], [resolveBinDir] *)

Definition getAsdHome (st : State) : string :=
  let envHome := getenv st "ASD_HOME" in
  if JS.truthy envHome && JS.truthy (Some (JS.trim (default "" envHome)))
  then JS.trim (default "" envHome)
  else
    match platform h with
    | Win32 =>
        let localAppData :=
          default (join [homedir h; "AppData"; "Local"])
            (JS.or_else (getenv st "LOCALAPPDATA") None) in
        join [localAppData; "asd"]
    | Darwin => join [homedir h; "Library"; "Application Support"; "asd"]
    | Linux =>
        let xdgData :=
          default (join [homedir h; ".local"; "share"])
            (JS.or_else (getenv st "XDG_DATA_HOME") None) in
        join [xdgData; "asd"]
    end.

Definition resolveGlobalBinDir (st : State) : string :=
  join [getAsdHome st; "bin"].

Definition getGlobalConfigPath (st : State) : string :=
  join [getAsdHome st; "config.yaml"].

Inductive BinLocation : Type := Global | Workspace.

Definition asBinLocation (v : option string) : option BinLocation :=
  match v with
  | Some s => if String.eqb s "workspace" then Some Workspace
              else if String.eqb s "global" then Some Global
              else None
  | None => None
  end.

(** [loadGlobalConfig()?.preferences?.bin_location] *)
Definition configuredBinLocation (st : State) : option string :=
  let configPath := getGlobalConfigPath st in
  if existsSync st configPath then configBinLocation h configPath else None.

Definition getBinLocation (st : State) : BinLocation :=
  match asBinLocation (getenv st "ASD_BIN_LOCATION") with
  | Some l => l
  | None => default Global (asBinLocation (configuredBinLocation st))
  end.

Definition resolveBinDir : R string :=
  fun st =>
    let explicitDir := getenv st "ASD_BIN_DIR" in
    if JS.truthy explicitDir && JS.truthy (Some (JS.trim (default "" explicitDir)))
    then Some (JS.trim (default "" explicitDir), st)
    else
      match getBinLocation st with
      | Workspace =>
          '(workspace, st1) ← resolveWorkspaceDir (cwd h) st;
          let binDir := join [workspace; "bin"] in
          Some (binDir, ensureExists binDir st1)
      | Global =>
          let globalBin := resolveGlobalBinDir st in
          Some (globalBin, ensureExists globalBin st)
      end.

(** *** [resolveLogPath] *)
Definition resolveLogPath (filename : string) : R string :=
  fun st =>
    '(workspace, st1) ← resolveWorkspaceDir (cwd h) st;
    let logsDir := join [workspace; "logs"] in
    Some (join [logsDir; filename], ensureExists logsDir st1).

(** A run of [resolveWorkspaceDir] calls; between two calls the rest of
    the program may change the environment and the disk, but not the
    warning flag nor what was already written to stderr. *)
Record Call : Type := {
  call_startDir : string;
  call_vars : gmap string string;       (* process.env at the call *)
  call_disk : gset string               (* the disk at the call *)
}.

Definition enter (c : Call) (st : State) : State :=
  {| vars := call_vars c; disk := call_disk c;
     pathMisconfigurationWarned := pathMisconfigurationWarned st;
     stderr := stderr st |}.

(** A call that throws leaves the flag and stderr as they were. *)
Definition runCall (st : State) (c : Call) : State :=
  match resolveWorkspaceDir (call_startDir c) (enter c st) with
  | Some (_, st') => st'
  | None => enter c st
  end.

Definition runCalls (calls : list Call) (st : State) : State :=
  fold_left runCall calls st.

(** *** Vocabulary for the properties *)

(** The overrides that are used as given are absolute paths: the
    sandbox or execution directory (trimmed) and [PROJECT_DIR]. *)
Definition absoluteOverrides (st : State) : Prop :=
  (forall v, JS.or_else (getenv st "SANDBOX_DIR") (getenv st "EXECUTION_DIR") = Some v ->
             JS.trim v <> "" -> isAbsolute (JS.trim v) = true)
  /\ (forall v, getenv st "PROJECT_DIR" = Some v -> v <> "" -> isAbsolute v = true).

(** [realpathSync] succeeds on every path that exists. *)
Definition realpathTotal (st : State) : Prop :=
  forall p, p ∈ disk st -> is_Some (realpath h p).

(** An environment variable is unset or blank: [v && v.trim()] is falsy. *)
Definition blank (v : option string) : Prop :=
  match v with
  | Some x => JS.trim x = ""
  | None => True
  end.

End OnHost.

(** The invariant of a process: nothing was warned, or the flag is up
    and exactly one warning was written. *)
Definition warnedOnce (st : State) : Prop :=
  stderr st = []
  \/ (pathMisconfigurationWarned st = true /\ length (stderr st) = 1%nat).

(** A property of the value an optional result holds, if any. *)
Definition whenSome {A} (o : option A) (P : A -> Prop) : Prop :=
  match o with
  | Some a => P a
  | None => True
  end.

End Resolver.

(** ** Concrete hosts and states *)

Module Scenario.

Import Proc.

(** A reverse proxy started as a daemon, retried on an early crash. *)
Definition caddy : StartDaemonOptions :=
  {| name := "caddy";
     binary := "/usr/local/bin/caddy";
     args := ["run"];
     env := ∅;
     cwd := "/srv/app";
     pidFile := "/srv/app/.asd/workspace/caddy/caddy.pid";
     logFile := "/srv/app/.asd/workspace/logs/caddy.log";
     readiness := {| http := ["http://127.0.0.1:2019/config/"]; port := [];
                     log := None; custom := false |};
     minUptimeMs := 1200;
     restartPolicy := OnFailure |}.

(** A Linux host on which PID 1 and the PIDs 4000 to 5000 answer, every
    readiness task succeeds, and children get PIDs from 4000 up. *)
Definition steadyHost : Host :=
  {| isWin := false; isCI := false; isCodex := false;
     accepts := fun _ target => (target =? 1) || ((4000 <=? target) && (target <=? 5000));
     clock := fun e => 1000 + 100 * Z.of_nat e;
     child_pid := fun e => 4000 + Z.of_nat (Nat.min e 1000);
     onDisk := fun _ => true;
     which := fun _ => "";
     probe := fun _ _ => true |}.

(** A Linux host on which the child spawned first (PID 4000) answers after
    its start-up sleep and is gone one wait later, no later child ever
    answers, and no readiness task succeeds. *)
Definition flakyHost : Host :=
  {| isWin := false; isCI := false; isCodex := false;
     accepts := fun e target => (target =? 1) || ((target =? 4000) && (e =? 1)%nat);
     clock := fun e => 1000 + 100 * Z.of_nat e;
     child_pid := fun e => 4000 + Z.of_nat (Nat.min e 1000);
     onDisk := fun _ => true;
     which := fun _ => "";
     probe := fun _ _ => false |}.

(** No PID-file, nothing done yet. *)
Definition idle : State := {| fs := ∅; epoch := 0; events := [] |}.

(** The same, two waits into the life of the host. *)
Definition later : State := {| fs := ∅; epoch := 2; events := [] |}.

(** A PID-file with the given content. *)
Definition recorded (content : string) : State :=
  {| fs := {[ pidFile caddy := content ]}; epoch := 0; events := [] |}.

Definition defaults : StopOptions := {| gentleMs := None; killGroup := None |}.

Import Resolver.

(** A Linux workstation with POSIX paths and no symbolic links. *)
Definition workstation : Resolver.Host :=
  {| ops := Path.posix;
     platform := Linux;
     homedir := "/home/dev";
     Resolver.cwd := "/srv/app";
     realpath := fun p => Some p;
     configBinLocation := fun _ => None |}.

(** A CI job that points the CLI at a relative binary directory which
    does not exist yet. *)
Definition ciJob : Resolver.State :=
  boot {[ "ASD_BIN_DIR" := "ci-bin" ]} ∅.

(** A call from inside a CLI checkout at [/srv/app/.asd] that has its
    entry point but no [modules] directory: the workspace resolves to a
    doubled [.asd/.asd] path. *)
Definition nestedCheckout : Call :=
  {| call_startDir := "/srv/app/.asd";
     call_vars := ∅;
     call_disk := {[ "/"; "/srv"; "/srv/app"; "/srv/app/.asd";
                     "/srv/app/.asd/bin"; "/srv/app/.asd/bin/asd.ts" ]} |}.

End Scenario.

(** ** The TCP probe ([waitForPort]) *)

Module Port.

(** What becomes of one connection attempt.  The promise the loop awaits
    is resolved by the "connect" listener (to true) and by the "error"
    listener (to false); the timer set for [intervalMs] only destroys the
    socket, and a destroyed socket fires neither event. *)
Inductive Attempt : Type :=
| Connects       (* "connect" comes first *)
| Errors         (* "error" comes first *)
| TimerFirst.    (* neither comes before the timer *)

(** One turn of the loop: the clock read by the loop test, and what the
    attempt made in that turn gives (not looked at when the test fails). *)
Record PortPoll : Type := { port_clock : Z; port_attempt : Attempt }.

Inductive Verdict : Type :=
| Returns (ready : bool)
| Pending        (* the loop awaits a promise that nothing resolves *)
| Unfinished.    (* the host stopped answering before the loop left *)

Fixpoint port_loop (deadline : Z) (polls : list PortPoll) : Verdict :=
  match polls with
  | [] => Unfinished
  | p :: rest =>
      if port_clock p <? deadline then
        match port_attempt p with
        | Connects => Returns true
        | Errors => port_loop deadline rest
        | TimerFirst => Pending
        end
      else Returns false
  end.

(** [waitForPort({ host, port }, { timeoutMs, intervalMs })]; [t0] is the
    clock at entry.  The target and the interval only decide what the
    host shows in [polls]. *)
Definition waitForPort (t0 timeoutMs : Z) (polls : list PortPoll) : Verdict :=
  port_loop (t0 + timeoutMs) polls.

(** A turn that starts before the deadline and whose attempt is refused. *)
Definition refused (deadline : Z) (p : PortPoll) : Prop :=
  port_clock p < deadline /\ port_attempt p = Errors.

End Port.

(** ** The lease reaper ([_procHasLease], [reapByEnv]) *)

Module Reaper.

Import Proc.

(** An entry of [readdir("/proc", { withFileTypes: true })]. *)
Record Dirent : Type := { d_name : string; d_isDirectory : bool }.

(** What the reaper asks of the machine besides what the supervisor
    does.  [numberOf] is [Number(name)]; a name that reads as a fraction
    names no process, has no [environ] file, and is given as [NaN]. *)
Record Host : Type := {
  base : Proc.Host;
  isLinux : bool;                              (* process.platform === "linux" *)
  numberOf : string -> JS.number;
  readdirProc : nat -> option (list Dirent);   (* None: readdir throws *)
  environ : nat -> Z -> option string;         (* /proc/<pid>/environ; None: the read throws *)
  cmdline : nat -> Z -> string                 (* what the tr command prints, trimmed *)
}.

(** [txt.split("\0")] *)
Fixpoint splitNul (txt : string) : list string :=
  match txt with
  | EmptyString => [EmptyString]
  | String c rest =>
      if Ascii.eqb c Ascii.zero then EmptyString :: splitNul rest
      else
        match splitNul rest with
        | [] => [String c EmptyString]
        | w :: ws => String c w :: ws
        end
  end.

(** [n < k] for an integer [k]. *)
Definition lt (n : JS.number) (k : Z) : bool :=
  match n with
  | JS.NaN => false
  | JS.Fin z => z <? k
  | JS.Inf negative => negative
  end.

Record ReapOptions : Type := {
  key : string;
  value : string;
  excludePids : list Z
}.

Record Victim : Type := { victim_pid : Z; victim_cmdline : string }.

Section OnHost.

Variable h : Host.

Definition _procHasLease (pid : Z) (key val : string) : M bool :=
  fun s =>
    if negb (isLinux h) then (Ok false, s)
    else
      match environ h (epoch s) pid with
      | Some txt =>
          (Ok (existsb (String.eqb (key +:+ "=" +:+ val)) (splitNul txt)), s)
      | None => (Ok false, s)
      end.

(** The body of the [for] loop for one entry. *)
Definition reapEntry (o : ReapOptions) (d : Dirent) (victims : list Victim)
  : M (list Victim) :=
  if negb (d_isDirectory d) then ret victims
  else
    let pid := numberOf h (d_name d) in
    if negb (JS.isFinite pid) || lt pid 2 then ret victims
    else if bool_decide (toZ pid ∈ excludePids o) then ret victims
    else
      leased <- _procHasLease (toZ pid) (key o) (value o) ;;
      if negb leased then ret victims
      else
        try_catch
          (killProcessTree (base h) (toZ pid) (KILL_GENTLE_MS_DEFAULT (base h))
             (negb (isWin (base h))) ;;;
           cmd <- (fun s => (Ok (cmdline h (epoch s) (toZ pid)), s)) ;;
           ret (victims ++ [{| victim_pid := toZ pid; victim_cmdline := cmd |}]))
          (fun _ => ret victims).

Fixpoint reapLoop (o : ReapOptions) (dirents : list Dirent)
    (victims : list Victim) : M (list Victim) :=
  match dirents with
  | [] => ret victims
  | d :: rest => victims' <- reapEntry o d victims ;; reapLoop o rest victims'
  end.

Definition reapByEnv (o : ReapOptions) : M (list Victim) :=
  if negb (isLinux h) then ret []
  else
    fun s =>
      match readdirProc h (epoch s) with
      | Some dirents => reapLoop o dirents [] s
      | None => (Ok [], s)
      end.

End OnHost.

(** *** Vocabulary for the properties *)

(** The platform is one value: a Linux host is not a Windows host. *)
Definition onePlatform (h : Host) : Prop :=
  isLinux h = true -> isWin (base h) = false.

(** What makes the reaper go after [p]: it is at least 2, not excluded,
    named by a directory of [/proc], and its environment, read at some
    moment, holds the lease as one of its entries. *)
Definition leased (h : Host) (o : ReapOptions) (p : Z) : Prop :=
  2 <= p
  /\ (p ∉ excludePids o)
  /\ (exists e dirents d,
         readdirProc h e = Some dirents /\ d ∈ dirents
         /\ d_isDirectory d = true /\ numberOf h (d_name d) = JS.Fin p)
  /\ (exists e txt,
         environ h e p = Some txt
         /\ (key o +:+ "=" +:+ value o) ∈ splitNul txt).

(** The two-phase kill of every victim, in order. *)
Definition reapTrace (h : Host) (victims : list Victim) : list Event :=
  flat_map
    (fun v => unixKillTrace (victim_pid v) (KILL_GENTLE_MS_DEFAULT (base h)) true)
    victims.

End Reaper.

(** ** The message catalog ([messages.mjs]) *)

Module Messages.

Definition nl : string := String "010" "".

Definition CATALOG : list (string * string) :=
  [ ("ERR_MISSING_ENV", "Missing required environment variables: {vars}");
    ("ERR_INVALID_ENV_VALUE", "Invalid value for {name}: '{value}'{reason}");
    ("ERR_ENV_FILE_NOT_FOUND", "Dotenv file not found at {path}");
    ("ERR_ENV_KEY_MISSING", "Missing env key '{key}' in {path}");
    ("ERR_PORT_NAN", "Port must be a number");
    ("ERR_PREFIX_REQUIRED", "Prefix required (for HTTP named -R)");
    ("ERR_REMOTE_PORT_INVALID", "Invalid remote bind port");
    ("ERR_MISSING_ASD_WORKSPACE_DIR", "Missing ASD_WORKSPACE_DIR");
    ("ERR_MISSING_ASD_PROJECT_HOST", "Missing ASD_PROJECT_HOST");
    ("ERR_MISSING_CADDY_PORT_HTTP", "Missing ASD_CADDY_PORT_HTTP");
    ("ERR_MISSING_CADDY_PORT_HTTPS", "Missing ASD_CADDY_PORT_HTTPS");
    ("ERR_INVALID_PORT", "Invalid port for {name}: {value}");
    ("INFO_SAVED_ENV", "Saved {key} to .env");
    ("ERR_GENERIC", "{message}");
    ("ERR_MISSING_BINARY", "Missing required binary at {path}");
    ("ERR_PROTECTED_PORT", "Protected ports detected ({ports}): {message}");
    ("ERR_HTTP_SERVER_START", "Failed to start HTTP server: {reason}");
    ("ERR_UNKNOWN_COMMAND", "Unknown command '{cmd}'");
    ("ERR_JSON_LOAD_FAILED", "Failed to load JSON file at {path}: {reason}");
    ("ERR_CADDY_API_ERROR", "Caddy API error: {context} ({status})");
    ("ERR_CADDY_STATIC_DIRS",
     "Missing --config-dir or --services-dir for static config");
    ("ERR_NO_NETWORK_SPEC", "No network spec provided");
    ("ERR_CADDY_ONBOARD_ARGS", "runCaddyOnboard requires both 'port' and 'name'.");
    ("ERR_TUNNEL_VERIFY_FAILED", "Tunnel onboarding aborted: {reason}");
    ("ERR_TUNNEL_START_FAILED", "Failed to start tunnel process.");
    ("ERR_ONBOARD_FAILED_FOR", "Onboarding failed for {name}: {reason}");
    ("ERR_DOCKER_DETECT_FAILED", "Docker detection failed: {reason}");
    ("ERR_SCHEMA_VALIDATION", "Schema validation failed for {label}: {reason}");
    ("ERR_REGISTRY_LOCK_TIMEOUT",
     "Could not acquire registry lock at {path} (waited {ms}ms)");
    ("ERR_REGISTRY_WRITE_FAILED", "Failed to update service registry: {reason}");
    ("WARN_INVALID_SELECTION", "Invalid selection. Try again.");
    ("WARN_ENTER_NUMBER", "⚠️ Enter a number.");
    ("INFO_NO_SERVICES",
     nl +:+ "✅ No active services right now." +:+ nl
     +:+ "👉 Start an HTTP service and run me again to get going!" +:+ nl);
    ("ERR_MISSING_TUNNEL_ENV",
     "Missing env for tunnel: ASD_CLIENT_ID or ASD_TUNNEL_HOST");
    ("ERR_TUNNEL_TIMEOUT", "Tunnel {url} did not respond in time");
    ("ERR_HUB_URLS_REQUIRED", "Either ASD_TTYD_URL or ASD_CADDY_URL must be set");
    ("WARN_WORKSPACE_DIR_UNSET",
     "⚠️  ASD_WORKSPACE_DIR is not set. Skipping .hub file write.") ].

(** [\w]: a letter, a digit or the underscore. *)
Definition isWordChar (c : ascii) : bool :=
  let n := nat_of_ascii c in
  ((48 <=? n) && (n <=? 57) || (65 <=? n) && (n <=? 90)
   || (97 <=? n) && (n <=? 122) || (n =? 95))%nat.

Definition isOpen (c : ascii) : bool := Ascii.eqb c "{".
Definition isClose (c : ascii) : bool := Ascii.eqb c "}".

(** The [params] argument: a falsy value, or an object seen through
    [params[k]] as the replacement shows it ([None] when undefined or
    null, otherwise [String] of the value). *)
Inductive Params : Type :=
| Falsy
| Props (lookup : string -> option string).

(** [str.replace(/\{(\w+)\}/g, (_, k) => lookup[k] ?? "")], read from
    left to right.  [pending] is [Some w] when an opening brace and the
    word characters [w] after it have been read and the placeholder is
    still open. *)
Fixpoint expand (lookup : string -> option string) (pending : option string)
    (s : string) : string :=
  match s with
  | EmptyString =>
      match pending with
      | Some w => String "{" w
      | None => EmptyString
      end
  | String c rest =>
      match pending with
      | None =>
          if isOpen c then expand lookup (Some EmptyString) rest
          else String c (expand lookup None rest)
      | Some w =>
          if isWordChar c then expand lookup (Some (w +:+ String c EmptyString)) rest
          else if isClose c && negb (String.eqb w EmptyString)
          then default EmptyString (lookup w) +:+ expand lookup None rest
          else
            String "{" w +:+
            (if isOpen c then expand lookup (Some EmptyString) rest
             else String c (expand lookup None rest))
      end
  end.

Definition applyParams (str : string) (params : Params) : string :=
  match params with
  | Falsy => str
  | Props lookup => expand lookup None str
  end.

Section Catalog.

(** What every plain object inherits under a name ([constructor],
    [toString], ...), as [String] shows it. *)
Variable inherited : string -> option string.

(** The catalog's own entry for a code. *)
Definition entry (code : string) : option string :=
  snd <$> List.find (fun e => String.eqb (fst e) code) CATALOG.

(** [t(code, params)]; an omitted [params] is the empty object. *)
Definition t (code : string) (params : Params) : string :=
  let tpl :=
    match entry code with
    | Some m => if JS.truthy (Some m) then m else code
    | None => default code (inherited code)
    end in
  applyParams tpl params.

End Catalog.

(** *** Vocabulary for the properties *)

Definition hasOpen (s : string) : bool := JS.includes "{" s.

Fixpoint isWord (s : string) : bool :=
  match s with
  | EmptyString => true
  | String c rest => isWordChar c && isWord rest
  end.

(** No value the object can give holds an opening brace. *)
Definition plainValues (lookup : string -> option string) : Prop :=
  forall k v, lookup k = Some v -> hasOpen v = false.

End Messages.

(** ** More of [common.mjs]: bundled binaries, the workspace for logs,
    the environment check *)

Module Layout.

Import Resolver.

(** What these functions ask of the machine besides what the resolvers
    do. *)
Record Machine : Type := {
  host : Resolver.Host;
  platformName : string;                  (* process.platform *)
  archName : string;                      (* process.arch *)
  tmpdir : string;                        (* os.tmpdir() *)
  processPid : Z;                         (* process.pid *)
  warnIcon : string                       (* the glyph of the cli.warn icon *)
}.

Definition osMap (platform : string) : option string :=
  if String.eqb platform "linux" then Some "linux"
  else if String.eqb platform "darwin" then Some "darwin"
  else if String.eqb platform "win32" then Some "windows"
  else None.

Definition archMap (arch : string) : option string :=
  if String.eqb arch "x64" then Some "amd64"
  else if String.eqb arch "arm64" then Some "arm64"
  else None.

Definition dq : string := String "034" "".

Definition FORBIDDEN_ENV_VARS : list string := ["SANDBOX_DIR"; "EXECUTION_DIR"].

Definition forbiddenWarning (key val : string) : string :=
  key +:+ " is set to " +:+ dq +:+ val +:+ dq
  +:+ " - this may cause path resolution issues. "
  +:+ "Remove it from .env if present.".

Definition projectDirWarning (projectDir : string) : string :=
  "PROJECT_DIR=" +:+ dq +:+ projectDir +:+ dq
  +:+ " points to .asd/ directory. "
  +:+ "This should point to the project root, not the .asd subdirectory.".

Definition workspaceWarning (ws : string) : string :=
  "Workspace path " +:+ dq +:+ ws +:+ dq +:+ " contains doubled "
  +:+ dq +:+ ".asd/.asd" +:+ dq +:+ " - check env configuration.".

Record Validation : Type := { valid : bool; warnings : list string }.

(** [console.warn(line)] *)
Definition consoleWarn (st : State) (line : string) : State :=
  {| vars := vars st; disk := disk st;
     pathMisconfigurationWarned := pathMisconfigurationWarned st;
     stderr := stderr st ++ [line] |}.

Section OnMachine.

Variable m : Machine.

Let h : Resolver.Host := host m.

(** The module-level [isWin] of [common.mjs]. *)
Definition isWin : bool := String.eqb (platformName m) "win32".

(** [resolveBundledBinary(name)]: [Some None] is [null]. *)
Definition resolveBundledBinary (name : string) : R (option string) :=
  fun st =>
    match osMap (platformName m), archMap (archName m) with
    | Some os, Some cpuArch =>
        let ext := if String.eqb (platformName m) "win32" then ".exe" else "" in
        asdDir ← resolveAsdDir h st (cwd h);
        let bundledPath :=
          join h [asdDir; "dist"; "bin"; os +:+ "-" +:+ cpuArch; name +:+ ext] in
        if existsSync st bundledPath then Some (Some bundledPath, st)
        else
          '(binDir, st1) ← resolveBinDir h st;
          let globalPath := join h [binDir; name +:+ ext] in
          if existsSync st1 globalPath then Some (Some globalPath, st1)
          else
            '(workspace, st2) ← resolveWorkspaceDir h (cwd h) st1;
            let workspacePath := join h [workspace; "bin"; name +:+ ext] in
            if existsSync st2 workspacePath then Some (Some workspacePath, st2)
            else Some (None, st2)
    | _, _ =>
        '(binDir, st1) ← resolveBinDir h st;
        let fallback := join h [binDir; if isWin then name +:+ ".exe" else name] in
        Some (if existsSync st1 fallback then Some fallback else None, st1)
    end.

Definition hasBundledBinary (name : string) : R bool :=
  fun st =>
    '(found, st') ← resolveBundledBinary name st;
    Some (bool_decide (found <> None), st').

(** [resolveWorkspaceDirForLogs({ jsonFilePath })] *)
Definition resolveWorkspaceDirForLogs (jsonFilePath : option string) (st : State)
  : option string :=
  let sb := JS.or_else (getenv st "SANDBOX_DIR") (getenv st "EXECUTION_DIR") in
  if JS.truthy sb && JS.truthy (Some (JS.trim (default "" sb))) then
    Some (join h [JS.trim (default "" sb); "workspace"])
  else
    let envWs := getenv st "ASD_WORKSPACE_DIR" in
    if JS.truthy envWs && JS.truthy (Some (JS.trim (default "" envWs))) then
      let trimmed := JS.trim (default "" envWs) in
      if negb (isAbsolute h trimmed) then
        root ← resolveProjectRoot h st (cwd h);
        Some (join h [root; trimmed])
      else Some trimmed
    else if JS.truthy jsonFilePath
            && JS.truthy (Some (JS.trim (default "" jsonFilePath))) then
      Some (join h [dirname h (JS.trim (default "" jsonFilePath)); ".asd"; "workspace"])
    else
      Some (join h [tmpdir m; "asd-workspace-" +:+ JS.ofZ (processPid m)]).

(** The warnings of the first loop, one per forbidden variable that is
    set to a non-empty value. *)
Definition forbiddenWarnings (st : State) : list string :=
  flat_map
    (fun key =>
       match getenv st key with
       | Some val => if JS.truthy (Some val) then [forbiddenWarning key val] else []
       | None => []
       end)
    FORBIDDEN_ENV_VARS.

Definition projectDirWarnings (st : State) : list string :=
  match getenv st "PROJECT_DIR" with
  | Some projectDir =>
      if JS.truthy (Some projectDir) && endsWithAsd projectDir
      then [projectDirWarning projectDir] else []
  | None => []
  end.

(** The [try] block: the workspace is resolved (and made); an exception
    is swallowed. *)
Definition workspaceWarnings (st : State) : list string * State :=
  match resolveWorkspaceDir h (cwd h) st with
  | Some (ws, st') =>
      (if negb (JS.includes "/work/.asd/.asd" ws) && hasDoubledAsd ws
       then [workspaceWarning ws] else [], st')
  | None => ([], st)
  end.

(** [validateEnvironment({ silent })] *)
Definition validateEnvironment (silent : bool) (st : State) : Validation * State :=
  let '(fromWorkspace, st1) := workspaceWarnings st in
  let found := forbiddenWarnings st ++ projectDirWarnings st ++ fromWorkspace in
  let printed :=
    if negb silent && (0 <? length found)%nat then
      [Messages.nl +:+ warnIcon m +:+ "  Environment configuration warnings:"]
      ++ map (fun w => "   • " +:+ w) found
      ++ [""]
    else [] in
  ({| valid := (length found =? 0)%nat; warnings := found |},
   fold_left consoleWarn printed st1).

End OnMachine.

End Layout.

(** ** Vocabulary for the life cycle of a daemon *)

Module Lifecycle.

Import Proc.

(** The PID-file a [startDaemon] call leaves in [s'] agrees with the
    result [r] it returns: the new child's PID and a newline when it
    reports [started], a content that reads as the reported PID when it
    reports [already-running], no file when it reports [failed]. *)
Definition pidFileAgrees (o : StartDaemonOptions) (r : StartResult)
    (s' : State) : Prop :=
  match status r with
  | Started =>
      fs s' !! pidFile o = Some (JS.ofZ (pid r) +:+ String "010" "")
  | AlreadyRunning =>
      exists content,
        fs s' !! pidFile o = Some content
        /\ recordedPid content = Some (pid r)
  | Failed => fs s' !! pidFile o = None
  end.

(** What [startDaemon] itself may do to processes and files: probe a
    process with signal 0, remove or write its PID-file, open its log
    file for appending, and spawn the resolved binary.  The waits are
    left open: the trace holds the start-up delay only, not the sleeps,
    requests and reads of the readiness tasks the call awaits, nor the
    [which] and [ps] lookups. *)
Definition startupEvent (h : Host) (o : StartDaemonOptions) (e : Event) : Prop :=
  match e with
  | Kill _ sig => sig = SIG0
  | Taskkill _ => False
  | Sleep _ => True
  | OpenAppend p => p = logFile o
  | Spawn b a c _ =>
      resolveBinary h (binary o) = Some b /\ b <> ""
      /\ a = args o /\ c = cwd o
  | Write p _ => p = pidFile o
  | Remove p => p = pidFile o
  end.

Definition orderly (h : Host) (o : StartDaemonOptions) (evs : list Event) : Prop :=
  Forall (startupEvent h o) evs.

(** Events that neither start nor signal anything but a liveness probe. *)
Definition harmless (e : Event) : Prop :=
  match e with
  | Kill _ SIG0 | Remove _ => True
  | _ => False
  end.

End Lifecycle.

(** ** More hosts and states *)

Module Fixtures.

Import Proc.

(** [Scenario.steadyHost] without any binary: nothing on disk, nothing
    on the PATH. *)
Definition bareHost : Host :=
  {| isWin := false; isCI := false; isCodex := false;
     accepts := accepts Scenario.steadyHost;
     clock := clock Scenario.steadyHost;
     child_pid := child_pid Scenario.steadyHost;
     onDisk := fun _ => false;
     which := fun _ => "";
     probe := fun _ _ => true |}.

(** A Windows host in CI. *)
Definition windowsHost : Host :=
  {| isWin := true; isCI := true; isCodex := false;
     accepts := fun _ _ => false;
     clock := fun e => 1000 + 100 * Z.of_nat e;
     child_pid := fun e => 4000 + Z.of_nat (Nat.min e 1000);
     onDisk := fun _ => true;
     which := fun _ => "";
     probe := fun _ _ => true |}.

(** The state [Scenario.caddy] is started from, and the one a first
    start on [Scenario.steadyHost] leaves. *)
Definition afterStart : State :=
  snd (startDaemon Scenario.steadyHost 2 Scenario.caddy Scenario.idle).

Definition nul : string := String Ascii.zero "".

(** A Linux machine whose [/proc] shows init, two entries that are not
    processes and two processes, of which 4242 carries the lease. *)
Definition leaseHost : Reaper.Host :=
  {| Reaper.base := Scenario.steadyHost;
     Reaper.isLinux := true;
     Reaper.numberOf := fun name =>
       if String.eqb name "1" then JS.Fin 1
       else if String.eqb name "4242" then JS.Fin 4242
       else if String.eqb name "4300" then JS.Fin 4300
       else JS.NaN;
     Reaper.readdirProc := fun _ =>
       Some [ {| Reaper.d_name := "1"; Reaper.d_isDirectory := true |};
              {| Reaper.d_name := "self"; Reaper.d_isDirectory := true |};
              {| Reaper.d_name := "4242"; Reaper.d_isDirectory := true |};
              {| Reaper.d_name := "uptime"; Reaper.d_isDirectory := false |};
              {| Reaper.d_name := "4300"; Reaper.d_isDirectory := true |} ];
     Reaper.environ := fun _ p =>
       if p =? 4300 then Some ("PATH=/usr/bin" +:+ nul)
       else Some ("PATH=/usr/bin" +:+ nul +:+ "ASD_RUN_LEASE=run-7" +:+ nul);
     Reaper.cmdline := fun _ _ => "sleep 600" |}.

Definition lease : Reaper.ReapOptions :=
  {| Reaper.key := "ASD_RUN_LEASE"; Reaper.value := "run-7";
     Reaper.excludePids := [4000] |}.

(** The parameters of a port message of which only the name is known. *)
Definition portParams : string -> option string :=
  fun k => if String.eqb k "name" then Some "ASD_CADDY_PORT_HTTP" else None.

(** [Scenario.workstation] as a 64-bit Linux machine. *)
Definition devMachine : Layout.Machine :=
  {| Layout.host := Scenario.workstation;
     Layout.platformName := "linux";
     Layout.archName := "x64";
     Layout.tmpdir := "/tmp";
     Layout.processPid := 4242;
     Layout.warnIcon := "!" |}.

(** A project at [/srv/app], seen from a process without any override
    in its environment. *)
Definition project : Resolver.State :=
  Resolver.boot ∅ {[ "/"; "/srv"; "/srv/app"; "/srv/app/.asd";
                     "/srv/app/src"; "/srv/app/src/lib" ]}.

(** An empty disk. *)
Definition nowhere : Resolver.State := Resolver.boot ∅ ∅.

(** A process told where its workspace is. *)
Definition pinned : Resolver.State :=
  Resolver.boot {[ "ASD_WORKSPACE_DIR" := "/var/asd/ws" ]} ∅.

End Fixtures.

(** ** Vocabulary for the home of the global directories *)

Module Homes.

Import Resolver.

(** The places [getAsdHome] builds on are absolute paths: the home
    directory, and the values of [ASD_HOME] (trimmed), [XDG_DATA_HOME]
    and [LOCALAPPDATA] when they are set. *)
Definition absoluteHome (h : Host) (st : State) : Prop :=
  isAbsolute h (homedir h) = true
  /\ (forall v, getenv st "ASD_HOME" = Some v -> JS.trim v <> "" ->
                isAbsolute h (JS.trim v) = true)
  /\ (forall v, getenv st "XDG_DATA_HOME" = Some v -> v <> "" ->
                isAbsolute h v = true)
  /\ (forall v, getenv st "LOCALAPPDATA" = Some v -> v <> "" ->
                isAbsolute h v = true).

End Homes.

(** ** Vocabulary for the walk of [resolveProjectRoot] *)

Module Ancestry.

Import Resolver.

(** The [k]-th directory above [dir] ([dir] itself for 0). *)
Definition ancestor (h : Host) (k : nat) (dir : string) : string :=
  Nat.iter k (dirname h) dir.

(** [PROJECT_DIR] plays no part: it is unset, empty, or names nothing
    that exists. *)
Definition noProjectDir (st : State) : Prop :=
  forall v, vars st !! "PROJECT_DIR" = Some v ->
            v = "" \/ existsSync st v = false.

(** The walk does not take [dir] for a CLI checkout named [.asd]. *)
Definition notCheckout (h : Host) (st : State) (dir : string) : Prop :=
  endsWithAsd dir && looksLikeCli h st dir = false.

(** The walk finds no [.asd] entry in [dir]. *)
Definition noAsdIn (h : Host) (st : State) (dir : string) : Prop :=
  existsSync st (join h [dir; ".asd"]) = false.

End Ancestry.

(** ** Vocabulary for a log that only grows *)

Module LogGrowth.

Import Readiness.

(** The turns a probe sees when the log starts as [text] and, before
    each turn, a chunk is appended to it; every read succeeds. *)
Fixpoint appended (text : string) (turns : list (Z * string)) : list LogPoll :=
  match turns with
  | [] => []
  | (clock, chunk) :: rest =>
      {| log_clock := clock; log_read := ReadOk (text +:+ chunk) |}
      :: appended (text +:+ chunk) rest
  end.

End LogGrowth.

(** * Properties *)

(** ** String facts *)

Module JSFacts.

Lemma slice_from_length_app (pre rest : string) :
  JS.slice_from (JS.length pre) (pre +:+ rest) = rest.
Proof. induction pre as [|c pre IH]; simpl; [reflexivity | exact IH]. Qed.

Lemma startsWith_app (p rest : string) : JS.startsWith p (p +:+ rest) = true.
Proof.
  induction p as [|c p IH]; simpl; [reflexivity |].
  rewrite Ascii.eqb_refl. exact IH.
Qed.

Lemma includes_app_r (p a b : string) :
  JS.includes p b = true -> JS.includes p (a +:+ b) = true.
Proof.
  intros Hb. induction a as [|c a IH]; simpl; [exact Hb |].
  rewrite IH. apply orb_true_r.
Qed.

(** [includes] finds the pattern wherever it sits. *)
Lemma includes_infix (p a b : string) : JS.includes p (a +:+ p +:+ b) = true.
Proof.
  apply includes_app_r. destruct p as [|c p]; simpl.
  - destruct b; reflexivity.
  - rewrite Ascii.eqb_refl, startsWith_app. reflexivity.
Qed.

Example parseInt_samples :
  map JS.parseInt ["4321"; "  77 "; "12abc"; "-5"; "+9"; ""; "pid"; "0x10"; "1e3"]
  = [JS.Fin 4321; JS.Fin 77; JS.Fin 12; JS.Fin (-5); JS.Fin 9; JS.NaN; JS.NaN;
     JS.Fin 0; JS.Fin 1].
Proof. reflexivity. Qed.

(** Beyond 2^53 the value is the nearest double. *)
Example parseInt_rounds : JS.parseInt "9007199254740993" = JS.Fin 9007199254740992.
Proof. reflexivity. Qed.

(** *** Printing a PID and reading it back *)

Import Decimal.

Lemma trimEnd_clean_newline (s : string) :
  JS.noWhiteSpace s = true -> JS.trimEnd (s +:+ String "010" "") = s.
Proof.
  induction s as [|c s IH]; simpl; [reflexivity|].
  intros Hc. apply andb_true_iff in Hc as [Hc Hs].
  rewrite (IH Hs). apply negb_true_iff in Hc. rewrite Hc.
  destruct s; reflexivity.
Qed.

Lemma trim_clean_newline (s : string) :
  JS.noWhiteSpace s = true -> JS.trim (s +:+ String "010" "") = s.
Proof.
  intros Hs. unfold JS.trim. destruct s as [|c s]; [reflexivity|].
  simpl in Hs |- *. apply andb_true_iff in Hs as [Hc Hs].
  apply negb_true_iff in Hc as Hc'. rewrite Hc'.
  apply (trimEnd_clean_newline (String c s)). simpl. rewrite Hc, Hs. reflexivity.
Qed.

Lemma string_of_uint_clean (d : uint) :
  JS.noWhiteSpace (NilEmpty.string_of_uint d) = true.
Proof. induction d; simpl; auto. Qed.

Lemma ofZ_clean (z : Z) : JS.noWhiteSpace (JS.ofZ z) = true.
Proof.
  unfold JS.ofZ. destruct (Z.to_int z) as [d|d]; simpl;
    destruct d; simpl; auto using string_of_uint_clean.
Qed.

(** Reading the digits of a numeral continues the accumulator exactly as
    [Pos.of_uint_acc] does. *)
Lemma digits_from_numeral (d : uint) :
  forall (n : N),
    JS.digits_from (Some (Z.of_N n)) (NilEmpty.string_of_uint d)
    = Some (Z.of_N match n with
                   | N0 => Pos.of_uint d
                   | Npos a => Npos (Pos.of_uint_acc d a)
                   end).
Proof.
  induction d as [|d IH|d IH|d IH|d IH|d IH|d IH|d IH|d IH|d IH|d IH];
    intros n; [destruct n; reflexivity|..];
    cbn [NilEmpty.string_of_uint JS.digits_from];
    match goal with
    | |- context [JS.digit ?c] =>
        let v := eval vm_compute in (JS.digit c) in change (JS.digit c) with v
    end;
    cbv iota; destruct n as [|a]; cbn [Pos.of_uint Pos.of_uint_acc];
    match goal with
    | |- _ = Some (Z.of_N (N.pos (Pos.of_uint_acc d ?x))) =>
        etransitivity; [| exact (IH (Npos x))]
    | |- _ = Some (Z.of_N (Pos.of_uint d)) =>
        etransitivity; [| exact (IH N0)]
    end;
    do 2 f_equal; cbn; lia.
Qed.

Lemma digits_from_positive (p : positive) :
  JS.digits_from None (NilEmpty.string_of_uint (Pos.to_uint p)) = Some (Zpos p).
Proof.
  pose proof (digits_from_numeral (Pos.to_uint p) N0) as H.
  rewrite DecimalPos.Unsigned.of_to in H. simpl Z.of_N in H.
  rewrite <- H. pose proof (DecimalPos.Unsigned.to_uint_nonnil p) as Hnil.
  destruct (Pos.to_uint p); [contradiction|reflexivity..].
Qed.

Lemma nearest_double_exact (n : Z) :
  0 <= n < 2 ^ 53 -> JS.nearest_double n = Some n.
Proof.
  intros [Hlo Hhi]. unfold JS.nearest_double.
  assert (Z.log2 n + 1 <= 53) as Hbits.
  { destruct (Z.eq_dec n 0) as [->|Hn]; [simpl; lia|].
    assert (Z.log2 n < 53) by (apply Z.log2_lt_pow2; lia). lia. }
  apply Z.leb_le in Hbits. rewrite Hbits. reflexivity.
Qed.

Lemma ofZ_positive (p : positive) :
  JS.ofZ (Zpos p) = NilEmpty.string_of_uint (Pos.to_uint p).
Proof.
  unfold JS.ofZ. simpl. pose proof (DecimalPos.Unsigned.to_uint_nonnil p).
  destruct (Pos.to_uint p); [contradiction|reflexivity..].
Qed.

Lemma digits_first_is_digit (p : positive) :
  exists c rest, NilEmpty.string_of_uint (Pos.to_uint p) = String c rest
                 /\ JS.digit c <> None.
Proof.
  pose proof (DecimalPos.Unsigned.to_uint_nonnil p).
  destruct (Pos.to_uint p); [contradiction|..]; simpl; eauto.
Qed.

(** The PID written to a PID-file is the PID read back from it, as long as
    it is an integer a double holds exactly. *)
Lemma parseInt_ofZ_newline (z : Z) :
  Z.abs z < 2 ^ 53 ->
  JS.parseInt (JS.trim (JS.ofZ z +:+ String "010" "")) = JS.Fin z.
Proof.
  intros Hz. rewrite trim_clean_newline by apply ofZ_clean.
  destruct z as [|p|p].
  - reflexivity.
  - rewrite ofZ_positive. unfold JS.parseInt.
    destruct (digits_first_is_digit p) as (c & rest & Hs & Hc).
    assert (JS.trimStart (String c rest) = String c rest) as Ht.
    { simpl. destruct (JS.isWhiteSpace c) eqn:Hw; [|reflexivity].
      pose proof (string_of_uint_clean (Pos.to_uint p)) as Hclean.
      rewrite Hs in Hclean. simpl in Hclean. rewrite Hw in Hclean. discriminate. }
    rewrite Hs, Ht.
    assert (c <> "-"%char /\ c <> "+"%char) as [Hm Hp].
    { split; intros ->; apply Hc; reflexivity. }
    assert ((let '(negative, body) :=
               match String c rest with
               | String "-" r => (true, r)
               | String "+" r => (false, r)
               | _ => (false, String c rest)
               end in (negative, body)) = (false, String c rest)) as Hsign.
    { destruct c as [[] [] [] [] [] [] [] []]; try reflexivity; congruence. }
    destruct c as [[] [] [] [] [] [] [] []]; try (exfalso; apply Hc; reflexivity);
      try congruence;
      rewrite <- Hs, digits_from_positive, nearest_double_exact by lia; reflexivity.
  - unfold JS.ofZ. simpl Z.to_int. cbn [NilZero.string_of_int].
    pose proof (DecimalPos.Unsigned.to_uint_nonnil p) as Hnil.
    assert (NilZero.string_of_uint (Pos.to_uint p)
            = NilEmpty.string_of_uint (Pos.to_uint p)) as ->.
    { destruct (Pos.to_uint p); [contradiction|reflexivity..]. }
    unfold JS.parseInt. cbn [JS.trimStart]. change (JS.isWhiteSpace "-") with false.
    cbv iota. rewrite digits_from_positive, nearest_double_exact by lia.
    reflexivity.
Qed.

End JSFacts.

(** ** POSIX paths obey the laws the resolvers rely on *)

Module PathFacts.
Import Path.

Lemma joinWith_head sep c l ls :
  exists tl, joinWith sep ((c :: l) :: ls) = c :: tl.
Proof. destruct ls; simpl; eauto. Qed.

Lemma posix_normalize_absolute (p : string) :
  posix_isAbsolute p = true -> posix_isAbsolute (posix_normalize p) = true.
Proof.
  destruct p as [|c p]; [discriminate|]. intros Habs.
  unfold posix_normalize. rewrite Habs.
  destruct (joinWith _ _); [reflexivity|].
  simpl. reflexivity.
Qed.

Lemma posix_join_absolute first rest :
  posix_isAbsolute first = true ->
  posix_isAbsolute (posix_join (first :: rest)) = true.
Proof.
  destruct first as [|c first]; [discriminate|]. intros Habs.
  unfold posix_join. rewrite filter_cons_True by discriminate.
  apply posix_normalize_absolute.
  cbn [map list_ascii_of_string].
  destruct (joinWith_head [slash] c (list_ascii_of_string first)
              (map list_ascii_of_string (filter (fun s => s <> EmptyString) rest)))
    as [tl ->].
  exact Habs.
Qed.

Lemma posix_dirname_absolute p :
  posix_isAbsolute p = true -> posix_isAbsolute (posix_dirname p) = true.
Proof.
  destruct p as [|c p]; [discriminate|]. simpl. intros Habs.
  destruct (dirname_scan true _) as [[|x r']|]; rewrite ?Habs; simpl; auto.
Qed.

Lemma posix_lawful : Lawful posix.
Proof.
  split; [exact posix_join_absolute | exact posix_dirname_absolute].
Qed.

End PathFacts.

(** ** The readiness primitives *)

Module ReadinessFacts.
Import Readiness.

Example okStatus_boundaries :
  map okStatus [200; 401; 404; 499; 500; 503; 199]
  = [true; true; true; true; false; false; false].
Proof. reflexivity. Qed.

(** A server that answers 503, then drops the connection, then answers
    401: ready at the third request; with a budget that ends before the
    third request: not ready. *)
Example waitForHTTP_third_request :
  waitForHTTP 0 200
    [ {| http_clock := 0; http_fetch := Response 503; http_settled := 5 |};
      {| http_clock := 60; http_fetch := NetworkError; http_settled := 65 |};
      {| http_clock := 120; http_fetch := Response 401; http_settled := 125 |} ]
    = Returns true
  /\ waitForHTTP 0 100
    [ {| http_clock := 0; http_fetch := Response 503; http_settled := 5 |};
      {| http_clock := 60; http_fetch := NetworkError; http_settled := 65 |};
      {| http_clock := 120; http_fetch := Response 401; http_settled := 125 |} ]
    = Returns false.
Proof. split; reflexivity. Qed.

Lemma okStatus_spec (code : Z) : okStatus code = true <-> 200 <= code < 500.
Proof. unfold okStatus. rewrite andb_true_iff, Z.leb_le, Z.ltb_lt. tauto. Qed.

Lemma okStatus_false (code : Z) : okStatus code = false <-> ~ 200 <= code < 500.
Proof. rewrite <- okStatus_spec. destruct (okStatus code); split; congruence. Qed.

(** A turn that is within budget and settles unready hands over to the
    next. *)
Lemma http_loop_skip t0 timeoutMs p rest :
  in_budget t0 timeoutMs p -> unready_turn p ->
  http_loop t0 timeoutMs (p :: rest) = http_loop t0 timeoutMs rest.
Proof.
  unfold in_budget. intros Hb Hn. simpl.
  apply Z.ltb_lt in Hb. rewrite Hb.
  destruct Hn as [-> | (status & -> & Hs)]; [reflexivity|].
  apply okStatus_false in Hs. rewrite Hs. reflexivity.
Qed.

Lemma http_loop_skip_all t0 timeoutMs before rest :
  Forall (fun q => in_budget t0 timeoutMs q /\ unready_turn q) before ->
  http_loop t0 timeoutMs (before ++ rest) = http_loop t0 timeoutMs rest.
Proof.
  induction 1 as [|p before [Hb Hn] _ IH]; [reflexivity|].
  cbn [app]. rewrite http_loop_skip by assumption. exact IH.
Qed.

(** Where a loop that leaves, or gets stuck, does so: after turns that
    were all within budget and settled unready. *)
Lemma http_loop_stops t0 timeoutMs polls v :
  http_loop t0 timeoutMs polls = v ->
  v <> Unfinished ->
  exists before p after,
    polls = before ++ p :: after
    /\ Forall (fun q => in_budget t0 timeoutMs q /\ unready_turn q) before
    /\ ((in_budget t0 timeoutMs p /\ ready_turn p /\ v = Returns true)
        \/ (in_budget t0 timeoutMs p /\ http_fetch p = NoAnswer /\ v = Pending)
        \/ (timeoutMs <= http_clock p - t0 /\ v = Returns false)).
Proof.
  induction polls as [|p rest IH]; simpl; intros Hrun Hv.
  - congruence.
  - destruct (Z.ltb_spec (http_clock p - t0) timeoutMs) as [Hin|Hout].
    + assert (unready_turn p ->
              http_loop t0 timeoutMs rest = v ->
              exists before q after,
                p :: rest = before ++ q :: after
                /\ Forall (fun q => in_budget t0 timeoutMs q /\ unready_turn q) before
                /\ ((in_budget t0 timeoutMs q /\ ready_turn q /\ v = Returns true)
                    \/ (in_budget t0 timeoutMs q /\ http_fetch q = NoAnswer
                        /\ v = Pending)
                    \/ (timeoutMs <= http_clock q - t0 /\ v = Returns false)))
        as Hnext.
      { intros Hn Hrest.
        destruct (IH Hrest Hv) as (before & q & after & -> & Hall & Hq).
        exists (p :: before), q, after. split; [reflexivity|].
        split; [|exact Hq]. constructor; [split; assumption | exact Hall]. }
      destruct (http_fetch p) as [status| |] eqn:Hp.
      * destruct (okStatus status) eqn:Hs.
        -- exists [], p, rest. split; [reflexivity|]. split; [constructor|].
           left. split; [exact Hin|]. split; [|congruence].
           exists status. split; [exact Hp|]. apply okStatus_spec. exact Hs.
        -- apply Hnext; [|exact Hrun]. right. exists status.
           split; [exact Hp|]. apply okStatus_false. exact Hs.
      * apply Hnext; [|exact Hrun]. left. exact Hp.
      * exists [], p, rest. split; [reflexivity|]. split; [constructor|].
        right. left. split; [exact Hin|]. split; [exact Hp | congruence].
    + exists [], p, rest. split; [reflexivity|]. split; [constructor|].
      right. right. split; [lia | congruence].
Qed.

Lemma http_loop_head t0 timeoutMs p rest :
  (in_budget t0 timeoutMs p -> ready_turn p ->
   http_loop t0 timeoutMs (p :: rest) = Returns true)
  /\ (in_budget t0 timeoutMs p -> http_fetch p = NoAnswer ->
      http_loop t0 timeoutMs (p :: rest) = Pending)
  /\ (timeoutMs <= http_clock p - t0 ->
      http_loop t0 timeoutMs (p :: rest) = Returns false).
Proof.
  unfold in_budget. simpl. split; [|split].
  - intros Hin (status & Hp & Hs). apply Z.ltb_lt in Hin. rewrite Hin, Hp.
    apply okStatus_spec in Hs. rewrite Hs. reflexivity.
  - intros Hin Hp. apply Z.ltb_lt in Hin. rewrite Hin, Hp. reflexivity.
  - intros Hout. apply Z.ltb_ge in Hout. rewrite Hout. reflexivity.
Qed.

(** The moment at which a request settles plays no part. *)
Lemma http_loop_ignores_arrival t0 timeoutMs polls : forall polls',
  Forall2 (fun p q => http_clock p = http_clock q /\ http_fetch p = http_fetch q)
    polls polls' ->
  http_loop t0 timeoutMs polls = http_loop t0 timeoutMs polls'.
Proof.
  induction polls as [|p rest IH]; intros polls' Hsame.
  - inversion Hsame. reflexivity.
  - inversion Hsame as [|? q ? rest' [Hc Hf] Hrest]; subst.
    simpl. rewrite Hc, Hf, (IH rest' Hrest). reflexivity.
Qed.

(** C2 as stated fails.  A request made at 150 ms of a 200 ms budget and
    answered 200 at 900 ms makes the probe report ready, though no
    request returned a status before the deadline elapsed; and against a
    server that never answers the probe is left waiting: it does not
    return false when the budget is spent. *)
Lemma waitForHTTP_reports_answer_that_comes_after_the_deadline :
  waitForHTTP 0 200 late_answer = Returns true
  /\ ~ ready_only_if_answered_in_time
  /\ waitForHTTP 0 200 silent_server = Pending.
Proof.
  split; [reflexivity|]. split; [|reflexivity].
  intros Hclaim.
  destruct (Hclaim 0 200 late_answer eq_refl) as (p & Hp & status & _ & _ & Hlate).
  apply list_elem_of_singleton in Hp as ->. simpl in Hlate. lia.
Qed.

(** C2, amended.  [waitForHTTP] returns true exactly when some request,
    made in a turn whose loop test ran within the budget, is answered
    with a status in [200, 500), whenever the answer comes, every turn
    before it having begun within the budget and settled with a network
    error or a status outside [200, 500); such turns only lead to the
    next one.  It returns false exactly when a loop test finds the budget
    used up after turns of that kind.  A request that never settles in a
    turn within the budget leaves the call waiting: it returns neither
    true nor false.  The moment at which a request settles has no
    influence on the result. *)
Theorem waitForHTTP_ready_iff_ok_answer_to_request_begun_within_budget :
  forall (t0 timeoutMs : Z) (polls : list HttpPoll),
    (waitForHTTP t0 timeoutMs polls = Returns true <->
     exists before p after,
       polls = before ++ p :: after
       /\ Forall (fun q => in_budget t0 timeoutMs q /\ unready_turn q) before
       /\ http_clock p - t0 < timeoutMs
       /\ exists status, http_fetch p = Response status /\ 200 <= status < 500)
    /\
    (waitForHTTP t0 timeoutMs polls = Returns false <->
     exists before p after,
       polls = before ++ p :: after
       /\ Forall (fun q => in_budget t0 timeoutMs q /\ unready_turn q) before
       /\ timeoutMs <= http_clock p - t0)
    /\
    (waitForHTTP t0 timeoutMs polls = Pending <->
     exists before p after,
       polls = before ++ p :: after
       /\ Forall (fun q => in_budget t0 timeoutMs q /\ unready_turn q) before
       /\ http_clock p - t0 < timeoutMs
       /\ http_fetch p = NoAnswer)
    /\
    (forall (p : HttpPoll) (rest : list HttpPoll),
        http_clock p - t0 < timeoutMs ->
        (http_fetch p = NetworkError \/
         exists status, http_fetch p = Response status /\ ~ 200 <= status < 500) ->
        waitForHTTP t0 timeoutMs (p :: rest) = waitForHTTP t0 timeoutMs rest)
    /\
    (forall polls',
        Forall2 (fun p q => http_clock p = http_clock q
                            /\ http_fetch p = http_fetch q) polls polls' ->
        waitForHTTP t0 timeoutMs polls = waitForHTTP t0 timeoutMs polls').
Proof.
  intros t0 timeoutMs polls. unfold waitForHTTP.
  split; [|split; [|split; [|split]]].
  - split.
    + intros Hrun.
      destruct (http_loop_stops _ _ _ _ Hrun) as (before & p & after & Hp & Hall & Hend);
        [discriminate|].
      exists before, p, after. split; [exact Hp|]. split; [exact Hall|].
      destruct Hend as [(Hin & Hr & _)|[(_ & _ & [=])|(_ & [=])]]. auto.
    + intros (before & p & after & -> & Hall & Hin & Hr).
      rewrite (http_loop_skip_all _ _ _ _ Hall).
      apply http_loop_head; assumption.
  - split.
    + intros Hrun.
      destruct (http_loop_stops _ _ _ _ Hrun) as (before & p & after & Hp & Hall & Hend);
        [discriminate|].
      exists before, p, after. split; [exact Hp|]. split; [exact Hall|].
      destruct Hend as [(_ & _ & [=])|[(_ & _ & [=])|(Hout & _)]]. exact Hout.
    + intros (before & p & after & -> & Hall & Hout).
      rewrite (http_loop_skip_all _ _ _ _ Hall).
      apply http_loop_head; assumption.
  - split.
    + intros Hrun.
      destruct (http_loop_stops _ _ _ _ Hrun) as (before & p & after & Hp & Hall & Hend);
        [discriminate|].
      exists before, p, after. split; [exact Hp|]. split; [exact Hall|].
      destruct Hend as [(_ & _ & [=])|[(Hin & Hno & _)|(_ & [=])]]. auto.
    + intros (before & p & after & -> & Hall & Hin & Hno).
      rewrite (http_loop_skip_all _ _ _ _ Hall).
      apply http_loop_head; assumption.
  - intros p rest Hin Hbad. apply http_loop_skip; assumption.
  - apply http_loop_ignores_arrival.
Qed.

(** *** The log-regex probe *)

Lemma observed_cons offset p before :
  observed offset (p :: before) =
  observed (match log_read p with
            | ReadOk text => JS.length text
            | ReadFail => offset
            end) before.
Proof. reflexivity. Qed.

Lemma log_loop_true_iff (test : string -> bool) deadline polls :
  forall offset,
    log_loop test deadline offset polls = Some true <->
    exists (k : nat) (p : LogPoll) (slice : string),
      polls !! k = Some p /\
      tested_slice offset (take k polls) p = Some slice /\
      test slice = true /\
      forall (j : nat) (q : LogPoll),
        (j <= k)%nat -> polls !! j = Some q -> log_clock q < deadline.
Proof.
  induction polls as [|p rest IH]; intros offset.
  - simpl. split; [discriminate|]. intros (k & q & sl & Hk & _). discriminate.
  - simpl. destruct (Z.ltb_spec (log_clock p) deadline) as [Hin|Hout].
    + (* the shift between a turn of [rest] and the same turn of [p :: rest] *)
      assert (forall offset',
                 offset' = match log_read p with
                           | ReadOk text => JS.length text
                           | ReadFail => offset
                           end ->
                 (forall slice, tested_slice offset [] p = Some slice -> test slice = false) ->
                 log_loop test deadline offset' rest = Some true <->
                 exists k q slice,
                   (p :: rest) !! k = Some q /\
                   tested_slice offset (take k (p :: rest)) q = Some slice /\
                   test slice = true /\
                   forall j q', (j <= k)%nat -> (p :: rest) !! j = Some q' ->
                                log_clock q' < deadline) as Hshift.
      { intros offset' -> Hfirst. rewrite IH. split.
        - intros (k & q & sl & Hk & Hsl & Ht & Hall). exists (S k), q, sl.
          split; [exact Hk|]. split.
          + unfold tested_slice in *. simpl take. rewrite observed_cons. exact Hsl.
          + split; [exact Ht|]. intros [|j] q' Hj Hq'.
            * simpl in Hq'. injection Hq' as <-. exact Hin.
            * apply (Hall j); [lia | exact Hq'].
        - intros (k & q & sl & Hk & Hsl & Ht & Hall). destruct k as [|k].
          + simpl in Hk. injection Hk as <-. simpl take in Hsl.
            rewrite (Hfirst _ Hsl) in Ht. discriminate.
          + exists k, q, sl. split; [exact Hk|]. split.
            * unfold tested_slice in *. simpl take in Hsl.
              rewrite observed_cons in Hsl. exact Hsl.
            * split; [exact Ht|]. intros j q' Hj Hq'.
              apply (Hall (S j)); [lia | exact Hq']. }
      destruct (log_read p) as [text|] eqn:Hread.
      * destruct (test (JS.slice_from offset text)) eqn:Htest.
        -- split; [intros _|reflexivity].
           exists 0%nat, p, (JS.slice_from offset text).
           split; [reflexivity|]. split.
           { unfold tested_slice. rewrite Hread. reflexivity. }
           split; [exact Htest|]. intros j q Hj Hq.
           assert (j = 0%nat) as -> by lia. simpl in Hq. injection Hq as <-. exact Hin.
        -- apply Hshift; [reflexivity|]. intros sl Hsl.
           unfold tested_slice in Hsl. rewrite Hread in Hsl.
           injection Hsl as <-. exact Htest.
      * apply Hshift; [reflexivity|]. intros sl Hsl.
        unfold tested_slice in Hsl. rewrite Hread in Hsl. discriminate.
    + split; [discriminate|]. intros (k & q & sl & _ & _ & _ & Hall).
      specialize (Hall 0%nat p ltac:(lia) eq_refl). lia.
Qed.

(** C1, as stated, fails: the first poll starts at offset 0 and so tests
    the whole file; a match that lies only in the content present before
    the probe started is reported as ready. *)
Lemma waitForLogPattern_reports_preexisting_match :
  waitForLogPattern (JS.includes "ready") 1000 200 stale_polls = Some true
  /\ ~ only_new_content_counts (JS.includes "ready").
Proof.
  split; [reflexivity|]. intros Hclaim.
  apply (Hclaim stale_log 1000 200 stale_polls); [|reflexivity].
  intros p Hp. apply list_elem_of_singleton in Hp as ->.
  exists "". split; reflexivity.
Qed.

(** C1, amended.  [waitForLogPattern] reports ready exactly when some poll
    whose loop test ran before the deadline (as did those of all earlier
    polls) reads the file and finds the regex in the slice past the length
    observed by the previous successful read.  That length starts at 0:
    the first successful read is tested whole, content from before the
    probe included; a poll that follows a read of [seen] and now reads
    [seen] with [added] behind it tests [added] alone. *)
Theorem waitForLogPattern_ready_iff_match_past_observed_length :
  forall (test : string -> bool) (t0 timeoutMs : Z) (polls : list LogPoll),
    (waitForLogPattern test t0 timeoutMs polls = Some true <->
     exists (k : nat) (p : LogPoll) (slice : string),
       polls !! k = Some p /\
       tested_slice 0 (take k polls) p = Some slice /\
       test slice = true /\
       forall (j : nat) (q : LogPoll),
         (j <= k)%nat -> polls !! j = Some q -> log_clock q < t0 + timeoutMs)
    /\
    (forall (p : LogPoll) (text : string),
        log_read p = ReadOk text -> tested_slice 0 [] p = Some text)
    /\
    (forall (before : list LogPoll) (q p : LogPoll) (seen added : string),
        log_read q = ReadOk seen ->
        log_read p = ReadOk (seen +:+ added) ->
        tested_slice 0 (before ++ [q]) p = Some added).
Proof.
  intros test t0 timeoutMs polls. split; [|split].
  - unfold waitForLogPattern. apply log_loop_true_iff.
  - intros p text Hread. unfold tested_slice. rewrite Hread. reflexivity.
  - intros before q p seen added Hq Hp. unfold tested_slice, observed.
    rewrite Hp, fold_left_app. simpl. rewrite Hq.
    f_equal. apply JSFacts.slice_from_length_app.
Qed.

End ReadinessFacts.

(** ** The process supervisor *)

Module ProcFacts.
Import Proc.

Lemma bind_Ok {A B} (m : M A) (k : A -> M B) s a s' :
  m s = (Ok a, s') -> bind m k s = k a s'.
Proof. intros H. unfold bind. rewrite H. reflexivity. Qed.

Lemma bind_Throw {A B} (m : M A) (k : A -> M B) s e s' :
  m s = (Throw e, s') -> bind m k s = (Throw e, s').
Proof. intros H. unfold bind. rewrite H. reflexivity. Qed.

Lemma try_catch_Ok {A} (m : M A) handler s a s' :
  m s = (Ok a, s') -> try_catch m handler s = (Ok a, s').
Proof. intros H. unfold try_catch. rewrite H. reflexivity. Qed.

Lemma try_catch_Throw {A} (m : M A) handler s e s' :
  m s = (Throw e, s') -> try_catch m handler s = handler e s'.
Proof. intros H. unfold try_catch. rewrite H. reflexivity. Qed.

(** Runs [m] as the head of a bind, given the equation of its run. *)
Ltac step lem := erewrite bind_Ok by (apply lem).

Section Runs.

Variable h : Host.

(** A signal inside [try { } catch { }] always comes back, whatever the
    host says. *)
Lemma processKill_caught target sig s :
  try_catch (processKill h target sig) (fun _ => ret tt) s
  = (Ok tt, logged (Kill target sig) s).
Proof.
  unfold try_catch, processKill, bind, emit, ret, logged. simpl.
  destruct (accepts h (epoch s) target); reflexivity.
Qed.

Lemma when_processKill_caught (b : bool) target sig s :
  try_catch (when b (processKill h target sig)) (fun _ => ret tt) s
  = (Ok tt, if b then logged (Kill target sig) s else s).
Proof. destruct b; [apply processKill_caught | reflexivity]. Qed.

Lemma isAlive_run pid s :
  isAlive h pid s = (Ok (accepts h (epoch s) pid), logged (Kill pid SIG0) s).
Proof.
  unfold isAlive, try_catch, processKill, bind, emit, ret, logged. simpl.
  destruct (accepts h (epoch s) pid); reflexivity.
Qed.

Lemma sleep_run ms s :
  sleep ms s = (Ok tt, {| fs := fs s; epoch := S (epoch s);
                          events := events s ++ [Sleep ms] |}).
Proof. reflexivity. Qed.

Lemma killProcessTree_unix_run pid gentle group s :
  isWin h = false ->
  killProcessTree h pid gentle group s =
  (Ok tt,
   {| fs := fs s; epoch := S (epoch s);
      events := events s ++ unixKillTrace pid gentle group |}).
Proof.
  intros Hwin. unfold killProcessTree. rewrite Hwin.
  step when_processKill_caught. step processKill_caught.
  step sleep_run. step when_processKill_caught.
  rewrite processKill_caught. unfold unixKillTrace, logged.
  destruct group; simpl; rewrite <- ?app_assoc; reflexivity.
Qed.

Lemma killProcessTree_win_run pid gentle group s :
  isWin h = true ->
  killProcessTree h pid gentle group s =
  (Ok tt,
   {| fs := fs s; epoch := S (epoch s);
      events := events s
        ++ [Taskkill (if group then ["/PID"; JS.ofZ pid; "/T"]
                      else ["/PID"; JS.ofZ pid]);
            Sleep gentle;
            Taskkill (if group then ["/PID"; JS.ofZ pid; "/T"; "/F"]
                      else ["/PID"; JS.ofZ pid; "/F"])] |}).
Proof.
  intros Hwin. unfold killProcessTree. rewrite Hwin.
  unfold bind, try_catch, taskkill, emit, sleep. simpl.
  rewrite <- !app_assoc. reflexivity.
Qed.

End Runs.

Section StartDaemon.

Variable h : Host.

Lemma pathExists_run p s :
  pathExists p s = (Ok (bool_decide (is_Some (fs s !! p))), s).
Proof. reflexivity. Qed.

Lemma rm_run p s : rm p s = (Ok tt, removed p s).
Proof. reflexivity. Qed.

(** What the stale-PID block does when the PID-file is there. *)
Lemma reclaimPidFile_present pf s content :
  fs s !! pf = Some content ->
  reclaimPidFile h pf s =
  match recordedPid content with
  | Some p =>
      if accepts h (epoch s) p
      then (Ok (Some p), logged (Kill p SIG0) s)
      else (Ok None, removed pf (logged (Kill p SIG0) s))
  | None => (Ok None, removed pf s)
  end.
Proof.
  intros Hfile. unfold reclaimPidFile.
  step pathExists_run. rewrite Hfile.
  rewrite bool_decide_true by eauto.
  erewrite bind_Ok by (unfold readFile; rewrite Hfile; reflexivity).
  unfold recordedPid.
  destruct (JS.isFinite (JS.parseInt (JS.trim content))
            && JS.gt (JS.parseInt (JS.trim content)) 1).
  - step isAlive_run.
    destruct (accepts h (epoch s) (toZ (JS.parseInt (JS.trim content)))).
    + reflexivity.
    + step rm_run. reflexivity.
  - erewrite bind_Ok by reflexivity. cbv beta iota. step rm_run. reflexivity.
Qed.

Lemma reclaimPidFile_absent pf s :
  fs s !! pf = None -> reclaimPidFile h pf s = (Ok None, s).
Proof.
  intros Hfile. unfold reclaimPidFile. step pathExists_run.
  rewrite Hfile. rewrite bool_decide_false by (intros [? [=]]).
  reflexivity.
Qed.

Lemma waitReadiness_run r s :
  _waitReadiness h r s =
  match readinessTasks r with
  | [] => (Ok true, s)
  | tasks => (Ok (forallb (probe h (epoch s)) tasks), waited s)
  end.
Proof. unfold _waitReadiness. destruct (readinessTasks r); reflexivity. Qed.

(** One pass through [startDaemon], branch by branch. *)
Lemma startDaemon_unfold fuel o s :
  pidFile o <> "" -> logFile o <> "" ->
  startDaemon h (S fuel) o s =
  match reclaimPidFile h (pidFile o) s with
  | (Ok (Some oldPid), s1) =>
      (Ok {| status := AlreadyRunning; pid := oldPid;
             alive := true; ready := Some true |}, s1)
  | (Ok None, s1) =>
      match resolveBinary h (binary o) with
      | None =>
          (Throw {| err_code := None;
                    err_message := "Binary not found: " +:+ binary o |}, s1)
      | Some binPath =>
          let child := child_pid h (epoch s1) in
          let s2 := launched h o binPath s1 in
          if accepts h (epoch s2) child then
            match readinessTasks (readiness o) with
            | [] =>
                (Ok {| status := Started; pid := child;
                       alive := true; ready := Some true |}, s2)
            | tasks =>
                if forallb (probe h (epoch s2)) tasks then
                  (Ok {| status := Started; pid := child;
                         alive := true; ready := Some true |}, waited s2)
                else
                  let s4 := logged (Kill child SIG0) (waited s2) in
                  if match restartPolicy o with
                     | OnFailure =>
                         negb (accepts h (epoch s4) child)
                         && (clock h (epoch s4) - clock h (epoch s1)
                             <? minUptimeMs o)
                     | Never => false
                     end
                  then startDaemon h fuel (withPolicy o Never) s4
                  else (Ok {| status := Started; pid := child;
                              alive := true; ready := Some false |}, s4)
            end
          else
            (Ok {| status := Failed; pid := child;
                   alive := false; ready := None |},
             removed (pidFile o) s2)
      end
  | (Throw e, s1) => (Throw e, s1)
  | (OutOfFuel, s1) => (OutOfFuel, s1)
  end.
Proof.
  intros Hpid Hlog. simpl startDaemon.
  apply String.eqb_neq in Hpid, Hlog. rewrite Hpid, Hlog.
  change (false || false) with false. cbv iota.
  unfold ensureFileDir.
  erewrite bind_Ok by reflexivity. erewrite bind_Ok by reflexivity.
  unfold bind at 1.
  destruct (reclaimPidFile h (pidFile o) s) as [[[oldPid|]|e|] s1]; try reflexivity.
  destruct (resolveBinary h (binary o)) as [binPath|]; [|reflexivity].
  do 5 (erewrite bind_Ok by reflexivity). cbn [fs epoch events].
  step isAlive_run. unfold logged at 1. cbn [fs epoch events].
  rewrite <- !app_assoc. cbn [app].
  match goal with
  | |- context [ {| fs := ?f; epoch := S (epoch s1); events := ?e |} ] =>
      change {| fs := f; epoch := S (epoch s1); events := e |}
        with (launched h o binPath s1)
  end.
  cbv zeta. change (epoch (launched h o binPath s1)) with (S (epoch s1)).
  destruct (accepts h (S (epoch s1)) (child_pid h (epoch s1))); cbn [negb]; cbv iota.
  - unfold bind at 1. rewrite waitReadiness_run.
    destruct (readinessTasks (readiness o)) as [|t ts]; [reflexivity|].
    change (epoch (launched h o binPath s1)) with (S (epoch s1)).
    destruct (forallb (probe h (S (epoch s1))) (t :: ts));
      cbn [negb]; cbv iota; [reflexivity|].
    step isAlive_run. erewrite bind_Ok by reflexivity.
    destruct (restartPolicy o); [reflexivity|].
    unfold logged, waited, launched. cbn [fs epoch events].
    match goal with
    | |- (if ?c then _ else _) _ = _ => destruct c; reflexivity
    end.
  - step rm_run. reflexivity.
Qed.

Lemma recordedPid_spec content p :
  recordedPid content = Some p <->
  JS.parseInt (JS.trim content) = JS.Fin p /\ 1 < p.
Proof.
  unfold recordedPid. destruct (JS.parseInt (JS.trim content)) as [|z|b]; simpl.
  - split; [discriminate | intros [[=] _]].
  - destruct (Z.ltb_spec 1 z); split.
    + intros [= <-]. auto.
    + intros [[= <-] _]. reflexivity.
    + discriminate.
    + intros [[= <-] ?]. lia.
  - split; [discriminate | intros [[=] _]].
Qed.

Lemma recordedPid_None content :
  recordedPid content = None <->
  forall p, JS.parseInt (JS.trim content) = JS.Fin p -> p <= 1.
Proof.
  split.
  - intros Hn p Hp. destruct (Z.leb_spec p 1) as [|Hgt]; [assumption|].
    assert (recordedPid content = Some p) as Hs
        by (apply recordedPid_spec; split; assumption).
    congruence.
  - intros Hall. destruct (recordedPid content) as [p|] eqn:E; [|reflexivity].
    apply recordedPid_spec in E as [Hp Hgt]. specialize (Hall p Hp). lia.
Qed.

(** The stale-PID block never throws; it adds no spawn and takes no
    time, and it either finds a live recorded PID or leaves no file. *)
Lemma reclaimPidFile_cases pf s :
  exists running s1 tail,
    reclaimPidFile h pf s = (Ok running, s1)
    /\ events s1 = events s ++ tail
    /\ spawnCount tail = 0%nat
    /\ epoch s1 = epoch s
    /\ match running with
       | Some p =>
           fs s1 = fs s
           /\ exists content, fs s !! pf = Some content
                              /\ recordedPid content = Some p
                              /\ accepts h (epoch s) p = true
       | None => fs s1 = delete pf (fs s)
       end.
Proof.
  destruct (fs s !! pf) as [content|] eqn:Hfile.
  - rewrite (reclaimPidFile_present pf s content Hfile).
    destruct (recordedPid content) as [p|] eqn:Hrec.
    + destruct (accepts h (epoch s) p) eqn:Hlive.
      * exists (Some p), (logged (Kill p SIG0) s), [Kill p SIG0].
        repeat split; eauto.
      * exists None, (removed pf (logged (Kill p SIG0) s)), [Kill p SIG0; Remove pf].
        repeat split; simpl; rewrite <- ?app_assoc; reflexivity.
    + exists None, (removed pf s), [Remove pf]. repeat split; reflexivity.
  - rewrite (reclaimPidFile_absent pf s Hfile).
    exists None, s, []. rewrite app_nil_r.
    repeat split; try reflexivity. symmetry. apply delete_id. exact Hfile.
Qed.

Lemma startDaemon_guard fuel o s :
  pidFile o = "" \/ logFile o = "" ->
  startDaemon h (S fuel) o s =
  (Throw {| err_code := None;
            err_message := "startDaemon requires pidFile and logFile" |}, s).
Proof.
  intros Hempty. simpl startDaemon.
  assert (String.eqb (pidFile o) "" || String.eqb (logFile o) "" = true) as ->.
  { apply orb_true_iff. destruct Hempty as [->| ->]; auto. }
  reflexivity.
Qed.

Lemma names_dec o :
  (pidFile o = "" \/ logFile o = "") \/ (pidFile o <> "" /\ logFile o <> "").
Proof.
  destruct (String.eqb_spec (pidFile o) ""); [auto|].
  destruct (String.eqb_spec (logFile o) ""); auto.
Qed.

Lemma spawnCount_app a b : spawnCount (a ++ b) = (spawnCount a + spawnCount b)%nat.
Proof. unfold spawnCount. rewrite List.filter_app, length_app. reflexivity. Qed.

Lemma launched_events o binPath s1 :
  events (launched h o binPath s1) =
  events s1 ++ [OpenAppend (logFile o);
                Spawn binPath (args o) (cwd o) (child_pid h (epoch s1));
                Write (pidFile o) (JS.ofZ (child_pid h (epoch s1)) +:+ String "010" "");
                Sleep STARTUP_HEALTHCHECK_DELAY_MS;
                Kill (child_pid h (epoch s1)) SIG0].
Proof. reflexivity. Qed.

(** The PID-file [startDaemon] leaves behind before a retry names the
    child it just found dead. *)
Lemma recordedPid_written (z : Z) :
  Z.abs z < 2 ^ 53 ->
  recordedPid (JS.ofZ z +:+ String "010" "") = if 1 <? z then Some z else None.
Proof.
  intros Hz. unfold recordedPid.
  rewrite (JSFacts.parseInt_ofZ_newline z Hz). reflexivity.
Qed.

(** One call, given what its inner call (if any) does: the call ends,
    what it did extends the event log, and it spawns at most once more
    than the inner call. *)
Lemma startDaemon_attempt fuel o s (bound : nat) :
  (restartPolicy o = OnFailure ->
   forall s4, exists outcome s' tail,
       startDaemon h fuel (withPolicy o Never) s4 = (outcome, s')
       /\ explained h (withPolicy o Never) s4 outcome
       /\ events s' = events s4 ++ tail
       /\ (spawnCount tail <= bound)%nat) ->
  exists outcome s' tail,
    startDaemon h (S fuel) o s = (outcome, s')
    /\ outcome <> OutOfFuel
    /\ events s' = events s ++ tail
    /\ (spawnCount tail <= 1 + bound)%nat
    /\ (safePids h \/ restartPolicy o = Never -> explained h o s outcome).
Proof.
  intros Hrec. destruct (names_dec o) as [Hempty|[Hpid Hlog]].
  { rewrite (startDaemon_guard fuel o s Hempty).
    eexists _, s, []. rewrite app_nil_r.
    split; [reflexivity|]. split; [discriminate|]. split; [reflexivity|].
    split; [unfold spawnCount; simpl; lia|]. intros _. simpl. tauto. }
  rewrite (startDaemon_unfold fuel o s Hpid Hlog).
  destruct (reclaimPidFile_cases (pidFile o) s)
    as (running & s1 & tail0 & Hrun & Hev & Hsp & Hep & Hfs).
  rewrite Hrun. destruct running as [oldPid|].
  { eexists _, s1, tail0.
    split; [reflexivity|]. split; [discriminate|]. split; [exact Hev|].
    split; [rewrite Hsp; lia|]. intros _. simpl. destruct Hfs as [_ (c & Hc & Hr & Hl)]. eauto. }
  destruct (resolveBinary h (binary o)) as [binPath|] eqn:Hbin.
  2:{ eexists _, s1, tail0.
      split; [reflexivity|]. split; [discriminate|]. split; [exact Hev|].
      split; [rewrite Hsp; lia|]. intros _. simpl. tauto. }
  cbv zeta. change (epoch (launched h o binPath s1)) with (S (epoch s1)).
  pose proof (launched_events o binPath s1) as Hlaunch.
  rewrite Hev, <- app_assoc in Hlaunch.
  assert (forall extra, spawnCount
            (tail0 ++ [OpenAppend (logFile o);
                       Spawn binPath (args o) (cwd o) (child_pid h (epoch s1));
                       Write (pidFile o)
                         (JS.ofZ (child_pid h (epoch s1)) +:+ String "010" "");
                       Sleep STARTUP_HEALTHCHECK_DELAY_MS;
                       Kill (child_pid h (epoch s1)) SIG0] ++ extra)
          = S (spawnCount extra)) as Hcount.
  { intros extra. rewrite !spawnCount_app, Hsp. reflexivity. }
  destruct (accepts h (S (epoch s1)) (child_pid h (epoch s1))) eqn:Halive.
  2:{ eexists _, _, _. split; [reflexivity|]. split; [discriminate|].
      split; [|split].
      - unfold removed; cbn [events]. rewrite Hlaunch, <- !app_assoc. reflexivity.
      - rewrite Hcount. unfold spawnCount. simpl. lia.
      - intros _. simpl. exists (epoch s1). split; [lia | exact Halive]. }
  destruct (readinessTasks (readiness o)) as [|t ts].
  { eexists _, _, _. split; [reflexivity|]. split; [discriminate|].
    split; [|split].
    - rewrite Hlaunch. rewrite <- (app_nil_r [_; _; _; _; _]) at 1. reflexivity.
    - rewrite Hcount. unfold spawnCount. simpl. lia.
    - intros _. exact I. }
  destruct (forallb (probe h (S (epoch s1))) (t :: ts)).
  { eexists _, _, _. split; [reflexivity|]. split; [discriminate|].
    split; [|split].
    - unfold waited; cbn [events]. rewrite Hlaunch.
      rewrite <- (app_nil_r [_; _; _; _; _]) at 1. reflexivity.
    - rewrite Hcount. unfold spawnCount. simpl. lia.
    - intros _. exact I. }
  set (s4 := logged (Kill (child_pid h (epoch s1)) SIG0)
               (waited (launched h o binPath s1))).
  assert (events s4 = events s ++ tail0
            ++ [OpenAppend (logFile o);
                Spawn binPath (args o) (cwd o) (child_pid h (epoch s1));
                Write (pidFile o)
                  (JS.ofZ (child_pid h (epoch s1)) +:+ String "010" "");
                Sleep STARTUP_HEALTHCHECK_DELAY_MS;
                Kill (child_pid h (epoch s1)) SIG0]
            ++ [Kill (child_pid h (epoch s1)) SIG0]) as Hev4.
  { subst s4. unfold logged, waited; cbn [events]. rewrite Hlaunch, <- !app_assoc. reflexivity. }
  destruct (restartPolicy o) eqn:Hpolicy.
  { eexists _, _, _. split; [reflexivity|]. split; [discriminate|].
    split; [exact Hev4|]. split.
    - rewrite Hcount. unfold spawnCount. simpl. lia.
    - intros _. exact I. }
  destruct (negb (accepts h (epoch s4) (child_pid h (epoch s1)))
            && (clock h (epoch s4) - clock h (epoch s1) <? minUptimeMs o))
    eqn:Hretry.
  2:{ eexists _, _, _. split; [reflexivity|]. split; [discriminate|].
      split; [exact Hev4|]. split.
      - rewrite Hcount. unfold spawnCount. simpl. lia.
      - intros _. exact I. }
  destruct (Hrec eq_refl s4) as (outcome & s' & tail & Hinner & Hexp & Hev' & Hn).
  exists outcome, s', (tail0
            ++ [OpenAppend (logFile o);
                Spawn binPath (args o) (cwd o) (child_pid h (epoch s1));
                Write (pidFile o)
                  (JS.ofZ (child_pid h (epoch s1)) +:+ String "010" "");
                Sleep STARTUP_HEALTHCHECK_DELAY_MS;
                Kill (child_pid h (epoch s1)) SIG0]
            ++ ([Kill (child_pid h (epoch s1)) SIG0] ++ tail)).
  split; [exact Hinner|]. split.
  { intros ->. exact Hexp. }
  split.
  { rewrite Hev', Hev4, <- !app_assoc. reflexivity. }
  split.
  { rewrite Hcount, spawnCount_app. unfold spawnCount at 1. simpl. lia. }
  intros [Hsafe|Hnever]; [|discriminate].
  destruct outcome as [r| |]; [|exact Hexp|exact Hexp].
  unfold explained in Hexp |- *. destruct (status r).
  - exact I.
  - exfalso. destruct Hexp as (content & Hc & Hr & Hl).
    assert (fs s4 !! pidFile o
            = Some (JS.ofZ (child_pid h (epoch s1)) +:+ String "010" "")) as Hfile
        by (subst s4; simpl; apply lookup_insert_eq).
    change (pidFile (withPolicy o Never)) with (pidFile o) in Hc.
    rewrite Hfile in Hc. injection Hc as <-.
    rewrite recordedPid_written in Hr by apply Hsafe.
    destruct (1 <? child_pid h (epoch s1)); [|discriminate].
    injection Hr as Hr. rewrite <- Hr in Hl.
    apply andb_true_iff in Hretry as [Hdead _].
    rewrite Hl in Hdead. discriminate.
  - destruct Hexp as (e & He & Hdead). exists e. split; [|exact Hdead].
    subst s4. simpl in He. lia.
Qed.

(** With the policy [never] a call makes one attempt. *)
Lemma startDaemon_never_run fuel o s :
  restartPolicy o = Never ->
  exists outcome s' tail,
    startDaemon h (S fuel) o s = (outcome, s')
    /\ explained h o s outcome
    /\ events s' = events s ++ tail
    /\ (spawnCount tail <= 1)%nat.
Proof.
  intros Hnever.
  destruct (startDaemon_attempt fuel o s 0) as (outcome & s' & tail & H1 & _ & H3 & H4 & H5).
  { rewrite Hnever. discriminate. }
  exists outcome, s', tail. auto.
Qed.

(** Any call, given fuel for one retry. *)
Lemma startDaemon_run fuel o s :
  exists outcome s' tail,
    startDaemon h (S (S fuel)) o s = (outcome, s')
    /\ outcome <> OutOfFuel
    /\ events s' = events s ++ tail
    /\ (spawnCount tail <= 2)%nat
    /\ (safePids h -> explained h o s outcome).
Proof.
  destruct (startDaemon_attempt (S fuel) o s 1) as (outcome & s' & tail & H1 & H2 & H3 & H4 & H5).
  { intros _ s4. apply startDaemon_never_run. reflexivity. }
  exists outcome, s', tail.
  split; [exact H1|]. split; [exact H2|]. split; [exact H3|].
  split; [exact H4|]. intros Hsafe. apply H5. left. exact Hsafe.
Qed.

(** Once launched, a call runs to its end and only adds events. *)
Lemma startDaemon_after_launch fuel o s s1 binPath :
  pidFile o <> "" -> logFile o <> "" ->
  reclaimPidFile h (pidFile o) s = (Ok None, s1) ->
  resolveBinary h (binary o) = Some binPath ->
  exists outcome s' tail,
    startDaemon h (S (S fuel)) o s = (outcome, s')
    /\ outcome <> OutOfFuel
    /\ events s' = events (launched h o binPath s1) ++ tail.
Proof.
  intros Hpid Hlog Hrun Hbin.
  rewrite (startDaemon_unfold (S fuel) o s Hpid Hlog), Hrun, Hbin. cbv zeta.
  destruct (accepts h _ _).
  2:{ eexists _, _, [_]. split; [reflexivity|]. split; [discriminate|reflexivity]. }
  destruct (readinessTasks (readiness o)) as [|t ts].
  { eexists _, _, []. rewrite app_nil_r.
    split; [reflexivity|]. split; [discriminate|reflexivity]. }
  destruct (forallb _ _).
  { eexists _, _, []. rewrite app_nil_r.
    split; [reflexivity|]. split; [discriminate|reflexivity]. }
  match goal with |- context [if ?c then _ else _] => destruct c end.
  2:{ eexists _, _, [_]. split; [reflexivity|]. split; [discriminate|reflexivity]. }
  match goal with
  | |- context [startDaemon h (S fuel) ?o' ?s4] =>
      destruct (startDaemon_never_run fuel o' s4 eq_refl)
        as (outcome & s' & tail & Hinner & Hexp & Hev & _)
  end.
  eexists outcome, s', (_ :: tail). split; [exact Hinner|]. split.
  - intros ->. exact Hexp.
  - rewrite Hev. unfold logged, waited; cbn [events].
    rewrite <- app_assoc. reflexivity.
Qed.

(** *** [stopByPidFile] *)

Lemma killProcessTree_run pid0 gentle group s :
  exists tail,
    killProcessTree h pid0 gentle group s =
    (Ok tt, {| fs := fs s; epoch := S (epoch s); events := events s ++ tail |}).
Proof.
  destruct (isWin h) eqn:Hwin; eexists.
  - apply killProcessTree_win_run. exact Hwin.
  - apply killProcessTree_unix_run. exact Hwin.
Qed.

Lemma stopByPidFile_absent pf opts s :
  fs s !! pf = None ->
  stopByPidFile h pf opts s =
  (Ok {| stopped := false; stop_pid := None;
         reason := Some "no-pidfile"; error := None |}, s).
Proof.
  intros Hfile. unfold stopByPidFile.
  erewrite try_catch_Throw
    by (apply bind_Throw; unfold readFile; rewrite Hfile; reflexivity).
  reflexivity.
Qed.

Lemma stopByPidFile_invalid pf opts s content :
  fs s !! pf = Some content ->
  recordedPid content = None ->
  stopByPidFile h pf opts s =
  (Ok {| stopped := false; stop_pid := None; reason := None;
         error := Some ("invalid pid in " +:+ pf) |}, s).
Proof.
  intros Hfile Hrec. unfold stopByPidFile.
  assert (negb (JS.isFinite (JS.parseInt (JS.trim content)))
          || JS.le (JS.parseInt (JS.trim content)) 1 = true) as Hbad.
  { unfold recordedPid in Hrec.
    destruct (JS.parseInt (JS.trim content)) as [|z|b]; try reflexivity.
    simpl in Hrec |- *. destruct (Z.ltb_spec 1 z); [discriminate|].
    apply Z.leb_le; lia. }
  erewrite try_catch_Throw
    by (erewrite bind_Ok by (unfold readFile; rewrite Hfile; reflexivity);
        rewrite Hbad; reflexivity).
  reflexivity.
Qed.

Lemma stopByPidFile_valid pf opts s content p :
  fs s !! pf = Some content ->
  recordedPid content = Some p ->
  exists tail,
    stopByPidFile h pf opts s =
    (Ok {| stopped := true; stop_pid := Some p; reason := None; error := None |},
     removed pf {| fs := fs s; epoch := S (epoch s); events := events s ++ tail |}).
Proof.
  intros Hfile Hrec. apply recordedPid_spec in Hrec as [Hparse Hgt].
  unfold stopByPidFile.
  destruct (killProcessTree_run p
              (default (KILL_GENTLE_MS_DEFAULT h) (gentleMs opts))
              (negb (isWin h) && default true (killGroup opts)) s) as [tail Hkill].
  exists tail. apply try_catch_Ok.
  erewrite bind_Ok by (unfold readFile; rewrite Hfile; reflexivity).
  rewrite Hparse.
  assert (negb (JS.isFinite (JS.Fin p)) || JS.le (JS.Fin p) 1 = false) as ->
      by (simpl; apply Z.leb_gt; lia).
  change (toZ (JS.Fin p)) with p.
  erewrite bind_Ok by (exact Hkill). step rm_run. reflexivity.
Qed.

End StartDaemon.

(** C6.  On a Unix-like host [killProcessTree] always returns normally,
    whatever processes exist and whichever signals the host refuses, and
    what it does is exactly: SIGTERM to the group [-pid] (when [killGroup])
    and then to [pid], a sleep of [gentleMs], SIGKILL to the group [-pid]
    (when [killGroup]) and then to [pid]. *)
Theorem killProcessTree_two_phase_never_throws :
  forall (h : Host) (pid gentleMs : Z) (killGroup : bool) (s : State),
    isWin h = false ->
    exists s',
      killProcessTree h pid gentleMs killGroup s = (Ok tt, s') /\
      events s' =
        events s
        ++ (if killGroup then [Kill (- pid) SIGTERM] else [])
        ++ [Kill pid SIGTERM; Sleep gentleMs]
        ++ (if killGroup then [Kill (- pid) SIGKILL] else [])
        ++ [Kill pid SIGKILL].
Proof.
  intros h pid gentleMs killGroup s Hwin. eexists. split.
  - apply killProcessTree_unix_run. exact Hwin.
  - reflexivity.
Qed.

(** C10.  When the PID-file's content does not stand for a finite integer
    above 1 (empty, not a number, zero, one, negative, or too large to be
    finite), [stopByPidFile] returns [stopped: false] with an error
    message and leaves the state as it was: no event at all is added, so
    no signal goes to any process or group, PID 0 and PID 1 included. *)
Theorem stopByPidFile_invalid_pid_sends_no_signal :
  forall (h : Host) (pf : string) (opts : StopOptions) (s : State)
         (content : string),
    fs s !! pf = Some content ->
    (forall p, JS.parseInt (JS.trim content) = JS.Fin p -> p <= 1) ->
    exists msg s',
      stopByPidFile h pf opts s =
        (Ok {| stopped := false; stop_pid := None;
               reason := None; error := Some msg |}, s')
      /\ events s' = events s
      /\ fs s' = fs s.
Proof.
  intros h pf opts s content Hfile Hbad.
  exists ("invalid pid in " +:+ pf), s. split; [|split; reflexivity].
  apply (stopByPidFile_invalid h pf opts s content Hfile).
  apply recordedPid_None. exact Hbad.
Qed.

(** C8.  Whenever a [startDaemon] call gets to spawn (no live daemon is
    recorded and the binary resolves) and the child does not answer after
    the start-up sleep, the call returns [failed] with [alive: false], the
    PID-file it has just written is removed again, and nothing else
    happens after that removal. *)
Theorem startDaemon_dead_child_removes_pid_file :
  forall (h : Host) (fuel : nat) (o : StartDaemonOptions) (s s1 : State)
         (binPath : string),
    pidFile o <> "" -> logFile o <> "" ->
    reclaimPidFile h (pidFile o) s = (Ok None, s1) ->
    resolveBinary h (binary o) = Some binPath ->
    accepts h (S (epoch s1)) (child_pid h (epoch s1)) = false ->
    exists s',
      startDaemon h (S fuel) o s =
        (Ok {| status := Failed; pid := child_pid h (epoch s1);
               alive := false; ready := None |}, s')
      /\ fs s' !! pidFile o = None
      /\ events s' =
           events s1
           ++ [OpenAppend (logFile o);
               Spawn binPath (args o) (cwd o) (child_pid h (epoch s1));
               Write (pidFile o)
                 (JS.ofZ (child_pid h (epoch s1)) +:+ String "010" "");
               Sleep STARTUP_HEALTHCHECK_DELAY_MS;
               Kill (child_pid h (epoch s1)) SIG0;
               Remove (pidFile o)].
Proof.
  intros h fuel o s s1 binPath Hpid Hlog Hrun Hbin Hdead.
  rewrite (startDaemon_unfold h fuel o s Hpid Hlog), Hrun, Hbin. cbv zeta.
  change (epoch (launched h o binPath s1)) with (S (epoch s1)). rewrite Hdead.
  eexists. split; [reflexivity|]. split.
  - simpl. apply lookup_delete_eq.
  - simpl. rewrite <- app_assoc. reflexivity.
Qed.



(** C7, amended.  When [stopByPidFile] finds a PID above 1 in the file, it
    returns [stopped: true] with that PID and the PID-file is gone; a
    [startDaemon] on that PID-file started in the state it leaves never
    returns [already-running]: whenever it returns, it reports
    [started], or [failed] for a child that the host no longer knew at
    its start-up check.  When the PID-file does not exist,
    [stopByPidFile] returns [stopped: false] with the reason [no-pidfile]
    and does nothing: no event is added. *)
Theorem stopByPidFile_removes_pid_file :
  forall (h : Host) (pf : string) (opts : StopOptions) (s : State),
    safePids h ->
    (forall content p,
        fs s !! pf = Some content ->
        JS.parseInt (JS.trim content) = JS.Fin p -> 1 < p ->
        exists s',
          stopByPidFile h pf opts s =
            (Ok {| stopped := true; stop_pid := Some p;
                   reason := None; error := None |}, s')
          /\ fs s' !! pf = None
          /\ forall (fuel : nat) (o : StartDaemonOptions)
                    (r : StartResult) (s'' : State),
              pidFile o = pf ->
              startDaemon h (S (S fuel)) o s' = (Ok r, s'') ->
              status r = Started
              \/ (status r = Failed
                  /\ exists e, (epoch s' <= e)%nat
                               /\ accepts h (S e) (child_pid h e) = false))
    /\
    (fs s !! pf = None ->
     stopByPidFile h pf opts s =
       (Ok {| stopped := false; stop_pid := None;
              reason := Some "no-pidfile"; error := None |}, s)).
Proof.
  intros h pf opts s Hsafe. split; [|apply stopByPidFile_absent].
  intros content p Hfile Hparse Hgt.
  assert (recordedPid content = Some p) as Hrec
      by (apply recordedPid_spec; split; assumption).
  destruct (stopByPidFile_valid h pf opts s content p Hfile Hrec) as [tail Hstop].
  eexists. split; [exact Hstop|].
  assert (forall st, fs (removed pf st) !! pf = None) as Hgone
      by (intros st; simpl; apply lookup_delete_eq).
  split; [apply Hgone|].
  intros fuel o r s'' Ho Hstart.
  match type of Hstart with startDaemon h _ o ?st = _ => set (s' := st) in * end.
  destruct (startDaemon_run h fuel o s')
    as (outcome & s1 & tail' & Hrun & _ & _ & _ & Hexp).
  specialize (Hexp Hsafe).
  assert (fs s' !! pf = None) as Hgone' by apply Hgone.
  clearbody s'. rewrite Hstart in Hrun. injection Hrun as <- <-.
  unfold explained in Hexp. destruct (status r).
  - left. reflexivity.
  - destruct Hexp as (c & Hc & _). rewrite Ho, Hgone' in Hc. discriminate.
  - right. split; [reflexivity | exact Hexp].
Qed.

End ProcFacts.

(** ** The path resolvers *)

Module ResolverFacts.
Import Resolver.

Section OnHost.

Variable h : Host.

Lemma truthy_Some (v : string) : JS.truthy (Some v) = true <-> v <> "".
Proof.
  simpl. rewrite negb_true_iff. destruct (String.eqb_spec v ""); split; congruence.
Qed.

Lemma truthy_Some_false (v : string) : JS.truthy (Some v) = false <-> v = "".
Proof.
  simpl. rewrite negb_false_iff. destruct (String.eqb_spec v ""); split; congruence.
Qed.

Lemma existsSync_spec st p : existsSync st p = true <-> p ∈ disk st.
Proof. unfold existsSync. apply bool_decide_eq_true. Qed.

Lemma mkdirSync_grows p st q : q ∈ disk st -> q ∈ disk (mkdirSync h p st).
Proof. simpl. set_solver. Qed.

Lemma mkdirSync_exists p st : p ∈ disk (mkdirSync h p st).
Proof. simpl. set_solver. Qed.

Lemma ensureExists_grows p st q : q ∈ disk st -> q ∈ disk (ensureExists h p st).
Proof.
  unfold ensureExists. destruct (existsSync st p); [auto | apply mkdirSync_grows].
Qed.

Lemma ensureExists_exists p st : existsSync (ensureExists h p st) p = true.
Proof.
  unfold ensureExists. destruct (existsSync st p) eqn:E; [exact E|].
  apply existsSync_spec, mkdirSync_exists.
Qed.

(** Making directories touches neither the flag nor stderr. *)
Lemma ensureExists_quiet p st :
  pathMisconfigurationWarned (ensureExists h p st) = pathMisconfigurationWarned st
  /\ stderr (ensureExists h p st) = stderr st.
Proof. unfold ensureExists. destruct (existsSync st p); split; reflexivity. Qed.

Lemma createWorkspace_exists dir st : existsSync (createWorkspace h dir st) dir = true.
Proof.
  unfold createWorkspace. destruct (existsSync st dir) eqn:E; [exact E|].
  apply existsSync_spec. cbn [fold_left]. repeat apply ensureExists_grows.
  apply mkdirSync_exists.
Qed.

Lemma createWorkspace_quiet dir st :
  pathMisconfigurationWarned (createWorkspace h dir st) = pathMisconfigurationWarned st
  /\ stderr (createWorkspace h dir st) = stderr st.
Proof.
  unfold createWorkspace. destruct (existsSync st dir); [split; reflexivity|].
  cbn [fold_left]. repeat match goal with
                | |- context [ensureExists h ?p ?s] =>
                    destruct (ensureExists_quiet p s) as [-> ->]
                end.
  split; reflexivity.
Qed.

(** What one call does to the flag and to stderr: nothing, or, with the
    flag still down and a doubled path outside the CI layouts, one
    warning and the flag goes up. *)
Lemma resolveWorkspaceDir_warning startDir st dir st' :
  resolveWorkspaceDir h startDir st = Some (dir, st') ->
  (pathMisconfigurationWarned st' = pathMisconfigurationWarned st
   /\ stderr st' = stderr st)
  \/ (pathMisconfigurationWarned st = false
      /\ isGitHubAsdRepo dir = false
      /\ hasDoubledAsd dir = true
      /\ pathMisconfigurationWarned st' = true
      /\ stderr st' = stderr st ++ [misconfigurationWarning dir]).
Proof.
  unfold resolveWorkspaceDir.
  destruct (JS.truthy _ && JS.truthy _).
  - intros [= <- <-]. left. apply ensureExists_quiet.
  - destruct (resolveProjectRoot h st startDir) as [projectRoot|]; [|discriminate].
    destruct (resolveAsdDir h st startDir) as [asdDir|]; [|discriminate].
    cbn [mbind option_bind]. intros [= <- <-].
    match goal with
    | |- context [createWorkspace h ?d (safeguard ?d st)] => set (dir := d)
    end.
    destruct (createWorkspace_quiet dir (safeguard dir st)) as [-> ->].
    unfold safeguard.
    destruct (isGitHubAsdRepo dir); cbn [negb andb];
      [left; split; reflexivity|].
    destruct (pathMisconfigurationWarned st) eqn:Hflag; cbn [negb andb];
      [left; split; [exact Hflag | reflexivity]|].
    destruct (hasDoubledAsd dir);
      [|left; split; [exact Hflag | reflexivity]].
    right. repeat split; reflexivity.
Qed.

Lemma runCall_warnedOnce st c : warnedOnce st -> warnedOnce (runCall h st c).
Proof.
  intros Hinv. unfold runCall.
  destruct (resolveWorkspaceDir h (call_startDir c) (enter c st))
    as [[dir st']|] eqn:Hcall; [|exact Hinv].
  apply resolveWorkspaceDir_warning in Hcall
    as [[Hflag Herr]|(Hflag & _ & _ & Hflag' & Herr)];
    unfold warnedOnce in *; rewrite ?Herr, ?Hflag', ?Hflag; simpl in *.
  - exact Hinv.
  - destruct Hinv as [->|[Hup _]]; [right; auto | congruence].
Qed.

Lemma runCalls_warnedOnce calls :
  forall st, warnedOnce st -> warnedOnce (runCalls h calls st).
Proof.
  induction calls as [|c calls IH]; intros st Hinv; [exact Hinv|].
  simpl. apply IH, runCall_warnedOnce, Hinv.
Qed.

(** *** Absolute results *)

Hypothesis lawful : Path.Lawful (ops h).

Lemma join_abs first rest :
  isAbsolute h first = true -> isAbsolute h (join h (first :: rest)) = true.
Proof. apply (Path.join_absolute _ lawful). Qed.

Lemma dirname_abs p : isAbsolute h p = true -> isAbsolute h (dirname h p) = true.
Proof. apply (Path.dirname_absolute _ lawful). Qed.

Lemma standalone_absolute st dir r :
  isAbsolute h dir = true ->
  standalone h st dir = Some (Some r) -> isAbsolute h r = true.
Proof.
  intros Habs. unfold standalone.
  destruct (endsWithAsd dir && looksLikeCli h st dir); [|discriminate].
  destruct (isRealParent h st (dirname h dir) dir) as [[]|];
    cbn [mbind option_bind]; intros [= <-]; auto using dirname_abs.
Qed.

Lemma walkUp_absolute fuel st startDir :
  isAbsolute h startDir = true ->
  forall dir, isAbsolute h dir = true ->
              isAbsolute h (walkUp h fuel st startDir dir) = true.
Proof.
  intros Hstart. induction fuel as [|fuel IH]; intros dir Hdir; [exact Hstart|].
  cbn [walkUp]. destruct (standalone h st dir) as [[r|]|] eqn:Hs.
  - eapply standalone_absolute; eassumption.
  - destruct (existsSync st _); [exact Hdir|].
    destruct (String.eqb _ dir); [exact Hstart|]. apply IH, dirname_abs, Hdir.
  - destruct (existsSync st _); [exact Hdir|].
    destruct (String.eqb _ dir); [exact Hstart|]. apply IH, dirname_abs, Hdir.
Qed.

Lemma resolveProjectRoot_absolute st startDir :
  isAbsolute h startDir = true ->
  (forall v, getenv st "PROJECT_DIR" = Some v -> v <> "" -> isAbsolute h v = true) ->
  whenSome (resolveProjectRoot h st startDir) (fun root => isAbsolute h root = true).
Proof.
  intros Hstart Henv. unfold resolveProjectRoot.
  pose proof (walkUp_absolute 50 st startDir Hstart startDir Hstart) as Hwalk.
  destruct (getenv st "PROJECT_DIR") as [envRoot|] eqn:Hvar; [|exact Hwalk].
  destruct (JS.truthy (Some envRoot)) eqn:Ht; cbn [andb]; [|exact Hwalk].
  assert (isAbsolute h envRoot = true) as Habs
      by (apply Henv; [reflexivity | apply truthy_Some, Ht]).
  destruct (existsSync st envRoot); [|exact Hwalk].
  destruct (standalone h st envRoot) as [[r|]|] eqn:Hs;
    cbn [mbind option_bind default whenSome].
  - eapply standalone_absolute; eassumption.
  - exact Habs.
  - exact I.
Qed.


(** What [v && v.trim()] being truthy says about [v]. *)
Lemma nonblank_spec (v : option string) :
  JS.truthy v && JS.truthy (Some (JS.trim (default "" v))) = true <->
  exists x, v = Some x /\ JS.trim x <> "".
Proof.
  destruct v as [x|]; cbn [default].
  - rewrite andb_true_iff, (truthy_Some (JS.trim x)). split.
    + intros [_ Ht]. eauto.
    + intros (y & [= <-] & Ht). split; [|exact Ht].
      apply truthy_Some. intros ->. apply Ht. reflexivity.
  - cbn [JS.truthy andb]. split; [discriminate|]. intros (x & [=] & _).
Qed.

Lemma blank_spec (v : option string) :
  JS.truthy v && JS.truthy (Some (JS.trim (default "" v))) = false <-> blank v.
Proof.
  rewrite <- not_true_iff_false, nonblank_spec. unfold blank.
  destruct v as [x|]; split; try tauto.
  - intros Hn. destruct (String.eqb_spec (JS.trim x) ""); [assumption|].
    exfalso. apply Hn. eauto.
  - intros Hb (y & [= <-] & Hy). contradiction.
  - intros _ (y & [=] & _).
Qed.

Lemma resolveWorkspaceDir_spec startDir st :
  whenSome (resolveWorkspaceDir h startDir st)
    (fun r => existsSync (snd r) (fst r) = true
              /\ (isAbsolute h startDir = true -> absoluteOverrides h st ->
                  isAbsolute h (fst r) = true)).
Proof.
  unfold resolveWorkspaceDir.
  set (sb := JS.or_else (getenv st "SANDBOX_DIR") (getenv st "EXECUTION_DIR")).
  set (env := JS.or_else (getenv st "ASD_WORKSPACE_DIR") (getenv st "WORKSPACE_DIR")).
  destruct (JS.truthy sb && JS.truthy (Some (JS.trim (default "" sb)))) eqn:Hsb.
  { cbn [whenSome fst snd]. split; [apply ensureExists_exists|].
    intros _ [Hover _]. apply nonblank_spec in Hsb as (v & Hv & Ht).
    rewrite Hv. cbn [default]. apply join_abs, (Hover v Hv Ht). }
  pose proof (resolveProjectRoot_absolute st startDir) as Hroot.
  destruct (resolveProjectRoot h st startDir) as [projectRoot|]; [|exact I].
  destruct (resolveAsdDir h st startDir) as [asdDir|]; [|exact I].
  cbn [mbind option_bind whenSome fst snd] in Hroot |- *.
  split; [apply createWorkspace_exists|].
  intros Hstart [_ Hpd]. specialize (Hroot Hstart Hpd).
  destruct (JS.truthy env && JS.truthy (Some (JS.trim (default "" env)))).
  - destruct (isAbsolute h (JS.trim (default "" env))) eqn:Habs; cbn [negb];
      [exact Habs|].
    apply join_abs, Hroot.
  - destruct (existsSync st (join h [projectRoot; ".asd"])
              && existsSync st (join h [join h [projectRoot; ".asd"]; "modules"])).
    + apply join_abs, join_abs, Hroot.
    + destruct (String.eqb_spec asdDir projectRoot) as [->|_]; cbn [negb andb].
      * apply join_abs, Hroot.
      * destruct (String.eqb_spec asdDir (join h [projectRoot; ".asd"])) as [->|_];
          cbn [negb]; repeat apply join_abs; exact Hroot.
Qed.

(** *** The resolvers return *)

Lemma standalone_total st dir :
  realpathTotal h st -> existsSync st dir = true ->
  is_Some (standalone h st dir).
Proof.
  intros Hreal Hdir. unfold standalone.
  destruct (endsWithAsd dir && looksLikeCli h st dir); [|eauto].
  unfold isRealParent.
  destruct (existsSync st (dirname h dir)); [|cbn; eauto].
  destruct (existsSync st (join h [dirname h dir; "asd.yaml"])); [cbn; eauto|].
  destruct (existsSync st (join h [dirname h dir; ".asd"])) eqn:Hparent; [|cbn; eauto].
  destruct (Hreal _ (proj1 (existsSync_spec _ _) Hparent)) as [a ->].
  destruct (Hreal _ (proj1 (existsSync_spec _ _) Hdir)) as [b ->].
  cbn. eauto.
Qed.

Lemma resolveProjectRoot_total st startDir :
  realpathTotal h st -> is_Some (resolveProjectRoot h st startDir).
Proof.
  intros Hreal. unfold resolveProjectRoot.
  destruct (getenv st "PROJECT_DIR") as [envRoot|]; [|eauto].
  destruct (JS.truthy (Some envRoot)); cbn [andb]; [|eauto].
  destruct (existsSync st envRoot) eqn:Hex; [|eauto].
  destruct (standalone_total st envRoot Hreal Hex) as [r ->].
  cbn. eauto.
Qed.

Lemma resolveAsdDir_total st startDir :
  realpathTotal h st -> is_Some (resolveAsdDir h st startDir).
Proof.
  intros Hreal. unfold resolveAsdDir.
  destruct (JS.truthy _ && existsSync st _); [eauto|].
  destruct (resolveProjectRoot_total st startDir Hreal) as [root ->].
  destruct (JS.truthy (getenv st "PROJECT_DIR")); [|cbn; eauto].
  destruct (existsSync st _); [eauto|].
  destruct (existsSync st _); [eauto|]. cbn. eauto.
Qed.

Lemma resolveWorkspaceDir_total startDir st :
  realpathTotal h st -> is_Some (resolveWorkspaceDir h startDir st).
Proof.
  intros Hreal. unfold resolveWorkspaceDir.
  destruct (JS.truthy _ && JS.truthy _); [eauto|].
  destruct (resolveProjectRoot_total st startDir Hreal) as [root ->].
  destruct (resolveAsdDir_total st startDir Hreal) as [asd ->].
  cbn [mbind option_bind]. eauto.
Qed.

Lemma resolveWorkspaceDir_returns startDir st :
  realpathTotal h st ->
  exists dir st',
    resolveWorkspaceDir h startDir st = Some (dir, st')
    /\ existsSync st' dir = true
    /\ (isAbsolute h startDir = true -> absoluteOverrides h st ->
        isAbsolute h dir = true).
Proof.
  intros Hreal.
  destruct (resolveWorkspaceDir_total startDir st Hreal) as [[dir st'] Hcall].
  pose proof (resolveWorkspaceDir_spec startDir st) as Hspec.
  rewrite Hcall in Hspec. exists dir, st'. split; [exact Hcall | exact Hspec].
Qed.

End OnHost.

Lemma search_append_r (pat : list Atom) (a b : string) :
  search pat b = true -> search pat (a +:+ b) = true.
Proof.
  intros Hb. induction a as [|c a IH]; [exact Hb|].
  change (String c a +:+ b) with (String c (a +:+ b)).
  cbn [search]. rewrite IH. apply orb_true_r.
Qed.

(** C9.  Over any run of [resolveWorkspaceDir] calls in one process,
    whatever the environment and the disk are at each call, at most one
    path-misconfiguration warning reaches stderr; and a call that resolves
    to a path in a known CI layout (one that includes [/work/.asd/.asd],
    or matches the Windows runner shape, of which [D:\a\.asd\.asd] is an
    instance) writes nothing to stderr. *)
Theorem misconfiguration_warning_at_most_once :
  forall (h : Host) (calls : list Call)
         (vars : gmap string string) (disk : gset string),
    (length (stderr (runCalls h calls (boot vars disk))) <= 1)%nat
    /\ (forall startDir st dir st',
           resolveWorkspaceDir h startDir st = Some (dir, st') ->
           isGitHubAsdRepo dir = true ->
           stderr st' = stderr st)
    /\ (forall dir, JS.includes "/work/.asd/.asd" dir = true ->
                    isGitHubAsdRepo dir = true)
    /\ (forall before after,
           isGitHubAsdRepo (before +:+ "D:\a\.asd\.asd" +:+ after) = true).
Proof.
  intros h calls vars disk. split; [|split; [|split]].
  - assert (warnedOnce (runCalls h calls (boot vars disk))) as [->|[_ ->]];
      [|simpl; lia|lia].
    apply runCalls_warnedOnce. left. reflexivity.
  - intros startDir st dir st' Hcall Hci.
    apply resolveWorkspaceDir_warning in Hcall as [[_ Herr]|(_ & Hno & _)];
      [exact Herr | congruence].
  - intros dir Hdir. unfold isGitHubAsdRepo. rewrite Hdir. reflexivity.
  - intros before after. unfold isGitHubAsdRepo.
    assert (search windowsRunnerShape (before +:+ "D:\a\.asd\.asd" +:+ after) = true)
      as ->; [|apply orb_true_r].
    apply search_append_r. reflexivity.
Qed.

Lemma getAsdHome_absolute (h : Host) (st : State) :
  Path.Lawful (ops h) -> Homes.absoluteHome h st ->
  isAbsolute h (getAsdHome h st) = true.
Proof.
  intros Hlaw (Hhome & Hasd & Hxdg & Hlocal). unfold getAsdHome.
  destruct (JS.truthy (getenv st "ASD_HOME")
            && JS.truthy (Some (JS.trim (default "" (getenv st "ASD_HOME")))))
    eqn:Hset.
  - apply nonblank_spec in Hset as (v & Hv & Ht). rewrite Hv. cbn [default].
    exact (Hasd v Hv Ht).
  - assert (forall k rest,
              (forall v, getenv st k = Some v -> v <> "" -> isAbsolute h v = true) ->
              isAbsolute h (default (join h (homedir h :: rest))
                              (JS.or_else (getenv st k) None)) = true) as Hor.
    { intros k rest Hk. unfold JS.or_else.
      destruct (getenv st k) as [v|] eqn:Hv; cbn [JS.truthy].
      - destruct (String.eqb_spec v "") as [|Hne]; cbn [negb default].
        + apply (join_abs h Hlaw). exact Hhome.
        + exact (Hk v eq_refl Hne).
      - cbn [default]. apply (join_abs h Hlaw). exact Hhome. }
    destruct (platform h).
    + apply (join_abs h Hlaw). apply Hor. exact Hxdg.
    + apply (join_abs h Hlaw). exact Hhome.
    + apply (join_abs h Hlaw). apply Hor. exact Hlocal.
Qed.


End ResolverFacts.

(** ** The properties at work on concrete hosts *)

Module Examples.
Import Scenario.

Section Supervisor.
Import Proc ProcFacts.




Lemma killProcessTree_two_phase_witness :
  isWin steadyHost = false
  /\ exists s',
      killProcessTree steadyHost 4321 100 true idle = (Ok tt, s')
      /\ events s' =
           events idle
           ++ [Kill (- 4321) SIGTERM]
           ++ [Kill 4321 SIGTERM; Sleep 100]
           ++ [Kill (- 4321) SIGKILL]
           ++ [Kill 4321 SIGKILL].
Proof.
  split; [reflexivity|].
  apply (killProcessTree_two_phase_never_throws steadyHost 4321 100 true idle).
  reflexivity.
Defined.

Lemma steadyHost_safePids : safePids steadyHost.
Proof. intros e. unfold steadyHost, child_pid. lia. Qed.

Lemma steadyHost_children_answer e : accepts steadyHost (S e) (child_pid steadyHost e) = true.
Proof.
  unfold steadyHost, accepts, child_pid.
  apply orb_true_iff. right. apply andb_true_iff. split; apply Z.leb_le; lia.
Qed.

Lemma stopByPidFile_removes_pid_file_witness :
  safePids steadyHost
  /\ exists s',
      stopByPidFile steadyHost (pidFile caddy) defaults (recorded "4321") =
        (Ok {| stopped := true; stop_pid := Some 4321;
               reason := None; error := None |}, s')
      /\ fs s' !! pidFile caddy = None
      /\ exists s'',
          startDaemon steadyHost 2 caddy s' =
            (Ok {| status := Started; pid := 4001;
                   alive := true; ready := Some true |}, s'')
          /\ (status {| status := Started; pid := 4001;
                        alive := true; ready := Some true |} = Started
              \/ (status {| status := Started; pid := 4001;
                            alive := true; ready := Some true |} = Failed
                  /\ exists e, (epoch s' <= e)%nat
                               /\ accepts steadyHost (S e) (child_pid steadyHost e)
                                  = false)).
Proof.
  split; [exact steadyHost_safePids|].
  destruct (proj1 (stopByPidFile_removes_pid_file
                     steadyHost (pidFile caddy) defaults (recorded "4321")
                     steadyHost_safePids)
              "4321" 4321) as (s' & Hstop & Hgone & Hnext).
  - vm_compute; reflexivity.
  - vm_compute; reflexivity.
  - lia.
  - exists s'. split; [exact Hstop|]. split; [exact Hgone|].
    assert (s' = snd (stopByPidFile steadyHost (pidFile caddy) defaults
                        (recorded "4321"))) as Hs' by (rewrite Hstop; reflexivity).
    assert (startDaemon steadyHost 2 caddy s' =
              (Ok {| status := Started; pid := 4001;
                     alive := true; ready := Some true |},
               snd (startDaemon steadyHost 2 caddy s'))) as Hstart.
    { rewrite Hs'. vm_compute. reflexivity. }
    eexists. split; [exact Hstart|].
    exact (Hnext 0%nat caddy _ _ eq_refl Hstart).
Defined.

(** C7 as stated fails.  After a stop that found PID 4321, the PID-file is
    gone, yet the next [startDaemon] on it does not return [started]: on
    a host where the new child is dead at its start-up check it returns
    [failed], and on a host without the binary it throws. *)
Lemma startDaemon_after_stop_is_not_always_started :
  fs (recorded "4321") !! pidFile caddy = Some "4321"
  /\ JS.parseInt (JS.trim "4321") = JS.Fin 4321
  /\ fst (stopByPidFile flakyHost (pidFile caddy) defaults (recorded "4321"))
     = Ok {| stopped := true; stop_pid := Some 4321;
             reason := None; error := None |}
  /\ fs (snd (stopByPidFile flakyHost (pidFile caddy) defaults (recorded "4321")))
       !! pidFile caddy = None
  /\ fst (startDaemon flakyHost 2 caddy
            (snd (stopByPidFile flakyHost (pidFile caddy) defaults
                    (recorded "4321"))))
     = Ok {| status := Failed; pid := 4001; alive := false; ready := None |}
  /\ fst (startDaemon Fixtures.bareHost 2 caddy
            (snd (stopByPidFile Fixtures.bareHost (pidFile caddy) defaults
                    (recorded "4321"))))
     = Throw {| err_code := None;
                err_message := "Binary not found: /usr/local/bin/caddy" |}.
Proof. repeat split; vm_compute; reflexivity. Qed.

Lemma startDaemon_dead_child_witness :
  (pidFile caddy <> "" /\ logFile caddy <> ""
   /\ reclaimPidFile flakyHost (pidFile caddy) later = (Ok None, later)
   /\ resolveBinary flakyHost (binary caddy) = Some "/usr/local/bin/caddy"
   /\ accepts flakyHost 3 4002 = false)
  /\ exists s',
      startDaemon flakyHost 1 caddy later =
        (Ok {| status := Failed; pid := 4002; alive := false; ready := None |}, s')
      /\ fs s' !! pidFile caddy = None.
Proof.
  assert (pidFile caddy <> "") as Hpid by (vm_compute; discriminate).
  assert (logFile caddy <> "") as Hlog by (vm_compute; discriminate).
  assert (reclaimPidFile flakyHost (pidFile caddy) later = (Ok None, later)) as Hrun
      by (vm_compute; reflexivity).
  assert (resolveBinary flakyHost (binary caddy) = Some "/usr/local/bin/caddy") as Hbin
      by (vm_compute; reflexivity).
  assert (accepts flakyHost 3 4002 = false) as Hdead by reflexivity.
  split; [auto 6|].
  destruct (startDaemon_dead_child_removes_pid_file
              flakyHost 0 caddy later later "/usr/local/bin/caddy"
              Hpid Hlog Hrun Hbin Hdead) as (s' & Hstart & Hgone & _).
  exists s'. split; assumption.
Defined.

Lemma stopByPidFile_invalid_pid_witness :
  (fs (recorded "0") !! pidFile caddy = Some "0"
   /\ forall p, JS.parseInt (JS.trim "0") = JS.Fin p -> p <= 1)
  /\ exists msg s',
      stopByPidFile steadyHost (pidFile caddy) defaults (recorded "0") =
        (Ok {| stopped := false; stop_pid := None;
               reason := None; error := Some msg |}, s')
      /\ events s' = events (recorded "0")
      /\ fs s' = fs (recorded "0").
Proof.
  assert (fs (recorded "0") !! pidFile caddy = Some "0") as Hfile
      by (vm_compute; reflexivity).
  assert (forall p, JS.parseInt (JS.trim "0") = JS.Fin p -> p <= 1) as Hbad.
  { intros p Hp. vm_compute in Hp. injection Hp as <-. lia. }
  split; [auto|].
  apply (stopByPidFile_invalid_pid_sends_no_signal
           steadyHost (pidFile caddy) defaults (recorded "0") "0" Hfile Hbad).
Defined.

End Supervisor.

Section Resolvers.
Import Resolver ResolverFacts.


(** The warning does get written, and a second call with the same doubled
    path keeps quiet. *)
Example doubled_path_warned_once :
  stderr (runCalls workstation [nestedCheckout] (boot ∅ ∅))
    = ["/srv/app/.asd/.asd/workspace"]
  /\ stderr (runCalls workstation [nestedCheckout; nestedCheckout] (boot ∅ ∅))
    = ["/srv/app/.asd/.asd/workspace"].
Proof. split; vm_compute; reflexivity. Qed.

Lemma project_absoluteOverrides : absoluteOverrides workstation Fixtures.project.
Proof. split; intros v Hv; vm_compute in Hv; discriminate. Qed.

Lemma project_absoluteHome : Homes.absoluteHome workstation Fixtures.project.
Proof.
  split; [reflexivity|].
  repeat split; intros v Hv; vm_compute in Hv; discriminate.
Qed.


(** What these calls give on the workstation. *)
Example project_directories :
  fst <$> resolveWorkspaceDir workstation "/srv/app/src" Fixtures.project
    = Some "/srv/app/.asd/workspace"
  /\ fst <$> resolveBinDir workstation Fixtures.project
    = Some "/home/dev/.local/share/asd/bin".
Proof. split; vm_compute; reflexivity. Qed.

End Resolvers.

End Examples.

(** ** The life cycle of a daemon: start, start again, stop *)

Module LifecycleFacts.
Import Proc ProcFacts Lifecycle.

Section OnHost.

Variable h : Host.

Lemma resolveBinary_nonempty b p : resolveBinary h b = Some p -> p <> "".
Proof.
  unfold resolveBinary. destruct (String.eqb_spec b "") as [|Hb]; [discriminate|].
  destruct (_ && _).
  - intros [= <-]. exact Hb.
  - destruct (String.eqb_spec (which h b) "") as [|Hw]; [discriminate|].
    intros [= <-]. exact Hw.
Qed.

Lemma orderly_app o a b : orderly h o a -> orderly h o b -> orderly h o (a ++ b).
Proof. intros Ha Hb. apply Forall_app. split; assumption. Qed.

(** The stale-PID block at most probes the recorded PID and removes the
    PID-file. *)
Lemma reclaimPidFile_orderly o s :
  exists running s1 tail,
    reclaimPidFile h (pidFile o) s = (Ok running, s1)
    /\ events s1 = events s ++ tail
    /\ orderly h o tail
    /\ match running with
       | Some p =>
           fs s1 = fs s
           /\ exists content, fs s !! pidFile o = Some content
                              /\ recordedPid content = Some p
       | None => fs s1 = delete (pidFile o) (fs s)
       end.
Proof.
  destruct (fs s !! pidFile o) as [content|] eqn:Hfile.
  - rewrite (reclaimPidFile_present h (pidFile o) s content Hfile).
    destruct (recordedPid content) as [p|] eqn:Hrec.
    + destruct (accepts h (epoch s) p).
      * exists (Some p), (logged (Kill p SIG0) s), [Kill p SIG0].
        split; [reflexivity|]. split; [reflexivity|].
        split; [repeat constructor|]. split; [reflexivity|]. eauto.
      * exists None, (removed (pidFile o) (logged (Kill p SIG0) s)),
          [Kill p SIG0; Remove (pidFile o)].
        split; [reflexivity|]. split.
        { unfold removed, logged; cbn [events]. rewrite <- app_assoc. reflexivity. }
        split; [repeat constructor | reflexivity].
    + exists None, (removed (pidFile o) s), [Remove (pidFile o)].
      split; [reflexivity|]. split; [reflexivity|].
      split; [repeat constructor | reflexivity].
  - rewrite (reclaimPidFile_absent h (pidFile o) s Hfile).
    exists None, s, []. rewrite app_nil_r.
    split; [reflexivity|]. split; [reflexivity|]. split; [constructor|].
    symmetry. apply delete_id. exact Hfile.
Qed.

Lemma launch_orderly o binPath child :
  resolveBinary h (binary o) = Some binPath ->
  orderly h o
    [OpenAppend (logFile o);
     Spawn binPath (args o) (cwd o) child;
     Write (pidFile o) (JS.ofZ child +:+ String "010" "");
     Sleep STARTUP_HEALTHCHECK_DELAY_MS;
     Kill child SIG0].
Proof.
  intros Hbin. unfold orderly. repeat constructor.
  - exact Hbin.
  - exact (resolveBinary_nonempty _ _ Hbin).
Qed.

Lemma launched_pid_file o binPath s1 :
  fs (launched h o binPath s1) !! pidFile o
  = Some (JS.ofZ (child_pid h (epoch s1)) +:+ String "010" "").
Proof. unfold launched; cbn [fs]. apply lookup_insert_eq. Qed.

(** One call, given what its inner call (if any) does. *)
Lemma startDaemon_attempt_leaves fuel o s :
  (restartPolicy o = OnFailure ->
   forall s4, exists outcome s' tail,
       startDaemon h fuel (withPolicy o Never) s4 = (outcome, s')
       /\ events s' = events s4 ++ tail
       /\ orderly h o tail
       /\ match outcome with
          | Ok r => pidFileAgrees o r s'
          | _ => True
          end) ->
  exists outcome s' tail,
    startDaemon h (S fuel) o s = (outcome, s')
    /\ events s' = events s ++ tail
    /\ orderly h o tail
    /\ match outcome with
       | Ok r => pidFileAgrees o r s'
       | _ => True
       end.
Proof.
  intros Hrec. destruct (names_dec o) as [Hempty|[Hpid Hlog]].
  { rewrite (startDaemon_guard h fuel o s Hempty).
    eexists _, s, []. rewrite app_nil_r.
    split; [reflexivity|]. split; [reflexivity|]. split; [constructor|].
    exact I. }
  rewrite (startDaemon_unfold h fuel o s Hpid Hlog).
  destruct (reclaimPidFile_orderly o s)
    as (running & s1 & tail0 & Hrun & Hev & Hsp & Hfs).
  rewrite Hrun.
  destruct running as [oldPid|].
  { eexists _, s1, tail0. split; [reflexivity|]. split; [exact Hev|].
    split; [exact Hsp|].
    simpl. destruct Hfs as [Hsame (c & Hc & Hr)]. exists c.
    rewrite Hsame. auto. }
  destruct (resolveBinary h (binary o)) as [binPath|] eqn:Hbin.
  2:{ eexists _, s1, tail0. split; [reflexivity|]. split; [exact Hev|].
      split; [exact Hsp|]. exact I. }
  cbv zeta. change (epoch (launched h o binPath s1)) with (S (epoch s1)).
  pose proof (launched_events h o binPath s1) as Hlaunch.
  rewrite Hev, <- app_assoc in Hlaunch.
  pose proof (launch_orderly o binPath (child_pid h (epoch s1)) Hbin) as Hok.
  pose proof (launched_pid_file o binPath s1) as Hfile.
  destruct (accepts h (S (epoch s1)) (child_pid h (epoch s1))) eqn:Halive.
  2:{ eexists _, _, _. split; [reflexivity|]. split; [|split].
      - unfold removed; cbn [events]. rewrite Hlaunch, <- !app_assoc. reflexivity.
      - apply orderly_app; [exact Hsp|].
        apply orderly_app; [exact Hok|]. repeat constructor.
      - simpl. apply lookup_delete_eq. }
  destruct (readinessTasks (readiness o)) as [|t ts].
  { eexists _, _, _. split; [reflexivity|]. split; [exact Hlaunch|]. split.
    - apply orderly_app; assumption.
    - exact Hfile. }
  destruct (forallb (probe h (S (epoch s1))) (t :: ts)).
  { eexists _, _, _. split; [reflexivity|]. split; [exact Hlaunch|]. split.
    - apply orderly_app; assumption.
    - exact Hfile. }
  set (s4 := logged (Kill (child_pid h (epoch s1)) SIG0)
               (waited (launched h o binPath s1))).
  assert (events s4 = events s ++ tail0
            ++ [OpenAppend (logFile o);
                Spawn binPath (args o) (cwd o) (child_pid h (epoch s1));
                Write (pidFile o)
                  (JS.ofZ (child_pid h (epoch s1)) +:+ String "010" "");
                Sleep STARTUP_HEALTHCHECK_DELAY_MS;
                Kill (child_pid h (epoch s1)) SIG0]
            ++ [Kill (child_pid h (epoch s1)) SIG0]) as Hev4.
  { subst s4. unfold logged, waited; cbn [events].
    rewrite Hlaunch, <- !app_assoc. reflexivity. }
  assert (orderly h o
            (tail0
             ++ [OpenAppend (logFile o);
                 Spawn binPath (args o) (cwd o) (child_pid h (epoch s1));
                 Write (pidFile o)
                   (JS.ofZ (child_pid h (epoch s1)) +:+ String "010" "");
                 Sleep STARTUP_HEALTHCHECK_DELAY_MS;
                 Kill (child_pid h (epoch s1)) SIG0]
             ++ [Kill (child_pid h (epoch s1)) SIG0])) as Hok4.
  { apply orderly_app; [exact Hsp|].
    apply orderly_app; [exact Hok|]. repeat constructor. }
  assert (fs s4 !! pidFile o
          = Some (JS.ofZ (child_pid h (epoch s1)) +:+ String "010" "")) as Hfile4
      by exact Hfile.
  destruct (restartPolicy o) eqn:Hpolicy.
  { eexists _, _, _. split; [reflexivity|]. split; [exact Hev4|].
    split; [exact Hok4 | exact Hfile4]. }
  destruct (negb (accepts h (epoch s4) (child_pid h (epoch s1)))
            && (clock h (epoch s4) - clock h (epoch s1) <? minUptimeMs o)).
  2:{ eexists _, _, _. split; [reflexivity|]. split; [exact Hev4|].
      split; [exact Hok4 | exact Hfile4]. }
  destruct (Hrec eq_refl s4) as (outcome & s' & tail & Hinner & Hev' & Hok' & Hagree).
  exists outcome, s', ((tail0
            ++ [OpenAppend (logFile o);
                Spawn binPath (args o) (cwd o) (child_pid h (epoch s1));
                Write (pidFile o)
                  (JS.ofZ (child_pid h (epoch s1)) +:+ String "010" "");
                Sleep STARTUP_HEALTHCHECK_DELAY_MS;
                Kill (child_pid h (epoch s1)) SIG0]
            ++ [Kill (child_pid h (epoch s1)) SIG0]) ++ tail).
  split; [exact Hinner|]. split.
  { rewrite Hev', Hev4, <- !app_assoc. reflexivity. }
  split; [|exact Hagree].
  apply orderly_app; assumption.
Qed.

(** Any call, given fuel for one retry: it ends, it does nothing
    out of order, and the PID-file it leaves agrees with its
    result. *)
Lemma startDaemon_leaves fuel o s :
  exists outcome s' tail,
    startDaemon h (S (S fuel)) o s = (outcome, s')
    /\ events s' = events s ++ tail
    /\ orderly h o tail
    /\ match outcome with
       | Ok r => pidFileAgrees o r s'
       | _ => True
       end.
Proof.
  apply startDaemon_attempt_leaves. intros _ s4.
  destruct (startDaemon_attempt_leaves fuel (withPolicy o Never) s4)
    as (outcome & s' & tail & H1 & H2 & H3 & H4).
  { intros [=]. }
  exists outcome, s', tail. auto.
Qed.

Lemma started_pid_file fuel o s r s1 :
  startDaemon h (S (S fuel)) o s = (Ok r, s1) ->
  status r = Started ->
  pidFile o <> "" /\ logFile o <> ""
  /\ fs s1 !! pidFile o = Some (JS.ofZ (pid r) +:+ String "010" "").
Proof.
  intros Hstart Hstatus.
  destruct (names_dec o) as [Hempty|[Hpid Hlog]].
  { rewrite (startDaemon_guard h (S fuel) o s Hempty) in Hstart. discriminate. }
  split; [exact Hpid|]. split; [exact Hlog|].
  destruct (startDaemon_leaves fuel o s) as (outcome & s' & tail & H1 & _ & _ & Hagree).
  rewrite Hstart in H1. injection H1 as <- <-.
  unfold pidFileAgrees in Hagree. rewrite Hstatus in Hagree. exact Hagree.
Qed.

(** [stopByPidFile] on a PID-file that names a PID above 1, step by
    step. *)
Lemma stopByPidFile_valid_run pf opts s content p :
  fs s !! pf = Some content ->
  recordedPid content = Some p ->
  stopByPidFile h pf opts s =
  match killProcessTree h p (default (KILL_GENTLE_MS_DEFAULT h) (gentleMs opts))
          (negb (isWin h) && default true (killGroup opts)) s with
  | (Ok _, s1) =>
      (Ok {| stopped := true; stop_pid := Some p; reason := None; error := None |},
       removed pf s1)
  | (_, s1) => (Ok {| stopped := false; stop_pid := None; reason := None;
                      error := None |}, s1)
  end.
Proof.
  intros Hfile Hrec. apply recordedPid_spec in Hrec as [Hparse Hgt].
  destruct (killProcessTree_run h p
              (default (KILL_GENTLE_MS_DEFAULT h) (gentleMs opts))
              (negb (isWin h) && default true (killGroup opts)) s) as [tail Hkill].
  rewrite Hkill. unfold stopByPidFile. apply try_catch_Ok.
  erewrite bind_Ok by (unfold readFile; rewrite Hfile; reflexivity).
  rewrite Hparse.
  assert (negb (JS.isFinite (JS.Fin p)) || JS.le (JS.Fin p) 1 = false) as ->
      by (simpl; apply Z.leb_gt; lia).
  change (toZ (JS.Fin p)) with p.
  erewrite bind_Ok by (exact Hkill). step rm_run. reflexivity.
Qed.

End OnHost.

(** X1.  Whenever a [startDaemon] call (with fuel for one retry)
    returns, the PID-file it leaves agrees with what it returns:
    [started] leaves the new child's PID followed by a newline,
    [already-running] a file that reads as the reported PID, and
    [failed] no file. *)
Theorem startDaemon_pid_file_agrees_with_result :
  forall (h : Host) (fuel : nat) (o : StartDaemonOptions) (s s' : State)
         (r : StartResult),
    startDaemon h (S (S fuel)) o s = (Ok r, s') ->
    pidFileAgrees o r s'.
Proof.
  intros h fuel o s s' r Hstart.
  destruct (startDaemon_leaves h fuel o s) as (outcome & s1 & tail & H1 & _ & _ & H4).
  rewrite Hstart in H1. injection H1 as <- <-. exact H4.
Qed.

(** X2.  [startDaemon] never kills, the retry included: every
    [process.kill] it makes carries signal 0 (a child that is alive but
    not ready, or dead before a retry, gets no other signal), and it
    never runs [taskkill]; every [rm] and [writeFile] it makes is on its
    PID-file, every [open] for appending on its log file, and every
    child it starts with [spawn] runs the path [resolveBinary] gives for
    the [binary] option, which is never the empty string, with the
    caller's arguments and working directory. *)
Theorem startDaemon_never_kills_and_writes_only_its_own_files :
  forall (h : Host) (fuel : nat) (o : StartDaemonOptions) (s : State),
    exists outcome s' tail,
      startDaemon h (S (S fuel)) o s = (outcome, s')
      /\ events s' = events s ++ tail
      /\ Forall (startupEvent h o) tail.
Proof.
  intros h fuel o s.
  destruct (startDaemon_leaves h fuel o s) as (outcome & s' & tail & H1 & H2 & H3 & _).
  exists outcome, s', tail. auto.
Qed.

(** X3.  Starting twice is safe: after a call that reports [started] for
    a child with a PID above 1, a later call for the same options, made
    while the PID-file still holds what the first call wrote and the
    child still answers, reports [already-running] with that PID; all it
    does is probe the child. *)
Theorem startDaemon_again_reports_already_running :
  forall (h : Host) (fuel fuel' : nat) (o : StartDaemonOptions)
         (s s1 s2 : State) (r : StartResult),
    startDaemon h (S (S fuel)) o s = (Ok r, s1) ->
    status r = Started ->
    1 < pid r < 2 ^ 53 ->
    fs s2 !! pidFile o = fs s1 !! pidFile o ->
    accepts h (epoch s2) (pid r) = true ->
    startDaemon h (S fuel') o s2 =
      (Ok {| status := AlreadyRunning; pid := pid r;
             alive := true; ready := Some true |},
       logged (Kill (pid r) SIG0) s2).
Proof.
  intros h fuel fuel' o s s1 s2 r Hstart Hstatus Hpid Hsame Hlive.
  destruct (started_pid_file h fuel o s r s1 Hstart Hstatus) as (Hpf & Hlf & Hfile).
  rewrite <- Hsame in Hfile.
  rewrite (startDaemon_unfold h fuel' o s2 Hpf Hlf).
  rewrite (reclaimPidFile_present h (pidFile o) s2 _ Hfile).
  rewrite recordedPid_written by (apply Z.abs_lt; lia).
  assert ((1 <? pid r) = true) as -> by (apply Z.ltb_lt; lia).
  rewrite Hlive. reflexivity.
Qed.

(** X4.  Start, then stop: on a Unix-like host, [stopByPidFile] on the
    PID-file of a call that reported [started] for a child with a PID
    above 1 reads that PID back, sends it (and its group, unless
    [killGroup] is false) SIGTERM and after the pause SIGKILL, removes
    the PID-file and reports the PID as stopped. *)
Theorem stopByPidFile_stops_the_started_child :
  forall (h : Host) (fuel : nat) (o : StartDaemonOptions) (s s1 : State)
         (r : StartResult) (opts : StopOptions),
    isWin h = false ->
    startDaemon h (S (S fuel)) o s = (Ok r, s1) ->
    status r = Started ->
    1 < pid r < 2 ^ 53 ->
    exists s',
      stopByPidFile h (pidFile o) opts s1 =
        (Ok {| stopped := true; stop_pid := Some (pid r);
               reason := None; error := None |}, s')
      /\ fs s' !! pidFile o = None
      /\ events s' =
           events s1
           ++ unixKillTrace (pid r)
                (default (KILL_GENTLE_MS_DEFAULT h) (gentleMs opts))
                (default true (killGroup opts))
           ++ [Remove (pidFile o)].
Proof.
  intros h fuel o s s1 r opts Hwin Hstart Hstatus Hpid.
  destruct (started_pid_file h fuel o s r s1 Hstart Hstatus) as (_ & _ & Hfile).
  assert (recordedPid (JS.ofZ (pid r) +:+ String "010" "") = Some (pid r)) as Hrec.
  { rewrite recordedPid_written by (apply Z.abs_lt; lia).
    assert ((1 <? pid r) = true) as -> by (apply Z.ltb_lt; lia). reflexivity. }
  rewrite (stopByPidFile_valid_run h (pidFile o) opts s1 _ (pid r) Hfile Hrec).
  rewrite (killProcessTree_unix_run h _ _ _ s1 Hwin), Hwin.
  eexists. split; [reflexivity|]. split.
  - unfold removed; cbn [fs]. apply lookup_delete_eq.
  - unfold removed; cbn [events negb andb]. rewrite <- app_assoc. reflexivity.
Qed.


(** X6.  On Windows [stopByPidFile] never asks for a tree kill: for a
    PID-file that names a PID above 1 it runs [taskkill /PID pid], waits,
    runs [taskkill /PID pid /F] and removes the file, whatever the
    [killGroup] option says; the [/T] flag is never passed and no signal
    is sent. *)
Theorem stopByPidFile_windows_never_kills_the_tree :
  forall (h : Host) (pf : string) (opts : StopOptions) (s : State)
         (content : string) (p : Z),
    isWin h = true ->
    fs s !! pf = Some content ->
    recordedPid content = Some p ->
    exists s',
      stopByPidFile h pf opts s =
        (Ok {| stopped := true; stop_pid := Some p;
               reason := None; error := None |}, s')
      /\ fs s' = delete pf (fs s)
      /\ events s' =
           events s
           ++ [Taskkill ["/PID"; JS.ofZ p];
               Sleep (default (KILL_GENTLE_MS_DEFAULT h) (gentleMs opts));
               Taskkill ["/PID"; JS.ofZ p; "/F"];
               Remove pf].
Proof.
  intros h pf opts s content p Hwin Hfile Hrec.
  rewrite (stopByPidFile_valid_run h pf opts s content p Hfile Hrec).
  rewrite (killProcessTree_win_run h _ _ _ s Hwin), Hwin.
  eexists. split; [reflexivity|]. split; [reflexivity|].
  unfold removed; cbn [events negb andb]. rewrite <- app_assoc. reflexivity.
Qed.

(** X7.  [stopByPidFile] never throws.  It reports [stopped] exactly
    when the PID-file is there and reads as a PID above 1, and then the
    file is gone afterwards; in every other case (no file, or a content
    that is not such a PID) it changes nothing and signals nothing. *)
Theorem stopByPidFile_never_throws :
  forall (h : Host) (pf : string) (opts : StopOptions) (s : State),
    exists r s',
      stopByPidFile h pf opts s = (Ok r, s')
      /\ (stopped r = true <->
          exists content p,
            fs s !! pf = Some content /\ recordedPid content = Some p)
      /\ (stopped r = true -> fs s' !! pf = None)
      /\ (stopped r = false -> s' = s).
Proof.
  intros h pf opts s.
  destruct (fs s !! pf) as [content|] eqn:Hfile.
  - destruct (recordedPid content) as [p|] eqn:Hrec.
    + destruct (stopByPidFile_valid h pf opts s content p Hfile Hrec) as [tail Hrun].
      eexists _, _. split; [exact Hrun|]. cbn [stopped]. split; [|split].
      * split; [intros _; eauto | reflexivity].
      * intros _. unfold removed; cbn [fs]. apply lookup_delete_eq.
      * discriminate.
    + rewrite (stopByPidFile_invalid h pf opts s content Hfile Hrec).
      eexists _, _. split; [reflexivity|]. cbn [stopped]. split; [|split].
      * split; [discriminate|]. intros (c & p & [= <-] & Hp). congruence.
      * discriminate.
      * reflexivity.
  - rewrite (stopByPidFile_absent h pf opts s Hfile).
    eexists _, _. split; [reflexivity|]. cbn [stopped]. split; [|split].
    + split; [discriminate|]. intros (c & p & [=] & _).
    + discriminate.
    + reflexivity.
Qed.

End LifecycleFacts.

(** ** The TCP probe *)

Module PortFacts.
Import Port.

Lemma port_loop_skip deadline before rest :
  Forall (refused deadline) before ->
  port_loop deadline (before ++ rest) = port_loop deadline rest.
Proof.
  induction 1 as [|p before [Hclock Herr] _ IH]; [reflexivity|].
  simpl. rewrite Herr.
  destruct (Z.ltb_spec (port_clock p) deadline); [exact IH | lia].
Qed.

(** Where a loop that leaves (or gets stuck) does so: after turns that
    were all refused in time. *)
Lemma port_loop_stops deadline polls v :
  port_loop deadline polls = v ->
  v <> Unfinished ->
  exists before p after,
    polls = before ++ p :: after
    /\ Forall (refused deadline) before
    /\ ((port_clock p < deadline /\ port_attempt p = Connects /\ v = Returns true)
        \/ (port_clock p < deadline /\ port_attempt p = TimerFirst /\ v = Pending)
        \/ (deadline <= port_clock p /\ v = Returns false)).
Proof.
  induction polls as [|p rest IH]; simpl; intros Hrun Hv.
  - congruence.
  - destruct (Z.ltb_spec (port_clock p) deadline) as [Hin|Hout].
    + destruct (port_attempt p) eqn:Hp.
      * exists [], p, rest. split; [reflexivity|]. split; [constructor|]. auto.
      * destruct (IH Hrun Hv) as (before & q & after & -> & Hall & Hq).
        exists (p :: before), q, after. split; [reflexivity|].
        split; [|exact Hq]. constructor; [split; assumption | exact Hall].
      * exists [], p, rest. split; [reflexivity|]. split; [constructor|]. auto.
    + exists [], p, rest. split; [reflexivity|]. split; [constructor|]. auto.
Qed.

(** X9.  [waitForPort] returns true exactly when some attempt made
    before the deadline connects and every attempt before it was made in
    time and ended in an error event. *)
Theorem waitForPort_ready_iff_connect_within_budget :
  forall (t0 timeoutMs : Z) (polls : list PortPoll),
    waitForPort t0 timeoutMs polls = Returns true <->
    exists before p after,
      polls = before ++ p :: after
      /\ Forall (refused (t0 + timeoutMs)) before
      /\ port_clock p < t0 + timeoutMs
      /\ port_attempt p = Connects.
Proof.
  intros t0 timeoutMs polls. unfold waitForPort. split.
  - intros Hrun.
    destruct (port_loop_stops _ _ _ Hrun) as (before & p & after & Hp & Hall & Hend);
      [discriminate|].
    exists before, p, after. split; [exact Hp|]. split; [exact Hall|].
    destruct Hend as [(? & ? & _)|[(_ & _ & [=])|(_ & [=])]]. auto.
  - intros (before & p & after & -> & Hall & Hclock & Hp).
    rewrite (port_loop_skip _ _ _ Hall). simpl. rewrite Hp.
    destruct (Z.ltb_spec (port_clock p) (t0 + timeoutMs)); [reflexivity | lia].
Qed.

(** X10.  The deadline does not bound [waitForPort]: the call is left
    waiting for ever, on a promise that nothing resolves, exactly when
    an attempt made before the deadline sees neither a connect nor an
    error event before its timer, every attempt before it having been
    refused in time.  What the clock shows afterwards does not matter. *)
Theorem waitForPort_hangs_iff_an_attempt_stays_silent :
  forall (t0 timeoutMs : Z) (polls : list PortPoll),
    waitForPort t0 timeoutMs polls = Pending <->
    exists before p after,
      polls = before ++ p :: after
      /\ Forall (refused (t0 + timeoutMs)) before
      /\ port_clock p < t0 + timeoutMs
      /\ port_attempt p = TimerFirst.
Proof.
  intros t0 timeoutMs polls. unfold waitForPort. split.
  - intros Hrun.
    destruct (port_loop_stops _ _ _ Hrun) as (before & p & after & Hp & Hall & Hend);
      [discriminate|].
    exists before, p, after. split; [exact Hp|]. split; [exact Hall|].
    destruct Hend as [(_ & _ & [=])|[(? & ? & _)|(_ & [=])]]. auto.
  - intros (before & p & after & -> & Hall & Hclock & Hp).
    rewrite (port_loop_skip _ _ _ Hall). simpl. rewrite Hp.
    destruct (Z.ltb_spec (port_clock p) (t0 + timeoutMs)); [reflexivity | lia].
Qed.

End PortFacts.

(** ** The lease reaper *)

Module ReaperFacts.
Import Proc ProcFacts Reaper.

Section OnHost.

Variable h : Host.
Hypothesis linux : isLinux h = true.
Hypothesis unix : isWin (base h) = false.

Lemma procHasLease_run p k v s :
  _procHasLease h p k v s =
  (Ok match environ h (epoch s) p with
      | Some txt => existsb (String.eqb (k +:+ "=" +:+ v)) (splitNul txt)
      | None => false
      end, s).
Proof.
  unfold _procHasLease. rewrite linux. cbn [negb].
  destruct (environ h (epoch s) p); reflexivity.
Qed.

(** What one turn of the loop does: nothing, or the two-phase kill of
    a process that qualifies, which becomes the last victim. *)
Lemma reapEntry_run o d victims s :
  reapEntry h o d victims s = (Ok victims, s)
  \/ exists p txt,
       d_isDirectory d = true
       /\ numberOf h (d_name d) = JS.Fin p
       /\ 2 <= p
       /\ (p ∉ excludePids o)
       /\ environ h (epoch s) p = Some txt
       /\ (key o +:+ "=" +:+ value o) ∈ splitNul txt
       /\ reapEntry h o d victims s =
          (Ok (victims ++ [{| victim_pid := p;
                              victim_cmdline := cmdline h (S (epoch s)) p |}]),
           {| fs := fs s; epoch := S (epoch s);
              events := events s
                        ++ unixKillTrace p (KILL_GENTLE_MS_DEFAULT (base h)) true |}).
Proof.
  unfold reapEntry.
  destruct (d_isDirectory d) eqn:Hdir; cbn [negb]; [|left; reflexivity].
  destruct (numberOf h (d_name d)) as [|p|neg] eqn:Hnum;
    cbn [JS.isFinite negb orb lt]; try (left; reflexivity).
  destruct (Z.ltb_spec p 2) as [|Hp]; [left; reflexivity|].
  change (toZ (JS.Fin p)) with p.
  destruct (bool_decide_reflect (p ∈ excludePids o)) as [|Hex]; [left; reflexivity|].
  step procHasLease_run.
  destruct (environ h (epoch s) p) as [txt|] eqn:Henv; [|left; reflexivity].
  destruct (existsb _ _) eqn:Hhas; cbn [negb]; [|left; reflexivity].
  right. exists p, txt. split; [reflexivity|]. split; [reflexivity|].
  split; [exact Hp|]. split; [exact Hex|]. split; [exact Henv|]. split.
  { apply existsb_exists in Hhas as (x & Hin & Heq).
    apply String.eqb_eq in Heq. subst x. apply list_elem_of_In. exact Hin. }
  apply try_catch_Ok.
  erewrite bind_Ok by (apply killProcessTree_unix_run; exact unix).
  rewrite unix. reflexivity.
Qed.

Lemma reapLoop_run o e0 dirents0 dirents : forall victims s,
  readdirProc h e0 = Some dirents0 ->
  (forall d, d ∈ dirents -> d ∈ dirents0) ->
  exists new s',
    reapLoop h o dirents victims s = (Ok (victims ++ new), s')
    /\ fs s' = fs s
    /\ epoch s' = (epoch s + length new)%nat
    /\ events s' = events s ++ reapTrace h new
    /\ Forall (fun v => leased h o (victim_pid v)) new.
Proof.
  induction dirents as [|d rest IH]; intros victims s Hdir Hsub.
  - exists [], s. rewrite !app_nil_r. simpl.
    split; [reflexivity|]. split; [reflexivity|]. split; [lia|].
    split; [reflexivity | constructor].
  - assert (forall d', d' ∈ rest -> d' ∈ dirents0) as Hsub'
        by (intros d' Hd'; apply Hsub; right; exact Hd').
    cbn [reapLoop].
    destruct (reapEntry_run o d victims s)
      as [Hskip|(p & txt & Hd & Hnum & Hp & Hex & Henv & Hkv & Hkill)].
    + step Hskip. apply IH; assumption.
    + step Hkill.
      destruct (IH (victims ++ [{| victim_pid := p;
                                  victim_cmdline := cmdline h (S (epoch s)) p |}])
                  {| fs := fs s; epoch := S (epoch s);
                     events := events s
                       ++ unixKillTrace p (KILL_GENTLE_MS_DEFAULT (base h)) true |}
                  Hdir Hsub')
        as (new & s' & Hrun & Hfs & Hep & Hev & Hall).
      exists ({| victim_pid := p; victim_cmdline := cmdline h (S (epoch s)) p |} :: new), s'.
      split; [rewrite Hrun, <- app_assoc; reflexivity|].
      split; [exact Hfs|]. split; [rewrite Hep; simpl; lia|]. split.
      * rewrite Hev. cbn [events]. unfold reapTrace. cbn [flat_map victim_pid].
        rewrite <- app_assoc. reflexivity.
      * constructor; [|exact Hall]. cbn [victim_pid].
        split; [exact Hp|]. split; [exact Hex|]. split.
        -- exists e0, dirents0, d. split; [exact Hdir|].
           split; [apply Hsub; left|]. split; assumption.
        -- exists (epoch s), txt. split; assumption.
Qed.

End OnHost.

(** X11.  The lease reaper never throws and touches no file.  What it
    does is exactly one two-phase group kill (SIGTERM to the group and
    the process, the pause, SIGKILL to both) per victim it returns, in
    order; and every victim is a PID of at least 2 that is not excluded,
    that names a directory of [/proc], and whose environment held the
    lease [key=value] as an entry.  Off Linux it returns no victim and
    does nothing. *)
Theorem reapByEnv_kills_only_leased_processes :
  forall (h : Host) (o : ReapOptions) (s : State),
    onePlatform h ->
    exists victims s',
      reapByEnv h o s = (Ok victims, s')
      /\ fs s' = fs s
      /\ events s' = events s ++ reapTrace h victims
      /\ Forall (fun v => leased h o (victim_pid v)) victims
      /\ (isLinux h = false -> victims = [] /\ s' = s).
Proof.
  intros h o s Hone. unfold reapByEnv.
  destruct (isLinux h) eqn:Hlinux; cbn [negb].
  2:{ exists [], s. rewrite app_nil_r.
      split; [reflexivity|]. split; [reflexivity|]. split; [reflexivity|].
      split; [constructor | auto]. }
  destruct (readdirProc h (epoch s)) as [dirents|] eqn:Hdir.
  2:{ exists [], s. rewrite app_nil_r.
      split; [reflexivity|]. split; [reflexivity|]. split; [reflexivity|].
      split; [constructor | discriminate]. }
  destruct (reapLoop_run h Hlinux (Hone Hlinux) o (epoch s) dirents dirents [] s Hdir)
    as (new & s' & Hrun & Hfs & _ & Hev & Hall); [auto|].
  exists new, s'. split; [exact Hrun|]. split; [exact Hfs|].
  split; [exact Hev|]. split; [exact Hall | discriminate].
Qed.

End ReaperFacts.

(** ** The message catalog *)

Module MessagesFacts.
Import Messages.

Lemma hasOpen_cons c s : hasOpen (String c s) = isOpen c || hasOpen s.
Proof.
  unfold hasOpen, isOpen. cbn [JS.includes JS.startsWith].
  rewrite (Ascii.eqb_sym "{" c). destruct (Ascii.eqb c "{"); reflexivity.
Qed.

Lemma hasOpen_app a b : hasOpen (a +:+ b) = hasOpen a || hasOpen b.
Proof.
  induction a as [|c a IH]; [reflexivity|].
  change (String c a +:+ b) with (String c (a +:+ b)).
  rewrite !hasOpen_cons, IH, orb_assoc. reflexivity.
Qed.

Lemma expand_prefix lookup pre rest :
  hasOpen pre = false ->
  expand lookup None (pre +:+ rest) = pre +:+ expand lookup None rest.
Proof.
  induction pre as [|c pre IH]; intros Hpre; [reflexivity|].
  rewrite hasOpen_cons in Hpre. apply orb_false_iff in Hpre as [Hc Hpre].
  change (String c pre +:+ rest) with (String c (pre +:+ rest)).
  cbn [expand]. rewrite Hc, (IH Hpre). reflexivity.
Qed.

Lemma append_assoc (a b c : string) : (a +:+ b) +:+ c = a +:+ (b +:+ c).
Proof.
  induction a as [|x a IH]; [reflexivity|].
  change (String x ((a +:+ b) +:+ c) = String x (a +:+ (b +:+ c))).
  rewrite IH. reflexivity.
Qed.

Lemma append_nil_r (a : string) : a +:+ "" = a.
Proof.
  induction a as [|x a IH]; [reflexivity|].
  change (String x (a +:+ "") = String x a). rewrite IH. reflexivity.
Qed.

Lemma expand_word lookup k : forall w rest,
  isWord k = true ->
  expand lookup (Some w) (k +:+ rest) = expand lookup (Some (w +:+ k)) rest.
Proof.
  induction k as [|c k IH]; intros w rest Hk.
  - rewrite append_nil_r. reflexivity.
  - cbn [isWord] in Hk. apply andb_true_iff in Hk as [Hc Hk].
    change (String c k +:+ rest) with (String c (k +:+ rest)).
    cbn [expand]. rewrite Hc, (IH _ _ Hk), append_assoc. reflexivity.
Qed.

Lemma expand_close lookup w rest :
  w <> "" ->
  expand lookup (Some w) (String "}" rest)
  = default "" (lookup w) +:+ expand lookup None rest.
Proof.
  intros Hw. cbn [expand].
  change (isWordChar "}") with false. change (isClose "}") with true.
  apply String.eqb_neq in Hw. rewrite Hw. reflexivity.
Qed.

(** Filling in values that hold no opening brace leaves one only where
    dropping every placeholder leaves one. *)
Lemma expand_no_open lookup s : forall pending,
  plainValues lookup ->
  hasOpen (expand (fun _ => None) pending s) = false ->
  hasOpen (expand lookup pending s) = false.
Proof.
  induction s as [|c rest IH]; intros pending Hplain Hdrop.
  - exact Hdrop.
  - destruct pending as [w|]; cbn [expand] in Hdrop |- *.
    + destruct (isWordChar c); [apply IH; assumption|].
      destruct (isClose c && negb (String.eqb w "")).
      * cbn [default] in Hdrop. change ("" +:+ ?x) with x in Hdrop.
        rewrite hasOpen_app. apply orb_false_iff. split; [|apply IH; assumption].
        destruct (lookup w) as [v|] eqn:Hv; [exact (Hplain w v Hv) | reflexivity].
      * change (String "{" w +:+ ?x) with (String "{" (w +:+ x)) in Hdrop.
        rewrite hasOpen_cons in Hdrop. discriminate.
    + destruct (isOpen c) eqn:Hc; [apply IH; assumption|].
      rewrite hasOpen_cons, Hc in Hdrop |- *. apply IH; assumption.
Qed.

Lemma catalog_well_formed :
  forallb
    (fun e => negb (String.eqb (snd e) "")
              && negb (hasOpen (expand (fun _ => None) None (snd e))))
    CATALOG = true.
Proof. vm_compute. reflexivity. Qed.

(** X12.  [applyParams] leaves a text without an opening brace as it is,
    and replaces the first placeholder of a text by the value the
    parameters give for its name (by nothing when they give none, or
    null), inserted as it is and not scanned again, the rest of the text
    being treated the same way. *)
Theorem applyParams_replaces_placeholders_left_to_right :
  forall (lookup : string -> option string) (pre k post : string),
    hasOpen pre = false ->
    isWord k = true ->
    k <> "" ->
    applyParams pre (Props lookup) = pre
    /\ applyParams (pre +:+ "{" +:+ k +:+ "}" +:+ post) (Props lookup)
       = pre +:+ default "" (lookup k) +:+ applyParams post (Props lookup).
Proof.
  intros lookup pre k post Hpre Hk Hne. cbn [applyParams]. split.
  - rewrite <- (append_nil_r pre) at 1. rewrite (expand_prefix _ _ _ Hpre).
    cbn [expand]. apply append_nil_r.
  - rewrite (expand_prefix _ _ _ Hpre). f_equal.
    change ("{" +:+ k +:+ "}" +:+ post) with (String "{" (k +:+ String "}" post)).
    cbn [expand]. change (isOpen "{") with true. cbv iota.
    rewrite (expand_word _ _ _ _ Hk). change ("" +:+ k) with k.
    apply expand_close. exact Hne.
Qed.


End MessagesFacts.

(** ** More on the path resolvers *)

Module LayoutFacts.
Import Resolver ResolverFacts Ancestry Layout.

Section OnHost.

Variable h : Host.

Lemma ancestor_S k dir : ancestor h (S k) dir = ancestor h k (dirname h dir).
Proof. unfold ancestor. apply Nat.iter_succ_r. Qed.

Lemma standalone_notCheckout st dir :
  notCheckout h st dir -> standalone h st dir = Some None.
Proof. unfold notCheckout, standalone. intros ->. reflexivity. Qed.

(** The walk stops at the first directory that holds [.asd]. *)
Lemma walkUp_finds st startDir k : forall fuel dir,
  (k < fuel)%nat ->
  (forall j, (j < k)%nat ->
             noAsdIn h st (ancestor h j dir)
             /\ dirname h (ancestor h j dir) <> ancestor h j dir) ->
  (forall j, (j <= k)%nat -> notCheckout h st (ancestor h j dir)) ->
  existsSync st (join h [ancestor h k dir; ".asd"]) = true ->
  walkUp h fuel st startDir dir = ancestor h k dir.
Proof.
  induction k as [|k IH]; intros fuel dir Hfuel Hpass Hcli Hhit;
    (destruct fuel as [|fuel]; [lia|]); cbn [walkUp];
    rewrite (standalone_notCheckout st dir (Hcli 0%nat ltac:(lia))).
  - change (ancestor h 0 dir) with dir in Hhit. rewrite Hhit. reflexivity.
  - destruct (Hpass 0%nat ltac:(lia)) as [Hno Hup].
    change (ancestor h 0 dir) with dir in Hno, Hup.
    unfold noAsdIn in Hno. rewrite Hno.
    apply String.eqb_neq in Hup. rewrite Hup.
    rewrite ancestor_S. apply IH.
    + lia.
    + intros j Hj. rewrite <- ancestor_S. apply Hpass. lia.
    + intros j Hj. rewrite <- ancestor_S. apply Hcli. lia.
    + rewrite <- ancestor_S. exact Hhit.
Qed.

(** A walk that finds nothing gives back the directory it started
    from. *)
Lemma walkUp_fallback st startDir : forall fuel dir,
  (forall j, (j < fuel)%nat ->
             notCheckout h st (ancestor h j dir)
             /\ noAsdIn h st (ancestor h j dir)) ->
  walkUp h fuel st startDir dir = startDir.
Proof.
  induction fuel as [|fuel IH]; intros dir Hnone; [reflexivity|].
  cbn [walkUp]. destruct (Hnone 0%nat ltac:(lia)) as [Hcli Hno].
  change (ancestor h 0 dir) with dir in Hcli, Hno.
  rewrite (standalone_notCheckout st dir Hcli).
  unfold noAsdIn in Hno. rewrite Hno.
  destruct (String.eqb (dirname h dir) dir); [reflexivity|].
  apply IH. intros j Hj. rewrite <- ancestor_S. apply Hnone. lia.
Qed.

Lemma resolveProjectRoot_walks st startDir :
  noProjectDir st ->
  resolveProjectRoot h st startDir = Some (walkUp h 50 st startDir startDir).
Proof.
  intros Hno. unfold resolveProjectRoot, getenv.
  destruct (vars st !! "PROJECT_DIR") as [v|] eqn:Hv; [|reflexivity].
  destruct (Hno v Hv) as [-> | Hmissing]; [reflexivity|].
  rewrite Hmissing, andb_false_r. reflexivity.
Qed.

End OnHost.

(** X14.  Without a usable [PROJECT_DIR], [resolveProjectRoot] returns
    the nearest directory at or above [startDir] that holds a [.asd]
    entry, provided it lies fewer than 50 levels up and no directory on
    the way, that one included, is taken for a CLI checkout named
    [.asd]. *)
Theorem resolveProjectRoot_returns_nearest_project :
  forall (h : Host) (st : State) (startDir : string) (k : nat),
    noProjectDir st ->
    (k < 50)%nat ->
    (forall j, (j < k)%nat ->
               noAsdIn h st (ancestor h j startDir)
               /\ dirname h (ancestor h j startDir) <> ancestor h j startDir) ->
    (forall j, (j <= k)%nat -> notCheckout h st (ancestor h j startDir)) ->
    existsSync st (join h [ancestor h k startDir; ".asd"]) = true ->
    resolveProjectRoot h st startDir = Some (ancestor h k startDir).
Proof.
  intros h st startDir k Hno Hk Hpass Hcli Hhit.
  rewrite (resolveProjectRoot_walks h st startDir Hno).
  rewrite (walkUp_finds h st startDir k 50 startDir Hk Hpass Hcli Hhit).
  reflexivity.
Qed.

(** X15.  Without a usable [PROJECT_DIR], when none of the 50
    directories from [startDir] upwards holds a [.asd] entry or is taken
    for a CLI checkout, [resolveProjectRoot] returns [startDir] itself:
    it neither fails nor returns a directory that is not a project, and
    a project 50 or more levels up is not found. *)
Theorem resolveProjectRoot_falls_back_to_startDir :
  forall (h : Host) (st : State) (startDir : string),
    noProjectDir st ->
    (forall j, (j < 50)%nat ->
               notCheckout h st (ancestor h j startDir)
               /\ noAsdIn h st (ancestor h j startDir)) ->
    resolveProjectRoot h st startDir = Some startDir.
Proof.
  intros h st startDir Hno Hnone.
  rewrite (resolveProjectRoot_walks h st startDir Hno).
  rewrite (walkUp_fallback h st startDir 50 startDir Hnone).
  reflexivity.
Qed.

Section Workspace.

Variable h : Host.

Lemma safeguard_keeps dir st :
  disk (safeguard dir st) = disk st /\ vars (safeguard dir st) = vars st.
Proof. unfold safeguard. destruct (_ && _ && _); split; reflexivity. Qed.

Lemma ensureExists_vars p st : vars (ensureExists h p st) = vars st.
Proof. unfold ensureExists. destruct (existsSync st p); reflexivity. Qed.

Lemma createWorkspace_vars dir st : vars (createWorkspace h dir st) = vars st.
Proof.
  unfold createWorkspace. destruct (existsSync st dir); [reflexivity|].
  cbn [fold_left]. rewrite !ensureExists_vars. reflexivity.
Qed.

Lemma createWorkspace_grows dir st q :
  q ∈ disk st -> q ∈ disk (createWorkspace h dir st).
Proof.
  intros Hq. unfold createWorkspace. destruct (existsSync st dir); [exact Hq|].
  cbn [fold_left]. repeat apply ensureExists_grows. apply mkdirSync_grows, Hq.
Qed.

Lemma createWorkspace_fresh dir st :
  existsSync st dir = false ->
  Forall (fun sub => existsSync (createWorkspace h dir st) (join h [dir; sub]) = true)
    ["logs"; "network"; "tunnels"].
Proof.
  intros Hmissing. unfold createWorkspace. rewrite Hmissing. cbn [fold_left].
  repeat constructor.
  - apply existsSync_spec. do 2 apply ensureExists_grows.
    apply existsSync_spec, ensureExists_exists.
  - apply existsSync_spec. apply ensureExists_grows.
    apply existsSync_spec, ensureExists_exists.
  - apply ensureExists_exists.
Qed.

Lemma createWorkspace_present dir st :
  existsSync st dir = true -> createWorkspace h dir st = st.
Proof. intros Hthere. unfold createWorkspace. rewrite Hthere. reflexivity. Qed.

(** What [resolveWorkspaceDir] does to the state, for the directory it
    settles on. *)
Lemma workspace_made dir st :
  let st' := createWorkspace h dir (safeguard dir st) in
  vars st' = vars st
  /\ (forall q, q ∈ disk st -> q ∈ disk st')
  /\ (existsSync st dir = true -> disk st' = disk st)
  /\ (existsSync st dir = false ->
      Forall (fun sub => existsSync st' (join h [dir; sub]) = true)
        ["logs"; "network"; "tunnels"]).
Proof.
  cbv zeta. destruct (safeguard_keeps dir st) as [Hdisk Hvars].
  assert (existsSync (safeguard dir st) dir = existsSync st dir) as Hsame
      by (unfold existsSync; rewrite Hdisk; reflexivity).
  split; [rewrite createWorkspace_vars; exact Hvars|]. split; [|split].
  - intros q Hq. apply createWorkspace_grows. rewrite Hdisk. exact Hq.
  - intros Hthere. rewrite createWorkspace_present by (rewrite Hsame; exact Hthere).
    exact Hdisk.
  - intros Hmissing. apply createWorkspace_fresh. rewrite Hsame. exact Hmissing.
Qed.

End Workspace.

(** X16.  [resolveWorkspaceDir] never changes the environment and never
    takes anything off the disk.  When the directory it settles on is
    already there it leaves the disk exactly as it was, missing
    sub-directories included; when it is not (outside sandbox mode) it
    makes it together with [logs], [network] and [tunnels]. *)
Theorem resolveWorkspaceDir_makes_only_a_missing_workspace :
  forall (h : Host) (startDir : string) (st : State),
    whenSome (resolveWorkspaceDir h startDir st)
      (fun r =>
         vars (snd r) = vars st
         /\ (forall q, q ∈ disk st -> q ∈ disk (snd r))
         /\ (existsSync st (fst r) = true -> disk (snd r) = disk st)
         /\ (existsSync st (fst r) = false ->
             blank (JS.or_else (getenv st "SANDBOX_DIR") (getenv st "EXECUTION_DIR")) ->
             Forall (fun sub => existsSync (snd r) (join h [fst r; sub]) = true)
               ["logs"; "network"; "tunnels"])).
Proof.
  intros h startDir st. unfold resolveWorkspaceDir.
  set (sb := JS.or_else (getenv st "SANDBOX_DIR") (getenv st "EXECUTION_DIR")).
  destruct (JS.truthy sb && JS.truthy (Some (JS.trim (default "" sb)))) eqn:Hsb.
  - cbn [whenSome fst snd]. set (dir := join h _).
    split; [apply ensureExists_vars|]. split; [intros q; apply ensureExists_grows|].
    split.
    + intros Hthere. unfold ensureExists. rewrite Hthere. reflexivity.
    + intros _ Hblank. apply blank_spec in Hblank. congruence.
  - destruct (resolveProjectRoot h st startDir) as [root|]; [|exact I].
    destruct (resolveAsdDir h st startDir) as [asd|]; [|exact I].
    cbn [mbind option_bind whenSome fst snd].
    match goal with
    | |- context [createWorkspace h ?d _] =>
        destruct (workspace_made h d st) as (H1 & H2 & H3 & H4)
    end.
    split; [exact H1|]. split; [exact H2|]. split; [exact H3|].
    intros Hmissing _. exact (H4 Hmissing).
Qed.

Section OnMachine.

Variable m : Machine.

Lemma forbiddenWarnings_nil st :
  forbiddenWarnings st = [] <->
  JS.truthy (getenv st "SANDBOX_DIR") = false
  /\ JS.truthy (getenv st "EXECUTION_DIR") = false.
Proof.
  unfold forbiddenWarnings, FORBIDDEN_ENV_VARS. cbn [flat_map app].
  destruct (getenv st "SANDBOX_DIR") as [a|];
    destruct (getenv st "EXECUTION_DIR") as [b|];
    try destruct (JS.truthy (Some a)); try destruct (JS.truthy (Some b));
    cbn [app JS.truthy]; split; try discriminate; try tauto;
    intros [? ?]; discriminate.
Qed.

Lemma endsWithAsd_empty : endsWithAsd "" = false.
Proof. reflexivity. Qed.

Lemma projectDirWarnings_nil st :
  projectDirWarnings st = [] <->
  forall pd, getenv st "PROJECT_DIR" = Some pd -> endsWithAsd pd = false.
Proof.
  unfold projectDirWarnings.
  destruct (getenv st "PROJECT_DIR") as [pd|]; [|split; [intros _ ? [=] | reflexivity]].
  destruct (String.eqb_spec pd "") as [->|Hne].
  - split; [intros _ ? [= <-]; reflexivity | reflexivity].
  - assert (JS.truthy (Some pd) = true) as -> by (apply truthy_Some; exact Hne).
    cbn [andb]. destruct (endsWithAsd pd) eqn:He.
    + split; [discriminate|]. intros H. specialize (H pd eq_refl). congruence.
    + split; [intros _ ? [= <-]; exact He | reflexivity].
Qed.

Lemma workspaceWarnings_nil st :
  fst (workspaceWarnings m st) = [] <->
  whenSome (resolveWorkspaceDir (host m) (cwd (host m)) st)
    (fun r => JS.includes "/work/.asd/.asd" (fst r) = true
              \/ hasDoubledAsd (fst r) = false).
Proof.
  unfold workspaceWarnings.
  destruct (resolveWorkspaceDir (host m) (cwd (host m)) st) as [[ws st']|];
    cbn [whenSome fst snd]; [|tauto].
  destruct (JS.includes "/work/.asd/.asd" ws); cbn [negb andb]; [tauto|].
  destruct (hasDoubledAsd ws); split; try discriminate; auto.
  intros [|]; discriminate.
Qed.

Lemma warnings_found silent st :
  warnings (fst (validateEnvironment m silent st))
  = forbiddenWarnings st ++ projectDirWarnings st ++ fst (workspaceWarnings m st)
  /\ valid (fst (validateEnvironment m silent st))
     = (length (warnings (fst (validateEnvironment m silent st))) =? 0)%nat.
Proof.
  unfold validateEnvironment. destruct (workspaceWarnings m st) as [w st1].
  split; reflexivity.
Qed.

Lemma forbiddenWarnings_short st : (length (forbiddenWarnings st) <= 2)%nat.
Proof.
  unfold forbiddenWarnings, FORBIDDEN_ENV_VARS. cbn [flat_map app].
  destruct (getenv st "SANDBOX_DIR") as [a|];
    destruct (getenv st "EXECUTION_DIR") as [b|];
    try destruct (JS.truthy (Some a)); try destruct (JS.truthy (Some b));
    simpl; lia.
Qed.

End OnMachine.

(** X17.  [validateEnvironment] never throws, and reports the
    environment valid exactly when it collected no warning, that is
    when neither [SANDBOX_DIR] nor [EXECUTION_DIR] is set to a non-empty
    value, [PROJECT_DIR] does not end in [/.asd] or [\.asd], and the
    workspace, if it resolves, has no doubled [.asd] in its path or lies
    under [/work/.asd/.asd].  It collects at most four warnings. *)
Theorem validateEnvironment_valid_iff_nothing_to_warn_about :
  forall (m : Machine) (silent : bool) (st : State),
    let v := fst (validateEnvironment m silent st) in
    (valid v = true <-> warnings v = [])
    /\ (valid v = true <->
        JS.truthy (getenv st "SANDBOX_DIR") = false
        /\ JS.truthy (getenv st "EXECUTION_DIR") = false
        /\ (forall pd, getenv st "PROJECT_DIR" = Some pd -> endsWithAsd pd = false)
        /\ whenSome (resolveWorkspaceDir (host m) (cwd (host m)) st)
             (fun r => JS.includes "/work/.asd/.asd" (fst r) = true
                       \/ hasDoubledAsd (fst r) = false))
    /\ (length (warnings v) <= 4)%nat.
Proof.
  intros m silent st. cbv zeta.
  destruct (warnings_found m silent st) as [Hw ->]. rewrite Hw.
  assert (forall l : list string, (length l =? 0)%nat = true <-> l = []) as Hnil.
  { intros [|x l]; simpl; split; congruence. }
  split; [apply Hnil|]. split.
  - rewrite Hnil. split.
    + intros H. apply app_eq_nil in H as [H1 H]. apply app_eq_nil in H as [H2 H3].
      apply forbiddenWarnings_nil in H1 as [Ha Hb].
      pose proof (proj1 (projectDirWarnings_nil st) H2) as Hc.
      pose proof (proj1 (workspaceWarnings_nil m st) H3) as Hd. auto.
    + intros (Ha & Hb & Hc & Hd).
      rewrite (proj2 (forbiddenWarnings_nil st) (conj Ha Hb)).
      rewrite (proj2 (projectDirWarnings_nil st) Hc).
      rewrite (proj2 (workspaceWarnings_nil m st) Hd). reflexivity.
  - rewrite !length_app. pose proof (forbiddenWarnings_short st).
    assert (length (projectDirWarnings st) <= 1)%nat.
    { unfold projectDirWarnings. destruct (getenv st "PROJECT_DIR") as [pd|]; [|simpl; lia].
      destruct (_ && _); simpl; lia. }
    assert (length (fst (workspaceWarnings m st)) <= 1)%nat.
    { unfold workspaceWarnings.
      destruct (resolveWorkspaceDir (host m) (cwd (host m)) st) as [[ws st']|];
        [|simpl; lia].
      destruct (_ && _); simpl; lia. }
    lia.
Qed.

(** X18.  [resolveBundledBinary] never returns a path that is not on
    disk: whichever of the bundled, global, workspace or fallback
    locations it settles on, the path it returns exists when it returns
    (and [hasBundledBinary] answers true exactly when a path is
    returned). *)
Theorem resolveBundledBinary_returns_only_existing_paths :
  forall (m : Machine) (name : string) (st : State),
    whenSome (resolveBundledBinary m name st)
      (fun r => forall p, fst r = Some p -> existsSync (snd r) p = true)
    /\ (forall found st',
           resolveBundledBinary m name st = Some (found, st') ->
           hasBundledBinary m name st = Some (bool_decide (found <> None), st')).
Proof.
  intros m name st. split.
  2:{ intros found st' Hrun. unfold hasBundledBinary. rewrite Hrun. reflexivity. }
  unfold resolveBundledBinary.
  assert (whenSome
            ('(binDir, st1) ← resolveBinDir (host m) st;
             Some (if existsSync st1
                        (join (host m) [binDir; if isWin m then name +:+ ".exe" else name])
                   then Some (join (host m)
                                [binDir; if isWin m then name +:+ ".exe" else name])
                   else None, st1))
            (fun r => forall p, fst r = Some p -> existsSync (snd r) p = true))
    as Hfallback.
  { destruct (resolveBinDir (host m) st) as [[binDir st1]|]; [|exact I].
    cbn [mbind option_bind whenSome fst snd].
    destruct (existsSync st1 _) eqn:Hthere; intros p [= <-]. exact Hthere. }
  destruct (osMap (platformName m)) as [os|]; [|exact Hfallback].
  destruct (archMap (archName m)) as [cpuArch|]; [|exact Hfallback].
  clear Hfallback.
  destruct (resolveAsdDir (host m) st (cwd (host m))) as [asdDir|]; [|exact I].
  cbn [mbind option_bind].
  destruct (existsSync st _) eqn:Hbundled.
  { cbn [whenSome fst snd]. intros p [= <-]. exact Hbundled. }
  destruct (resolveBinDir (host m) st) as [[binDir st1]|]; [|exact I].
  cbn [mbind option_bind].
  destruct (existsSync st1 _) eqn:Hglobal.
  { cbn [whenSome fst snd]. intros p [= <-]. exact Hglobal. }
  destruct (resolveWorkspaceDir (host m) (cwd (host m)) st1) as [[workspace st2]|];
    [|exact I].
  cbn [mbind option_bind].
  destruct (existsSync st2 _) eqn:Hworkspace; cbn [whenSome fst snd]; intros p [= <-].
  exact Hworkspace.
Qed.

(** X19.  Outside sandbox mode, with [ASD_WORKSPACE_DIR] set to a
    non-blank value, the directory [resolveWorkspaceDirForLogs] returns
    is the one [resolveWorkspaceDir] returns from the current directory,
    whatever [jsonFilePath] is given. *)
Theorem resolveWorkspaceDirForLogs_agrees_under_ASD_WORKSPACE_DIR :
  forall (m : Machine) (jsonFilePath : option string) (st : State) (ws : string),
    blank (JS.or_else (getenv st "SANDBOX_DIR") (getenv st "EXECUTION_DIR")) ->
    getenv st "ASD_WORKSPACE_DIR" = Some ws ->
    JS.trim ws <> "" ->
    whenSome (resolveWorkspaceDir (host m) (cwd (host m)) st)
      (fun r => resolveWorkspaceDirForLogs m jsonFilePath st = Some (fst r)).
Proof.
  intros m jsonFilePath st ws Hsb Hws Htrim.
  unfold resolveWorkspaceDir, resolveWorkspaceDirForLogs.
  apply blank_spec in Hsb. rewrite Hsb, Hws.
  assert (ws <> "") as Hne by (intros ->; apply Htrim; reflexivity).
  assert (JS.truthy (Some ws) = true) as Hw by (apply truthy_Some; exact Hne).
  assert (JS.truthy (Some (JS.trim ws)) = true) as Ht by (apply truthy_Some; exact Htrim).
  assert (JS.or_else (Some ws) (getenv st "WORKSPACE_DIR") = Some ws) as ->
      by (unfold JS.or_else; rewrite Hw; reflexivity).
  change (default "" (Some ws)) with ws. rewrite Hw, Ht. cbn [andb].
  destruct (resolveProjectRoot (host m) st (cwd (host m))) as [root|]; [|exact I].
  destruct (resolveAsdDir (host m) st (cwd (host m))) as [asd|]; [|exact I].
  cbn [mbind option_bind whenSome fst snd].
  destruct (isAbsolute (host m) (JS.trim ws)); reflexivity.
Qed.

End LayoutFacts.

(** ** The log probe on a log that only grows *)

Module LogGrowthFacts.
Import Readiness LogGrowth.

Lemma log_loop_appended (test : string -> bool) deadline turns : forall text,
  log_loop test deadline (JS.length text) (appended text turns) = Some true <->
  exists (k : nat) (clock : Z) (chunk : string),
    turns !! k = Some (clock, chunk)
    /\ test chunk = true
    /\ forall (j : nat) (c : Z) (x : string),
         (j <= k)%nat -> turns !! j = Some (c, x) -> c < deadline.
Proof.
  induction turns as [|[clock chunk] rest IH]; intros text.
  - simpl. split; [discriminate|]. intros (k & c & x & Hk & _). discriminate.
  - cbn [appended log_loop log_clock log_read].
    rewrite JSFacts.slice_from_length_app.
    destruct (Z.ltb_spec clock deadline) as [Hin|Hout].
    + destruct (test chunk) eqn:Htest.
      * split; [intros _ | reflexivity].
        exists 0%nat, clock, chunk. split; [reflexivity|]. split; [exact Htest|].
        intros j c x Hj Hjx. assert (j = 0%nat) as -> by lia.
        injection Hjx as <- <-. exact Hin.
      * rewrite IH. split.
        -- intros (k & c & x & Hk & Hx & Hall).
           exists (S k), c, x. split; [exact Hk|]. split; [exact Hx|].
           intros [|j] c' x' Hj Hjx.
           ++ injection Hjx as <- <-. exact Hin.
           ++ apply (Hall j c' x'); [lia | exact Hjx].
        -- intros ([|k] & c & x & Hk & Hx & Hall).
           ++ injection Hk as <- <-. congruence.
           ++ exists k, c, x. split; [exact Hk|]. split; [exact Hx|].
              intros j c' x' Hj Hjx. apply (Hall (S j) c' x'); [lia | exact Hjx].
    + split; [discriminate|]. intros (k & c & x & Hk & Hx & Hall).
      specialize (Hall 0%nat clock chunk ltac:(lia) eq_refl). lia.
Qed.

(** X20.  On a log that only grows and is read at every turn,
    [waitForLogPattern] tests each newly appended chunk on its own (the
    first chunk being all the file held at the first read): it reports
    ready exactly when the regex matches inside one chunk read before
    the deadline, all earlier turns having started before the deadline
    too.  A match that straddles two reads is not seen. *)
Theorem waitForLogPattern_tests_each_appended_chunk_alone :
  forall (test : string -> bool) (t0 timeoutMs : Z) (turns : list (Z * string)),
    waitForLogPattern test t0 timeoutMs (appended "" turns) = Some true <->
    exists (k : nat) (clock : Z) (chunk : string),
      turns !! k = Some (clock, chunk)
      /\ test chunk = true
      /\ forall (j : nat) (c : Z) (x : string),
           (j <= k)%nat -> turns !! j = Some (c, x) -> c < t0 + timeoutMs.
Proof.
  intros test t0 timeoutMs turns. unfold waitForLogPattern.
  exact (log_loop_appended test (t0 + timeoutMs) turns "").
Qed.

End LogGrowthFacts.

(** ** The further properties at work on concrete hosts *)

Module MoreExamples.
Import Scenario Fixtures.

Section Supervisor.
Import Proc ProcFacts LifecycleFacts.

Lemma startDaemon_pid_file_agrees_with_result_witness :
  startDaemon steadyHost 2 caddy idle =
    (Ok {| status := Started; pid := 4000; alive := true; ready := Some true |},
     afterStart)
  /\ fs afterStart !! pidFile caddy = Some (JS.ofZ 4000 +:+ String "010" "").
Proof.
  assert (startDaemon steadyHost 2 caddy idle =
            (Ok {| status := Started; pid := 4000; alive := true;
                   ready := Some true |}, afterStart)) as Hstart
      by (vm_compute; reflexivity).
  split; [exact Hstart|].
  exact (startDaemon_pid_file_agrees_with_result
           steadyHost 0 caddy idle afterStart _ Hstart).
Defined.

Lemma startDaemon_again_reports_already_running_witness :
  startDaemon steadyHost 2 caddy idle =
    (Ok {| status := Started; pid := 4000; alive := true; ready := Some true |},
     afterStart)
  /\ startDaemon steadyHost 1 caddy afterStart =
       (Ok {| status := AlreadyRunning; pid := 4000;
              alive := true; ready := Some true |},
        logged (Kill 4000 SIG0) afterStart).
Proof.
  assert (startDaemon steadyHost 2 caddy idle =
            (Ok {| status := Started; pid := 4000; alive := true;
                   ready := Some true |}, afterStart)) as Hstart
      by (vm_compute; reflexivity).
  split; [exact Hstart|].
  apply (startDaemon_again_reports_already_running
           steadyHost 0 0 caddy idle afterStart afterStart _ Hstart).
  - reflexivity.
  - simpl. lia.
  - reflexivity.
  - vm_compute; reflexivity.
Defined.

Lemma stopByPidFile_stops_the_started_child_witness :
  exists s',
    stopByPidFile steadyHost (pidFile caddy) defaults afterStart =
      (Ok {| stopped := true; stop_pid := Some 4000;
             reason := None; error := None |}, s')
    /\ fs s' !! pidFile caddy = None
    /\ events s' =
         events afterStart
         ++ unixKillTrace 4000 100 true
         ++ [Remove (pidFile caddy)].
Proof.
  apply (stopByPidFile_stops_the_started_child
           steadyHost 0 caddy idle afterStart
           {| status := Started; pid := 4000; alive := true; ready := Some true |}
           defaults).
  - reflexivity.
  - vm_compute; reflexivity.
  - reflexivity.
  - simpl. lia.
Defined.


Lemma stopByPidFile_windows_never_kills_the_tree_witness :
  exists s',
    stopByPidFile windowsHost (pidFile caddy)
      {| gentleMs := None; killGroup := Some true |} (recorded "4321") =
      (Ok {| stopped := true; stop_pid := Some 4321;
             reason := None; error := None |}, s')
    /\ fs s' = delete (pidFile caddy) (fs (recorded "4321"))
    /\ events s' =
         events (recorded "4321")
         ++ [Taskkill ["/PID"; JS.ofZ 4321];
             Sleep 200;
             Taskkill ["/PID"; JS.ofZ 4321; "/F"];
             Remove (pidFile caddy)].
Proof.
  apply (stopByPidFile_windows_never_kills_the_tree
           windowsHost (pidFile caddy)
           {| gentleMs := None; killGroup := Some true |} (recorded "4321")
           "4321" 4321).
  - reflexivity.
  - vm_compute; reflexivity.
  - vm_compute; reflexivity.
Defined.

Lemma reapByEnv_kills_only_leased_processes_witness :
  Reaper.onePlatform leaseHost
  /\ exists victims s',
      Reaper.reapByEnv leaseHost lease idle = (Ok victims, s')
      /\ fs s' = fs idle
      /\ events s' = events idle ++ Reaper.reapTrace leaseHost victims
      /\ Forall (fun v => Reaper.leased leaseHost lease (Reaper.victim_pid v)) victims
      /\ (Reaper.isLinux leaseHost = false -> victims = [] /\ s' = idle).
Proof.
  assert (Reaper.onePlatform leaseHost) as Hone by (intros _; reflexivity).
  split; [exact Hone|].
  apply (ReaperFacts.reapByEnv_kills_only_leased_processes leaseHost lease idle Hone).
Defined.

(** On that machine the reaper goes after 4242 alone: PID 1 carries the
    lease too but is below 2, and 4300 does not carry it. *)
Example reapByEnv_spares_init :
  fst (Reaper.reapByEnv leaseHost lease idle)
  = Ok [ {| Reaper.victim_pid := 4242; Reaper.victim_cmdline := "sleep 600" |} ].
Proof. vm_compute. reflexivity. Qed.

End Supervisor.

Section Messages.
Import Messages MessagesFacts.

Lemma applyParams_replaces_placeholders_left_to_right_witness :
  applyParams "Invalid port for " (Props portParams) = "Invalid port for "
  /\ applyParams "Invalid port for {name}: {value}" (Props portParams)
     = "Invalid port for ASD_CADDY_PORT_HTTP"
       +:+ applyParams ": {value}" (Props portParams).
Proof.
  apply (applyParams_replaces_placeholders_left_to_right
           portParams "Invalid port for " "name" ": {value}").
  - reflexivity.
  - reflexivity.
  - discriminate.
Defined.


(** The message itself: the missing value leaves nothing behind. *)
Example t_invalid_port :
  t (fun _ => None) "ERR_INVALID_PORT" (Props portParams)
  = "Invalid port for ASD_CADDY_PORT_HTTP: ".
Proof. reflexivity. Qed.

End Messages.

Section Resolvers.
Import Resolver ResolverFacts Ancestry Layout LayoutFacts.

Lemma project_noProjectDir : noProjectDir project.
Proof. intros v Hv. vm_compute in Hv. discriminate. Qed.

Lemma resolveProjectRoot_returns_nearest_project_witness :
  resolveProjectRoot workstation project "/srv/app/src/lib" = Some "/srv/app".
Proof.
  apply (resolveProjectRoot_returns_nearest_project
           workstation project "/srv/app/src/lib" 2 project_noProjectDir).
  - lia.
  - intros [|[|j]] Hj; [split; vm_compute; [reflexivity | discriminate]
                       | split; vm_compute; [reflexivity | discriminate]
                       | lia].
  - intros [|[|[|j]]] Hj; [vm_compute; reflexivity ..| lia].
  - vm_compute. reflexivity.
Defined.

Lemma nowhere_finds_nothing dir :
  notCheckout workstation nowhere dir /\ noAsdIn workstation nowhere dir.
Proof.
  unfold notCheckout, noAsdIn, looksLikeCli, existsSync, nowhere, boot; cbn [disk].
  rewrite !bool_decide_eq_false_2 by set_solver.
  split; [apply andb_false_r | reflexivity].
Qed.

Lemma resolveProjectRoot_falls_back_to_startDir_witness :
  resolveProjectRoot workstation nowhere "/srv/app/src/lib" = Some "/srv/app/src/lib".
Proof.
  apply (resolveProjectRoot_falls_back_to_startDir
           workstation nowhere "/srv/app/src/lib").
  - intros v Hv. vm_compute in Hv. discriminate.
  - intros j _. apply nowhere_finds_nothing.
Defined.

Lemma resolveWorkspaceDirForLogs_agrees_under_ASD_WORKSPACE_DIR_witness :
  whenSome (resolveWorkspaceDir workstation "/srv/app" pinned)
    (fun r => resolveWorkspaceDirForLogs devMachine (Some "/etc/asd/menu.json") pinned
              = Some (fst r)).
Proof.
  apply (resolveWorkspaceDirForLogs_agrees_under_ASD_WORKSPACE_DIR
           devMachine (Some "/etc/asd/menu.json") pinned "/var/asd/ws").
  - vm_compute. exact I.
  - vm_compute. reflexivity.
  - vm_compute. discriminate.
Defined.

(** Both resolvers give the pinned directory. *)
Example pinned_workspace :
  fst <$> resolveWorkspaceDir workstation "/srv/app" pinned = Some "/var/asd/ws"
  /\ resolveWorkspaceDirForLogs devMachine None pinned = Some "/var/asd/ws".
Proof. split; vm_compute; reflexivity. Qed.

End Resolvers.

End MoreExamples.
